(** * Medusa: ensembles of metabolic models

    A shallow embedding of [medusa/core/ensemble.py]: the [Ensemble]
    constructor (the second, effective [__init__]), [_create_base_model],
    [_apply_state], [set_features_states], [update_features_states] and the
    two merge helpers [_resolve_from_both_bases] and
    [_find_feature_from_base], together with the fragment of cobra and pandas
    these functions rely on. *)

From Stdlib Require Import Ascii.
From stdpp Require Import base option list strings pretty gmap sorting.

Local Open Scope Z_scope.
Local Open Scope nat_scope.

(** ** Exceptions and the two monads *)

(** The Python exceptions the module raises, explicitly ([ValueError],
    [AssertionError]) or through the objects it touches. *)
Inductive exn : Set :=
  | ValueError | KeyError | AttributeError | TypeError
  | NameError | UnboundLocalError | IndexError | AssertionError
  | ZeroDivisionError.

Global Instance exn_eq_dec : EqDecision exn.
Proof. solve_decision. Defined.

(** The outcome of evaluating an expression. *)
Inductive result (A : Type) : Type :=
  | Ok (a : A)
  | Raise (e : exn).
Global Arguments Ok {A} a.
Global Arguments Raise {A} e.

Global Instance result_ret : MRet result := λ A a, Ok a.
Global Instance result_bind : MBind result := λ A B f r,
  match r with
  | Ok a => f a
  | Raise e => Raise e
  end.

(** A [for] loop whose body may raise, threading an accumulator. *)
Fixpoint foldM {A B : Type} (f : B → A → result B) (l : list A) (b : B)
  : result B :=
  match l with
  | [] => Ok b
  | a :: l => b' ← f b a; foldM f l b'
  end.

(** ** cobra: reactions, models *)

(** A reaction carries its identifier and the two tracked attributes.  The
    bounds are Python numbers that the module only ever compares for
    equality. *)
Record Reaction : Set := {
  rxn_id : string;
  rxn_lower_bound : Z;
  rxn_upper_bound : Z
}.

Global Instance Reaction_eq_dec : EqDecision Reaction.
Proof. solve_decision. Defined.

(** A [cobra.Model]: an identifier and the [DictList] of its reactions, kept
    in insertion order.  A [DictList] holds every identifier once. *)
Record Model : Set := {
  model_id : string;
  reactions : list Reaction
}.

Global Instance Model_eq_dec : EqDecision Model.
Proof. solve_decision. Defined.

(** [cobra.Model(id)]: a fresh model without reactions. *)
Definition cobra_Model (i : string) : Model :=
  {| model_id := i; reactions := [] |}.

(** [DictList.get_by_id] *)
Definition get_by_id (l : list Reaction) (i : string) : result Reaction :=
  match list_find (λ r, rxn_id r = i) l with
  | Some (_, r) => Ok r
  | None => Raise KeyError
  end.

(** [Model.add_reactions]: reactions whose identifier the model already has
    are ignored, the others are appended. *)
Definition add_reactions (m : Model) (rxns : list Reaction) : Model :=
  {| model_id := model_id m;
     reactions := reactions m
       ++ filter (λ r, rxn_id r ∉ rxn_id <$> reactions m) rxns |}.

(** [Model.repair] rebuilds the indices of the [DictList]s. *)
Definition repair (m : Model) : Model := m.

(** An element of a model list.  Python does not type the list; of an
    element the module reads the attributes [reactions] and [id], and of a
    base model it also calls [copy] and iterates over it.  An element is a
    cobra model; or an object of some other class that has the two
    attributes, given here by their values, and neither [copy] nor an
    iteration; or an object that has none of these (a number, [None]). *)
Inductive PyObject : Set :=
  | PyModel (m : Model)
  | PyLike (m : Model)
  | PyOther.

Global Instance PyObject_eq_dec : EqDecision PyObject.
Proof. solve_decision. Defined.

(** [model.reactions] *)
Definition reactions_of (o : PyObject) : result (list Reaction) :=
  match o with
  | PyModel m | PyLike m => Ok (reactions m)
  | PyOther => Raise AttributeError
  end.

(** [model.id] *)
Definition id_of (o : PyObject) : result string :=
  match o with
  | PyModel m | PyLike m => Ok (model_id m)
  | PyOther => Raise AttributeError
  end.

(** [model.copy()] *)
Definition copy_of (o : PyObject) : result PyObject :=
  match o with
  | PyModel m => Ok (PyModel m)
  | PyLike _ | PyOther => Raise AttributeError
  end.

(** ** [Ensemble._create_base_model] *)

(** One pass of the outer loop: the reactions of [model] that the base model
    does not have yet are copied and added. *)
Definition create_base_model_step (base_model : Model) (model : PyObject)
  : result Model :=
  rs ← reactions_of model;
  let rxns_to_add :=
    filter (λ reaction, rxn_id reaction ∉ rxn_id <$> reactions base_model) rs in
  Ok (repair (add_reactions base_model rxns_to_add)).

Definition _create_base_model (model_list : list PyObject) (base_id : string)
  : result Model :=
  foldM create_base_model_step model_list (cobra_Model base_id).

(** ** pandas: the two tables of an ensemble *)

(** A row of [ensemble.features].  [f_feature_count] is [None] where the
    column is missing or holds NaN, as it does for freshly concatenated
    rows. *)
Record FeatureRow : Set := {
  f_lower_bound : Z;
  f_upper_bound : Z;
  f_type : string;
  f_model_identifier : string;
  f_feature_count : option nat
}.

Global Instance FeatureRow_eq_dec : EqDecision FeatureRow.
Proof. solve_decision. Defined.

(** The features table: index label and row, in row order. *)
Definition FeaturesFrame : Set := list (string * FeatureRow).

(** The states table: column labels, then one row of cells per index label.
    A cell is [None] where pandas holds NaN. *)
Definition StatesRow : Set := string * list (option bool).

Record StatesFrame : Set := {
  columns : list string;
  rows : list StatesRow
}.

Global Instance StatesFrame_eq_dec : EqDecision StatesFrame.
Proof. solve_decision. Defined.

(** [pd.DataFrame()] *)
Definition empty_states : StatesFrame := {| columns := []; rows := [] |}.

(** [new_df.columns.difference(['feature_count'])]: the columns two rows are
    compared on. *)
Definition key (r : FeatureRow) : Z * string * string * Z :=
  (f_lower_bound r, f_model_identifier r, f_type r, f_upper_bound r).

Section duplicated.
Context {K : Type} `{EqDecision K}.

(** [duplicated(subset)]: true for a row that repeats an earlier one. *)
Fixpoint duplicated_go (seen : list K) (l : list K) : list bool :=
  match l with
  | [] => []
  | k :: l => bool_decide (k ∈ seen) :: duplicated_go (k :: seen) l
  end.
Definition duplicated (l : list K) : list bool := duplicated_go [] l.

(** [duplicated(subset, keep=False)]: true for every row that occurs more
    than once. *)
Definition duplicated_keep_False (l : list K) : list bool :=
  (λ k, bool_decide (1 < length (filter (k =.) l))) <$> l.

(** [groupby(...).cumcount()]: the number of earlier rows of the same
    group. *)
Fixpoint cumcount_go (seen : list K) (l : list K) : list nat :=
  match l with
  | [] => []
  | k :: l => length (filter (k =.) seen) :: cumcount_go (k :: seen) l
  end.
Definition cumcount (l : list K) : list nat := cumcount_go [] l.
End duplicated.

(** [df[mask]]: the rows whose mask entry is true. *)
Fixpoint mask {A : Type} (m : list bool) (l : list A) : list A :=
  match m, l with
  | b :: m, x :: l => if b then x :: mask m l else mask m l
  | _, _ => []
  end.

(** [model_identifier + '_' + feature_count.astype(str)] *)
Definition feature_id (model_identifier : string) (feature_count : nat)
  : string :=
  model_identifier +:+ "_" +:+ pretty feature_count.

(** A row relabelled by its identifier and count. *)
Definition relabel (r : FeatureRow) (c : nat) : string * FeatureRow :=
  (feature_id (f_model_identifier r) c,
   {| f_lower_bound := f_lower_bound r; f_upper_bound := f_upper_bound r;
      f_type := f_type r; f_model_identifier := f_model_identifier r;
      f_feature_count := Some c |}).

(** A change applied to the cells of a row. *)
Definition map_cells (f : list (option bool) → list (option bool))
  (r : StatesRow) : StatesRow := (r.1, f r.2).

(** The cells of a row under the column labels [from], read at the labels
    [to]; a label the row does not have gives NaN. *)
Definition reindex (from to : list string) (cells : list (option bool))
  : list (option bool) :=
  let m : gmap string (option bool) := list_to_map (zip from cells) in
  (λ c, mjoin (m !! c)) <$> to.

(** [pd.concat([a, b])] on states tables: the rows of [a], then those of [b],
    over the columns of [a] followed by the further columns of [b]. *)
Definition concat_states (a b : StatesFrame) : StatesFrame :=
  let cols := columns a ++ filter (λ c, c ∉ columns a) (columns b) in
  {| columns := cols;
     rows := (map_cells (reindex (columns a) cols) <$> rows a)
          ++ (map_cells (reindex (columns b) cols) <$> rows b) |}.

(** [df.fillna(False)] *)
Definition fillna_False (a : StatesFrame) : StatesFrame :=
  {| columns := columns a;
     rows := map_cells (fmap (λ c, Some (default false c))) <$> rows a |}.

(** [a.join(b, how='outer')]: overlapping column labels are refused; the index
    is the sorted union of the two indexes, each row has its cells of [a] and
    of [b], NaN where a table lacks the row. *)
Definition join_outer (a b : StatesFrame) : result StatesFrame :=
  if decide (Exists (λ c, c ∈ columns a) (columns b)) then Raise ValueError
  else
    let index := merge_sort String.le (remove_dups (rows a).*1 ++
                   filter (λ i, i ∉ (rows a).*1) (remove_dups (rows b).*1)) in
    let cells (t : StatesFrame) (i : string) : list (option bool) :=
      default (replicate (length (columns t)) None)
              ((list_to_map (rows t) : gmap string (list (option bool))) !! i) in
    Ok {| columns := columns a ++ columns b;
          rows := (λ i, (i, cells a i ++ cells b i)) <$> index |}.

(** [df.columns = labels] *)
Definition set_columns (a : StatesFrame) (labels : list string)
  : result StatesFrame :=
  if decide (length (columns a) = length labels)
  then Ok {| columns := labels; rows := rows a |}
  else Raise ValueError.

(** ** The ensemble and the monad of its methods *)

Record Ensemble : Set := {
  ens_id : string;
  base_model : PyObject;
  features : FeaturesFrame;
  states : StatesFrame
}.

Global Instance Ensemble_eq_dec : EqDecision Ensemble.
Proof. solve_decision. Defined.

(** A computation on a mutable object of type [S]: it returns or raises, and
    leaves the object as the assignments executed so far have made it. *)
Definition ST (S A : Type) : Type := S → result A * S.

Global Instance ST_ret {S} : MRet (ST S) := λ A a s, (Ok a, s).
Global Instance ST_bind {S} : MBind (ST S) := λ A B f m s,
  match m s with
  | (Ok a, s') => f a s'
  | (Raise x, s') => (Raise x, s')
  end.

Definition get {S} : ST S S := λ s, (Ok s, s).
Definition put {S} (s : S) : ST S unit := λ _, (Ok (), s).
Definition raise {S A} (x : exn) : ST S A := λ s, (Raise x, s).
Definition lift {S A} (r : result A) : ST S A := λ s, (r, s).

(** The methods of the module act on an ensemble. *)
Abbreviation M := (ST Ensemble).

(** [ensemble.features = f], [ensemble.states = s], [ensemble.base_model = b] *)
Definition set_features (f : FeaturesFrame) : M unit := λ e,
  (Ok (), {| ens_id := ens_id e; base_model := base_model e;
             features := f; states := states e |}).
Definition set_states (s : StatesFrame) : M unit := λ e,
  (Ok (), {| ens_id := ens_id e; base_model := base_model e;
             features := features e; states := s |}).
Definition set_base_model (b : PyObject) : M unit := λ e,
  (Ok (), {| ens_id := ens_id e; base_model := b;
             features := features e; states := states e |}).

(** A [for] loop over [l] run for its effect on the object. *)
Fixpoint forM_ {S A : Type} (l : list A) (body : A → ST S unit) : ST S unit :=
  match l with
  | [] => mret ()
  | a :: l => body a;; forM_ l body
  end.

(** ** [set_features_states] *)

(** One pass of the first loop: the running set of shared reaction
    identifiers is intersected with those of [model], or replaced by them
    while it is empty. *)
Definition common_reactions_step (reaction_set : gset string)
  (model : PyObject) : result (gset string) :=
  rs ← reactions_of model;
  let model_reactions : gset string := list_to_set (rxn_id <$> rs) in
  Ok (if decide (0 < size reaction_set)
      then reaction_set ∩ model_reactions
      else model_reactions).

(** The entry the dictionary [variable_reactions] gets for a reaction. *)
Definition feature_of_reaction (i : string) (r : Reaction) : FeatureRow :=
  {| f_lower_bound := rxn_lower_bound r;
     f_upper_bound := rxn_upper_bound r;
     f_type := "reaction";
     f_model_identifier := i;
     f_feature_count := None |}.

(** One pass of the loop over [reactions_different]; the dictionary keeps its
    keys in insertion order. *)
Definition variable_reactions_step (rs : list Reaction)
  (variable_reactions : list (string * FeatureRow)) (reaction : Reaction)
  : result (list (string * FeatureRow)) :=
  if decide (rxn_id reaction ∈ variable_reactions.*1)
  then Ok variable_reactions
  else
    r ← get_by_id rs (rxn_id reaction);
    Ok (variable_reactions
          ++ [(rxn_id reaction, feature_of_reaction (rxn_id reaction) r)]).

(** [features = pd.DataFrame(variable_reactions).T] for one model: a row per
    reaction of the model outside [reaction_list], labelled by the reaction
    identifier. *)
Definition model_features (reaction_list : list string) (rs : list Reaction)
  : result FeaturesFrame :=
  let reactions_different :=
    filter (λ rxn, rxn_id rxn ∉ reaction_list) rs in
  foldM (variable_reactions_step rs) reactions_different [].

(** The branch [len(ensemble.features) > 0], up to the assignments: the new
    features table and its column [in_new_model]. *)
Definition merge_features (old new : FeaturesFrame)
  : FeaturesFrame * list bool :=
  let new_df := old ++ new in
  let subset := key <$> new_df.*2 in
  let duplicate_features := duplicated subset in
  let in_new_model := duplicated_keep_False subset in
  let new_df := mask (negb <$> duplicate_features) new_df in
  let in_new_model := mask (negb <$> duplicate_features) in_new_model in
  let feature_count := cumcount (f_model_identifier <$> new_df.*2) in
  let new_df := zip_with relabel new_df.*2 feature_count in
  let in_new_model :=
    zip_with (λ rowlabel b, if decide (rowlabel ∈ old.*1) then b else true)
             new_df.*1 in_new_model in
  (new_df, in_new_model).

(** The body of the second loop. *)
Definition set_features_states_body (reaction_list : list string)
  (model : PyObject) : M unit :=
  rs ← lift (reactions_of model);
  feats ← lift (model_features reaction_list rs);
  ensemble ← get;
  if decide (0 < length (features ensemble)) then
    let new_df := merge_features (features ensemble) feats in
    model_id ← lift (id_of model);
    let model_states :=
      {| columns := new_df.1.*1; rows := [(model_id, Some <$> new_df.2)] |} in
    set_features new_df.1;;
    set_states (fillna_False (concat_states (states ensemble) model_states))
  else
    set_features feats;;
    (* ensemble.features['model_identifier'] on a table without rows, hence
       without that column *)
    (if decide (feats = []) then raise KeyError else mret ());;
    let new := (λ p, relabel p.2 0) <$> feats in
    set_features new;;
    model_id ← lift (id_of model);
    let model_states :=
      {| columns := feats.*1;
         rows := [(model_id, (λ _, Some true) <$> feats)] |} in
    joined ← lift (join_outer (states ensemble) model_states);
    set_states joined;;
    renamed ← lift (set_columns joined new.*1);
    set_states renamed.

Definition set_features_states (model_list : list PyObject) : M unit :=
  if decide (length model_list = 1) then
    set_features [];;
    set_states empty_states;;
    match model_list with
    | model :: _ => set_base_model model
    | [] => mret ()
    end
  else
    reaction_set ← lift (foldM common_reactions_step model_list ∅);
    let reaction_list := elements reaction_set in
    forM_ model_list (set_features_states_body reaction_list).

(** ** [Ensemble.__init__] *)

(** The object once [features], [states], [id] and [base_model] are set. *)
Definition new_self (base_id : string) (b : PyObject) : Ensemble :=
  {| ens_id := base_id; base_model := b;
     features := []; states := empty_states |}.

(** The constructor hands the object back when its body returns. *)
Definition run_init (self : Ensemble) (body : M unit) : result Ensemble :=
  match body self with
  | (Ok _, self') => Ok self'
  | (Raise x, _) => Raise x
  end.

(** [Ensemble(base_id, model_list)], with [join_method] left at its default
    ["concurrent"]. *)
Definition Ensemble_concurrent (base_id : string)
  (model_list : option (list PyObject)) : result Ensemble :=
  match model_list with
  | None | Some [] =>
      Ok (new_self base_id (PyModel (cobra_Model (base_id +:+ "_base_model"))))
  | Some model_list =>
      base ← _create_base_model model_list (base_id +:+ "_base_model");
      run_init (new_self base_id (PyModel base))
               (set_features_states model_list)
  end.

(** ** Reading the features table *)

(** The value of a cell of the features table. *)
Inductive cell : Set :=
  | CNum (z : Z)
  | CStr (s : string)
  | CInt (n : nat)
  | CNaN.

Global Instance cell_eq_dec : EqDecision cell.
Proof. solve_decision. Defined.

(** [feature[name]] on a row of the features table: the five columns the
    module creates, [KeyError] for any other label. *)
Definition row_get (feature : FeatureRow) (name : string) : result cell :=
  if decide (name = "lower_bound") then Ok (CNum (f_lower_bound feature))
  else if decide (name = "upper_bound") then Ok (CNum (f_upper_bound feature))
  else if decide (name = "type") then Ok (CStr (f_type feature))
  else if decide (name = "model_identifier")
       then Ok (CStr (f_model_identifier feature))
  else if decide (name = "feature_count")
       then Ok (from_option CInt CNaN (f_feature_count feature))
  else Raise KeyError.

(** [df[name]] on the features table. *)
Definition getitem (df : FeaturesFrame) (name : string) : result (list cell) :=
  if decide (name ∈ ["lower_bound"; "upper_bound"; "type";
                     "model_identifier"; "feature_count"])
  then mapM (λ p, row_get p.2 name) df
  else Raise KeyError.

(** [reactions.get_by_id(v)] for a cell [v]. *)
Definition get_by_id_cell (rs : list Reaction) (v : cell) : result Reaction :=
  match v with
  | CStr i => get_by_id rs i
  | _ => Raise KeyError
  end.

(** ** [_find_feature_from_base] *)

(** What a Python function hands back when it ends without [return]. *)
Definition PyNone : option bool := None.

(** Truth value of [None], [True], [False]. *)
Definition truthy (v : option bool) : bool := default false v.

Definition _find_feature_from_base (feature : FeatureRow)
  (ensemble : Ensemble) : result (option bool) :=
  ty ← row_get feature "type";
  if decide (ty = CStr "reaction") then
    i ← row_get feature "model_identifier";
    rs ← reactions_of (base_model ensemble);
    r ← get_by_id_cell rs i;
    let check_params :=
      [("lower_bound", CNum (rxn_lower_bound r));
       ("upper_bound", CNum (rxn_upper_bound r))] in
    compare_feature ←
      mapM (λ p : string * cell,
              v ← row_get feature p.1; Ok (bool_decide (v = p.2)))
           check_params;
    let found : bool :=
      bool_decide (length (filter (λ b : bool, b = true) compare_feature)
                   = length check_params) in
    (* [found] is computed and the function ends: there is no [return] *)
    Ok PyNone
  else Raise AssertionError.

(** ** [_resolve_from_both_bases] *)

(** [updated_states[index, label] = True], the statement under [if found:].
    The source subscripts the frame itself with the pair of the row labels
    and the column label; it is read here as the assignment through [.loc]
    that the neighbouring comments describe: the cell of column [label] is
    set in the rows named by [index], and a row or column the table lacks is
    a [KeyError].  No run reaches the statement, since [found] is never true
    (see [find_feature_from_base_cases]), and no property below depends on
    this reading. *)
Definition setitem_True (index : list string) (label : string)
  : ST StatesFrame unit :=
  s ← get;
  match list_find (label =.) (columns s) with
  | None => raise KeyError
  | Some (j, _) =>
      if decide (Forall (λ i, i ∈ (rows s).*1) index) then
        put {| columns := columns s;
               rows := (λ r : StatesRow,
                          if decide (r.1 ∈ index)
                          then map_cells (<[j := Some true]>) r else r)
                       <$> rows s |}
      else raise KeyError
  end.

(** The loop of the branch [features_in == 'old'].  [found] is [None] while
    the variable is unbound. *)
Fixpoint resolve_old_loop (l : FeaturesFrame) (new_ensemble : Ensemble)
  (found : option (option bool)) : ST StatesFrame (option (option bool)) :=
  match l with
  | [] => mret found
  | (feature_id, feature) :: l =>
      v ← lift (_find_feature_from_base feature new_ensemble);
      if truthy v then
        setitem_True (rows (states new_ensemble)).*1 feature_id;;
        mret (Some v)
      else resolve_old_loop l new_ensemble (Some v)
  end.

(** The statements under [if not found], for the ensemble [other] whose base
    model is consulted. *)
Definition resolve_not_found (features_only_in : FeaturesFrame)
  (other : Ensemble) (updated_features : FeaturesFrame)
  : ST StatesFrame unit :=
  match features_only_in with
  | [] => raise IndexError
  | (_, feature) :: _ =>
      ty ← lift (row_get feature "type");
      i ← lift (row_get feature "model_identifer");
      (if decide (ty = CStr "reaction") then
         i' ← lift (row_get feature "model_identifier");
         rs ← lift (reactions_of (base_model other));
         lift (get_by_id_cell rs i');;
         lift (get_by_id_cell rs i');;
         mret ()
       else raise AssertionError);;
      lift (getitem updated_features "model_identifer");;
      (* the new row is built from that column; the lookup never returns *)
      raise TypeError
  end.

(** The argument [updated_states] is changed in place; [updated_features] is
    only rebound inside the function. *)
Definition _resolve_from_both_bases (features_only_in : FeaturesFrame)
  (new_ensemble old_ensemble : Ensemble) (updated_features : FeaturesFrame)
  (features_in : string) : ST StatesFrame unit :=
  if decide (features_in = "old") then
    found ← resolve_old_loop features_only_in new_ensemble None;
    match found with
    | None => raise UnboundLocalError
    | Some v =>
        if truthy v then mret ()
        else resolve_not_found features_only_in new_ensemble updated_features
    end
  else if decide (features_in = "new") then
    (* [features_only_in.loc[feature]] reads [feature] before it is bound;
       without rows, [found] is read before it is bound *)
    raise UnboundLocalError
  else if decide (features_in = "both") then
    match features_only_in with
    | [] => mret ()
    | _ :: _ => raise UnboundLocalError
    end
  else mret ().

(** ** [update_features_states] and the constructor *)

Section merge.
(** [for rxn in ensemble.base_model].  The iteration is a parameter: what
    holds of the merge whatever the iteration does is stated for every
    [Model_iter]; what it does in the program is [iter_TypeError] below. *)
Variable Model_iter : PyObject → result (list Reaction).

(** The body of the loop over [base_rxns_in_both], as far as control can
    get. *)
Definition update_loop_body (old_ensemble new_ensemble : Ensemble)
  (reaction : string) : M unit :=
  col ← lift (getitem (features old_ensemble) "model_identifer");
  let all_features_in_old :=
    mask ((λ c, bool_decide (c = CStr reaction)) <$> col)
         (features old_ensemble) in
  if decide (0 < length (features new_ensemble)) then
    lift (getitem (features new_ensemble) "model_identifer");;
    (* [all_features] is not defined *)
    raise NameError
  else
    (* [pd.concat(all_features_in_old, features_only_in_both)] *)
    raise TypeError.

Definition update_features_states (model_list : list PyObject) : M unit :=
  old_ensemble ← get;
  if decide (length (features old_ensemble) < 1) then
    new_ensemble ← lift (Ensemble_concurrent (ens_id old_ensemble)
                           (Some (base_model old_ensemble :: model_list)));
    set_base_model (base_model new_ensemble);;
    set_features (features new_ensemble);;
    set_states (states new_ensemble)
  else
    new_ensemble ← lift (Ensemble_concurrent "new_models" (Some model_list));
    (* the copies [updated_features], [updated_states] and [updated_base]
       are made here and never assigned back *)
    let updated_features := features old_ensemble in
    let updated_states := states old_ensemble in
    updated_base ← lift (copy_of (base_model old_ensemble));
    old_reactions ← lift (Model_iter (base_model old_ensemble));
    new_reactions ← lift (Model_iter (base_model new_ensemble));
    let old_set : gset string := list_to_set (rxn_id <$> old_reactions) in
    let new_set : gset string := list_to_set (rxn_id <$> new_reactions) in
    let base_rxns_in_both := elements (old_set ∩ new_set) in
    forM_ base_rxns_in_both (update_loop_body old_ensemble new_ensemble).

(** The position a slice bound stands for in a list of length [len]: counted
    from the end when it is negative, and cut to the list. *)
Definition slice_index (len : nat) (i : Z) : nat :=
  if decide (i < 0)%Z then Z.to_nat (Z.of_nat len + i)
  else Z.to_nat i `min` len.

(** [model_list[a:b]] and [model_list[a:]] *)
Definition slice {A : Type} (l : list A) (a b : Z) : list A :=
  take (slice_index (length l) b - slice_index (length l) a)
       (drop (slice_index (length l) a) l).

Definition slice_from {A : Type} (l : list A) (a : Z) : list A :=
  drop (slice_index (length l) a) l.

(** [range(n)]: empty when [n] is not positive. *)
Definition range (n : Z) : list Z := Z.of_nat <$> seq 0 (Z.to_nat n).

(** The branch [join_method == "iterative"].  [join_size] is any Python
    integer.  [int(len(model_list)/join_size)] is the quotient rounded
    towards zero where [/] divides exactly, and rounded down where [/]
    divides integers; the two agree for a positive [join_size], and both are
    at most zero, so that the loop is not entered, for a negative one. *)
Definition init_iterative (model_list : list PyObject) (join_size : Z)
  : M unit :=
  set_features_states (slice model_list 0 join_size);;
  (if decide (join_size = 0)%Z then raise ZeroDivisionError else mret ());;
  let remainder := (Z.of_nat (length model_list) `mod` join_size)%Z in
  let steps := (Z.of_nat (length model_list) `quot` join_size)%Z in
  forM_ (range steps) (λ i,
    let model_group :=
      slice model_list ((i + 1) * join_size)%Z (i + 2 * join_size)%Z in
    update_features_states model_group);;
  if decide (0 < remainder)%Z
  then update_features_states (slice_from model_list (-1 * remainder)%Z)
  else mret ().

(** [Ensemble(base_id, model_list, join_method, join_size)] *)
Definition Ensemble_init (base_id : string)
  (model_list : option (list PyObject)) (join_method : string)
  (join_size : Z) : result Ensemble :=
  if decide (join_method ∉ ["concurrent"; "iterative"]) then Raise ValueError
  else
    match model_list with
    | None | Some [] =>
        Ok (new_self base_id
              (PyModel (cobra_Model (base_id +:+ "_base_model"))))
    | Some model_list =>
        if decide (join_method = "concurrent") then
          Ensemble_concurrent base_id (Some model_list)
        else
          run_init
            (new_self base_id
               (PyModel (cobra_Model (base_id +:+ "_base_model"))))
            (init_iterative model_list join_size)
    end.
End merge.

(** What the iteration does in the program: [cobra.Model] defines neither
    [__iter__] nor [__getitem__], so that [for rxn in model] raises
    [TypeError], as it does on the other elements. *)
Definition iter_TypeError (o : PyObject) : result (list Reaction) :=
  Raise TypeError.

(** What the comprehensions of [update_features_states] are written for: an
    iteration that enumerates the reactions of a model.  No run of the
    program behaves so; the reading serves to tell what the code after the
    iteration would do. *)
Definition iter_reactions (o : PyObject) : result (list Reaction) :=
  match o with
  | PyModel m => Ok (reactions m)
  | PyLike _ | PyOther => Raise TypeError
  end.

(** ** Notions used in the statements *)

(** An element with its class forgotten: an object that has the two
    attributes, read as the model with these attributes. *)
Definition as_model (o : PyObject) : PyObject :=
  match o with
  | PyLike m => PyModel m
  | _ => o
  end.

(** The reaction identifiers of a model. *)
Definition reaction_ids (m : Model) : list string := rxn_id <$> reactions m.

(** The reaction identifiers of the base model of an ensemble. *)
Definition base_reaction_ids (e : Ensemble) : list string :=
  match base_model e with
  | PyModel m | PyLike m => reaction_ids m
  | PyOther => []
  end.

(** The common reaction set of a list of models, as the first loop of
    [set_features_states] computes it. *)
Definition common_reactions (ml : list Model) : gset string :=
  foldl (λ (reaction_set : gset string) (m : Model),
           if decide (0 < size reaction_set)
           then reaction_set ∩ list_to_set (reaction_ids m)
           else list_to_set (reaction_ids m)) ∅ ml.

(** The rows one model contributes: those of its reactions outside
    [reaction_list]. *)
Definition model_rows (reaction_list : list string) (m : Model)
  : FeaturesFrame :=
  match model_features reaction_list (reactions m) with
  | Ok rows => rows
  | Raise _ => []
  end.

(** The compared columns of every row of a table. *)
Definition keys (df : FeaturesFrame) : list (Z * string * string * Z) :=
  (λ p, key p.2) <$> df.

(** A table whose counts and labels are those the renumbering gives. *)
Definition numbered (df : FeaturesFrame) : Prop :=
  df = zip_with relabel df.*2 (cumcount (f_model_identifier <$> df.*2)).

(** The row of a member: true at the Features whose component and values the
    member has among its rows. *)
Definition member_row (reaction_list : list string) (df : FeaturesFrame)
  (m : Model) : StatesRow :=
  (model_id m,
   (λ p, Some (bool_decide (key p.2 ∈ keys (model_rows reaction_list m))))
     <$> df).

Definition states_of (reaction_list : list string) (ml : list Model)
  (df : FeaturesFrame) : StatesFrame :=
  {| columns := df.*1; rows := member_row reaction_list df <$> ml |}.

(** The cell of a row under a column label. *)
Definition cell_at (s : StatesFrame) (r : StatesRow) (label : string)
  : option bool :=
  mjoin ((list_to_map (zip (columns s) r.2) : gmap string (option bool))
           !! label).

(** At most one Feature of a component is true for a member. *)
Definition mutually_exclusive (e : Ensemble) : Prop :=
  ∀ r l1 f1 l2 f2,
    r ∈ rows (states e) →
    (l1, f1) ∈ features e → (l2, f2) ∈ features e →
    f_model_identifier f1 = f_model_identifier f2 →
    cell_at (states e) r l1 = Some true →
    cell_at (states e) r l2 = Some true →
    l1 = l2.

(** An ensemble with its two tables replaced. *)
Definition with_tables (e : Ensemble) (F : FeaturesFrame) (S : StatesFrame)
  : Ensemble :=
  {| ens_id := ens_id e; base_model := base_model e;
     features := F; states := S |}.

(** What the second loop of [set_features_states] has established once the
    models [pre] are done. *)
Definition catalog_of (reaction_list : list string) (pre : list Model)
  (e : Ensemble) : Prop :=
  features e ≠ []
  ∧ numbered (features e)
  ∧ NoDup (keys (features e))
  ∧ (∀ k, k ∈ keys (features e)
          ↔ ∃ m, m ∈ pre ∧ k ∈ keys (model_rows reaction_list m))
  ∧ states e = states_of reaction_list pre (features e).

(** The reaction [i] is in every model of the list. *)
Definition in_every_model (ml : list Model) (i : string) : Prop :=
  ∀ m, m ∈ ml → i ∈ reaction_ids m.

(** Whenever the first loop of [set_features_states] comes to a further
    model, the models it has read share a reaction: its running intersection
    is not empty. *)
Definition intersection_stays_nonempty (ml : list Model) : Prop :=
  ∀ n, 0 < n < length ml → ∃ i, in_every_model (take n ml) i.

(** The member has a reaction with the identifier and the bounds of the
    row. *)
Definition has_variant (m : Model) (k : Z * string * string * Z) : bool :=
  match get_by_id (reactions m) k.1.1.2 with
  | Ok r => bool_decide (rxn_lower_bound r = k.1.1.1
                         ∧ rxn_upper_bound r = k.2)
  | Raise _ => false
  end.

(** The ensemble built from the models [ml]: its base model has the
    reactions of all of them; its catalog has one Feature per distinct
    combination of identifier and bounds among the reactions that some model
    lacks, and none at a reaction that every model has; the states have one
    row per model, in order, under the labels of the catalog, true at the
    Features whose reaction the model has with these bounds. *)
Definition catalog_spec (ml : list Model) (e : Ensemble) : Prop :=
  (∀ i, i ∈ base_reaction_ids e ↔ ∃ m, m ∈ ml ∧ i ∈ reaction_ids m)
  ∧ NoDup (keys (features e))
  ∧ (∀ lb i ty ub,
       (lb, i, ty, ub) ∈ keys (features e)
       ↔ ¬ in_every_model ml i ∧ ty = "reaction"
         ∧ ∃ m r, m ∈ ml ∧ get_by_id (reactions m) i = Ok r
                  ∧ rxn_lower_bound r = lb ∧ rxn_upper_bound r = ub)
  ∧ columns (states e) = (features e).*1
  ∧ rows (states e)
    = (λ m, (model_id m,
             (λ p : string * FeatureRow, Some (has_variant m (key p.2)))
               <$> features e)) <$> ml.

(** A string without the character that separates identifier and count. *)
Fixpoint no_underscore (s : string) : Prop :=
  match s with
  | EmptyString => True
  | String a s => a ≠ "_"%char ∧ no_underscore s
  end.

(** The number of occurrences of [k]. *)
Definition count_of {K : Type} `{EqDecision K} (k : K) (l : list K) : nat :=
  length (filter (k =.) l).

(** An ensemble as the constructor leaves it: without features and states,
    or with the catalog of some list of models. *)
Definition built (e : Ensemble) : Prop :=
  (features e = [] ∧ states e = empty_states)
  ∨ ∃ rl pre, catalog_of rl pre e.

(** The rows of the models in the order in which they are first seen. *)
Definition first_seen_keys (reaction_list : list string) (ml : list Model)
  : list (Z * string * string * Z) :=
  foldl (λ acc m,
           acc ++ filter (λ k, k ∉ acc) (keys (model_rows reaction_list m)))
        [] ml.

(** The Features that a row of the states table marks true. *)
Definition active_keys (e : Ensemble) (r : StatesRow)
  : list (Z * string * string * Z) :=
  keys (mask ((λ c, bool_decide (c = Some true)) <$> r.2) (features e)).

(** ** [Ensemble._apply_state] *)

(** Truth value of a cell of the states table: NaN is a float other than
    zero. *)
Definition truthy_cell (c : option bool) : bool := default true c.

(** [rxn.lower_bound = v]: the name [rxn] is bound nowhere in the module. *)
Definition assign_rxn : result unit := Raise NameError.

(** [self.features.loc[label, column]]: the cells of the rows labelled
    [label], a single one where the label is unique. *)
Definition features_loc (df : FeaturesFrame) (label column : string)
  : result (list cell) :=
  match filter (λ p : string * FeatureRow, p.1 = label) df with
  | [] => Raise KeyError
  | found => mapM (λ p : string * FeatureRow, row_get p.2 column) found
  end.

(** One pass of the loop over [model_states.index], for the row of one
    member read as a series over the column labels. *)
Definition apply_state_body (self : Ensemble)
  (model_states : list (string * option bool)) (_ : unit)
  (entry : string * option bool) : result unit :=
  let reaction := entry.1 in
  (* a label that occurs twice selects a series, which has no truth value *)
  if decide (1 < count_of reaction model_states.*1) then Raise ValueError
  else if truthy_cell entry.2 then
    features_loc (features self) reaction "lower_bound";;
    assign_rxn;;
    features_loc (features self) reaction "upper_bound";;
    assign_rxn
  else
    assign_rxn;;
    assign_rxn.

Definition _apply_state (self : Ensemble) (model_id : string) : result unit :=
  match filter (λ r : StatesRow, r.1 = model_id) (rows (states self)) with
  | [] => Raise KeyError
  | [row] =>
      let model_states := zip (columns (states self)) row.2 in
      foldM (apply_state_body self model_states) model_states ()
  | _ :: _ :: _ =>
      (* [loc] gives a table, and so does [model_states.loc[reaction]]: it
         has no truth value *)
      Raise ValueError
  end.

(** ** Sample inputs *)

Definition rxn (i : string) (l u : Z) : Reaction :=
  {| rxn_id := i; rxn_lower_bound := l; rxn_upper_bound := u |}.

(** Three single-reaction models: [R1] with bounds (0,10), (0,10), (0,20). *)
Definition model_1 : Model :=
  {| model_id := "model_1"; reactions := [rxn "R1" 0 10] |}.
Definition model_2 : Model :=
  {| model_id := "model_2"; reactions := [rxn "R1" 0 10] |}.
Definition model_3 : Model :=
  {| model_id := "model_3"; reactions := [rxn "R1" 0 20] |}.

(** Models that differ in the reactions they have. *)
Definition model_A : Model :=
  {| model_id := "A"; reactions := [rxn "R1" 0 10; rxn "R2" 0 5] |}.
Definition model_B : Model :=
  {| model_id := "B"; reactions := [rxn "R1" 0 10] |}.
Definition model_C : Model :=
  {| model_id := "C"; reactions := [rxn "R3" 1 2] |}.
Definition model_D : Model :=
  {| model_id := "D"; reactions := [rxn "R3" 1 2; rxn "R4" 0 1] |}.
Definition model_F : Model :=
  {| model_id := "F"; reactions := [rxn "R1" 0 20; rxn "R2" 0 5] |}.

(** The ensemble of [model_A] and [model_B]. *)
Definition ensemble_AB : Ensemble :=
  {| ens_id := "ens";
     base_model := PyModel {| model_id := "ens_base_model";
                              reactions := [rxn "R1" 0 10; rxn "R2" 0 5] |};
     features := [relabel (feature_of_reaction "R2" (rxn "R2" 0 5)) 0];
     states := {| columns := ["R2_0"];
                  rows := [("A", [Some true]); ("B", [Some false])] |} |}.

(** The ensemble of [model_A], [model_B] and [model_F]: [R1] is in every
    model, with bounds that differ, and is no Feature. *)
Definition ensemble_ABF : Ensemble :=
  {| ens_id := "ens";
     base_model := PyModel {| model_id := "ens_base_model";
                              reactions := [rxn "R1" 0 10; rxn "R2" 0 5] |};
     features := [relabel (feature_of_reaction "R2" (rxn "R2" 0 5)) 0];
     states := {| columns := ["R2_0"];
                  rows := [("A", [Some true]); ("B", [Some false]);
                           ("F", [Some true])] |} |}.

(** An ensemble whose member is true for two variants of [R2]. *)
Definition ensemble_two_variants : Ensemble :=
  {| ens_id := "ens";
     base_model := PyModel {| model_id := "ens_base_model";
                              reactions := [rxn "R1" 0 10; rxn "R2" 0 5] |};
     features := [relabel (feature_of_reaction "R2" (rxn "R2" 0 5)) 0;
                  relabel (feature_of_reaction "R2" (rxn "R2" 0 7)) 1];
     states := {| columns := ["R2_0"; "R2_1"];
                  rows := [("A", [Some true; Some true])] |} |}.

(** A model with a second variant of [R2]. *)
Definition model_G : Model :=
  {| model_id := "G"; reactions := [rxn "R1" 0 10; rxn "R2" 0 7] |}.

(** The ensemble of [model_A], [model_B] and [model_G]: two variants of
    [R2]. *)
Definition ensemble_ABG : Ensemble :=
  {| ens_id := "ens";
     base_model := PyModel {| model_id := "ens_base_model";
                              reactions := [rxn "R1" 0 10; rxn "R2" 0 5] |};
     features := [relabel (feature_of_reaction "R2" (rxn "R2" 0 5)) 0;
                  relabel (feature_of_reaction "R2" (rxn "R2" 0 7)) 1];
     states := {| columns := ["R2_0"; "R2_1"];
                  rows := [("A", [Some true; Some false]);
                           ("B", [Some false; Some false]);
                           ("G", [Some false; Some true])] |} |}.

(** * Properties *)

(** ** Unfolding the monads *)

Lemma result_bind_Ok {A B} (f : A → result B) (a : A) :
  (Ok a ≫= f) = f a.
Proof. reflexivity. Qed.

Lemma ST_bind_unfold {S A B} (f : A → ST S B) (m : ST S A) (s : S) :
  (m ≫= f) s = match m s with
               | (Ok a, s') => f a s'
               | (Raise x, s') => (Raise x, s')
               end.
Proof. reflexivity. Qed.

Lemma foldM_cons {A B} (f : B → A → result B) (a : A) (l : list A) (b : B) :
  foldM f (a :: l) b = (f b a ≫= foldM f l).
Proof. reflexivity. Qed.

Lemma foldM_app {A B} (f : B → A → result B) (l1 l2 : list A) (b : B) :
  foldM f (l1 ++ l2) b = (foldM f l1 b ≫= foldM f l2).
Proof.
  revert b. induction l1 as [|a l1 IH]; intros b; simpl; [done|].
  destruct (f b a) as [b'|x]; simpl; [apply IH|done].
Qed.

(** ** Lists *)

Section list_facts.
Context {A : Type} (P : A → Prop) `{!∀ x, Decision (P x)}.

Lemma filter_none (l : list A) : (∀ x, x ∈ l → ¬ P x) → filter P l = [].
Proof.
  induction l as [|a l IH]; intros Hl; [done|].
  rewrite filter_cons_False by (apply Hl; left).
  apply IH. intros x Hx. apply Hl. by right.
Qed.

Lemma filter_all (l : list A) : (∀ x, x ∈ l → P x) → filter P l = l.
Proof.
  induction l as [|a l IH]; intros Hl; [done|].
  rewrite filter_cons_True by (apply Hl; left).
  f_equal. apply IH. intros x Hx. apply Hl. by right.
Qed.
End list_facts.

(** A loop whose body keeps the object as it is, returning or not, keeps it
    as it is. *)
Lemma forM__unchanged {S A} (l : list A) (body : A → ST S unit) (s : S) :
  (∀ a, a ∈ l → (body a s).2 = s) → (forM_ l body s).2 = s.
Proof.
  induction l as [|a l IH]; intros Hb; simpl; [done|].
  rewrite ST_bind_unfold.
  pose proof (Hb a ltac:(left)) as Ha.
  destruct (body a s) as [[[]|x] s']; simpl in *; subst; [|done].
  apply IH. intros a' Ha'. apply Hb. by right.
Qed.

(** ** The base model *)

Lemma add_reactions_ids (m : Model) (rs : list Reaction) (i : string) :
  i ∈ reaction_ids (add_reactions m rs)
  ↔ i ∈ reaction_ids m ∨ i ∈ rxn_id <$> rs.
Proof.
  unfold reaction_ids, add_reactions; simpl.
  rewrite fmap_app, elem_of_app, !list_elem_of_fmap.
  split.
  - intros [H|(r & -> & Hr%list_elem_of_filter)]; [by left|].
    right. exists r. split; [done|]. apply Hr.
  - intros [H|(r & -> & Hr)]; [by left|].
    destruct (decide (rxn_id r ∈ rxn_id <$> reactions m)) as [Hin|Hnin].
    + left. by apply list_elem_of_fmap in Hin.
    + right. exists r. split; [done|]. by apply list_elem_of_filter.
Qed.

Lemma create_base_model_step_spec (base : Model) (m : Model) :
  ∃ b, create_base_model_step base (PyModel m) = Ok b
     ∧ model_id b = model_id base
     ∧ ∀ i, i ∈ reaction_ids b ↔ i ∈ reaction_ids base ∨ i ∈ reaction_ids m.
Proof.
  eexists. split; [reflexivity|]. split; [reflexivity|].
  intros i. unfold repair. rewrite add_reactions_ids.
  unfold reaction_ids. rewrite !list_elem_of_fmap. split.
  - intros [H|(r & -> & Hr%list_elem_of_filter)]; [by left|].
    right. exists r. split; [done|]. apply Hr.
  - intros [H|(r & -> & Hr)]; [by left|].
    destruct (decide (rxn_id r ∈ rxn_id <$> reactions base)) as [Hin|Hnin].
    + left. by apply list_elem_of_fmap in Hin.
    + right. exists r. split; [done|]. by apply list_elem_of_filter.
Qed.

(** A model all of whose reactions the base model has adds nothing. *)
Lemma create_base_model_step_absorb (base : Model) (m : Model) :
  (∀ i, i ∈ reaction_ids m → i ∈ reaction_ids base) →
  create_base_model_step base (PyModel m) = Ok base.
Proof.
  intros H. unfold create_base_model_step. cbn [reactions_of].
  rewrite result_bind_Ok. rewrite filter_none.
  - unfold repair, add_reactions. rewrite filter_nil, app_nil_r.
    by destruct base.
  - intros r Hr Hn. apply Hn, H. unfold reaction_ids.
    apply list_elem_of_fmap. by exists r.
Qed.

Lemma create_base_model_fold (ml : list Model) (base : Model) :
  ∃ b, foldM create_base_model_step (PyModel <$> ml) base = Ok b
     ∧ model_id b = model_id base
     ∧ ∀ i, i ∈ reaction_ids b
          ↔ i ∈ reaction_ids base ∨ ∃ m, m ∈ ml ∧ i ∈ reaction_ids m.
Proof.
  revert base. induction ml as [|m ml IH]; intros base.
  - exists base. split; [done|]. split; [done|]. intros i. split; [by left|].
    intros [H|(m & Hm & _)]; [done|]. by apply elem_of_nil in Hm.
  - destruct (create_base_model_step_spec base m) as (b1 & E1 & Hid1 & H1).
    destruct (IH b1) as (b & E & Hid & H).
    exists b. split; [|split].
    + rewrite fmap_cons, foldM_cons, E1. exact E.
    + congruence.
    + intros i. rewrite H, H1. split.
      * intros [[Hi|Hi]|(m' & Hm' & Hi)]; [by left| |].
        -- right. exists m. split; [left|done].
        -- right. exists m'. split; [by right|done].
      * intros [Hi|(m' & Hm' & Hi)]; [by left; left|].
        apply elem_of_cons in Hm' as [->|Hm']; [by left; right|].
        right. by exists m'.
Qed.

(** [_create_base_model] always returns; its result has the reactions of all
    the models. *)
Lemma create_base_model_spec (ml : list Model) (base_id : string) :
  ∃ b, _create_base_model (PyModel <$> ml) base_id = Ok b
     ∧ model_id b = base_id
     ∧ ∀ i, i ∈ reaction_ids b ↔ ∃ m, m ∈ ml ∧ i ∈ reaction_ids m.
Proof.
  destruct (create_base_model_fold ml (cobra_Model base_id))
    as (b & E & Hid & H).
  exists b. split; [exact E|]. split; [exact Hid|].
  intros i. rewrite H. split; [|by right].
  intros [Hi|Hi]; [|done]. by apply elem_of_nil in Hi.
Qed.

(** ** Construction without models *)

(** C10.  With a valid [join_method], constructing an ensemble from [None] or
    from the empty list raises nothing and yields an ensemble whose base
    model is a fresh model without reactions called [base_id + '_base_model']
    and whose features and states tables are empty. *)
Theorem Ensemble_init_no_models (it : PyObject → result (list Reaction))
  (base_id : string) (model_list : option (list PyObject))
  (join_method : string) (join_size : Z) :
  join_method ∈ ["concurrent"; "iterative"] →
  model_list = None ∨ model_list = Some [] →
  Ensemble_init it base_id model_list join_method join_size
  = Ok {| ens_id := base_id;
          base_model := PyModel {| model_id := base_id +:+ "_base_model";
                                   reactions := [] |};
          features := [];
          states := {| columns := []; rows := [] |} |}.
Proof.
  intros Hjm Hml. unfold Ensemble_init.
  destruct (decide (join_method ∉ ["concurrent"; "iterative"])) as [Hn|_];
    [by destruct Hn|].
  by destruct Hml as [-> | ->].
Qed.

Lemma Ensemble_init_no_models_witness :
  Ensemble_init iter_TypeError "ens" None "concurrent" 1
  = Ok {| ens_id := "ens";
          base_model := PyModel {| model_id := "ens" +:+ "_base_model";
                                   reactions := [] |};
          features := [];
          states := {| columns := []; rows := [] |} |}.
Proof.
  apply (Ensemble_init_no_models iter_TypeError "ens" None "concurrent" 1).
  - left.
  - left. reflexivity.
Defined.

(** ** A model list that repeats one model *)

Lemma model_features_none (rl : list string) (rs : list Reaction) :
  (∀ r, r ∈ rs → rxn_id r ∈ rl) → model_features rl rs = Ok [].
Proof.
  intros H. unfold model_features.
  rewrite filter_none; [done|].
  intros r Hr Hn. apply Hn, H, Hr.
Qed.

(** The first model of a list must have a reaction outside the common set:
    on an ensemble without features the body raises [KeyError] otherwise. *)
Lemma body_no_variable_reaction (rl : list string) (m : Model) (e : Ensemble) :
  features e = [] →
  (∀ r, r ∈ reactions m → rxn_id r ∈ rl) →
  (set_features_states_body rl (PyModel m) e).1 = Raise KeyError.
Proof.
  intros Hf Hm. unfold set_features_states_body.
  rewrite ST_bind_unfold. simpl.
  rewrite ST_bind_unfold. unfold lift at 1.
  rewrite (model_features_none rl _ Hm).
  rewrite ST_bind_unfold. unfold get. rewrite Hf. simpl.
  reflexivity.
Qed.

Lemma common_reactions_twice (A : Model) :
  ∃ S : gset string,
    foldM common_reactions_step [PyModel A; PyModel A] ∅ = Ok S
    ∧ ∀ r, r ∈ reactions A → rxn_id r ∈ elements S.
Proof.
  set (S1 := list_to_set (rxn_id <$> reactions A) : gset string).
  exists (if decide (0 < size S1) then S1 ∩ S1 else S1). split.
  - rewrite !foldM_cons. unfold common_reactions_step.
    cbn [reactions_of]. rewrite !result_bind_Ok.
    rewrite (decide_False (P := 0 < size (∅ : gset string)))
      by (rewrite size_empty; lia).
    rewrite foldM_cons. cbn [reactions_of]. rewrite !result_bind_Ok.
    reflexivity.
  - intros r Hr. apply elem_of_elements.
    assert (rxn_id r ∈ S1) as Hin.
    { apply elem_of_list_to_set, list_elem_of_fmap. by exists r. }
    destruct (decide (0 < size S1)); [by apply elem_of_intersection|done].
Qed.

Lemma set_features_states_many (l : list PyObject) :
  length l ≠ 1 →
  set_features_states l
  = (reaction_set ← lift (foldM common_reactions_step l ∅);
     forM_ l (set_features_states_body (elements reaction_set))).
Proof. intros H. unfold set_features_states. by rewrite decide_False. Qed.

Lemma Ensemble_concurrent_twice (A : Model) (base_id : string) :
  Ensemble_concurrent base_id (Some [PyModel A; PyModel A]) = Raise KeyError.
Proof.
  unfold Ensemble_concurrent.
  destruct (create_base_model_fold [A; A] (cobra_Model (base_id +:+ "_base_model")))
    as (b & E & _ & _).
  unfold _create_base_model. simpl fmap in E. rewrite E, result_bind_Ok.
  unfold run_init. rewrite set_features_states_many by (simpl; lia).
  rewrite ST_bind_unfold.
  destruct (common_reactions_twice A) as (S & ES & HS).
  unfold lift at 1. rewrite ES.
  cbn [forM_]. rewrite ST_bind_unfold.
  pose proof (body_no_variable_reaction (elements S) A
                (new_self base_id (PyModel b)) eq_refl HS) as Hb.
  destruct (set_features_states_body (elements S) (PyModel A)
              (new_self base_id (PyModel b))) as [[[]|x] e']; simpl in Hb;
    [done|congruence].
Qed.

(** C6 (at the failing input).  The union itself is idempotent: the base
    model built from [[A; A]] has the reactions of the one built from [[A]].
    The construction from [[A; A]] nevertheless does not succeed: for every
    model [A] the constructor raises [KeyError], since the first model has no
    reaction outside the common set and the features table is read without
    the column [model_identifier]. *)
Theorem Ensemble_twice_KeyError (A : Model) (base_id : string) :
  _create_base_model [PyModel A; PyModel A] base_id
  = _create_base_model [PyModel A] base_id
  ∧ Ensemble_concurrent base_id (Some [PyModel A; PyModel A]) = Raise KeyError.
Proof.
  split; [|apply Ensemble_concurrent_twice].
  unfold _create_base_model. rewrite !foldM_cons.
  destruct (create_base_model_step_spec (cobra_Model base_id) A)
    as (b & E & _ & Hb).
  rewrite E, !result_bind_Ok, foldM_cons.
  rewrite create_base_model_step_absorb; [done|].
  intros i Hi. apply Hb. by right.
Qed.

(** ** Merging: what [update_features_states] leaves behind *)

Lemma getitem_misspelt (df : FeaturesFrame) :
  getitem df "model_identifer" = Raise KeyError.
Proof. reflexivity. Qed.

Lemma update_loop_body_raises (old_ensemble new_ensemble : Ensemble)
  (reaction : string) (e : Ensemble) :
  update_loop_body old_ensemble new_ensemble reaction e = (Raise KeyError, e).
Proof.
  unfold update_loop_body. rewrite ST_bind_unfold, getitem_misspelt.
  reflexivity.
Qed.

(** On an ensemble that has features the function assigns nothing. *)
Lemma update_features_states_populated
  (it : PyObject → result (list Reaction)) (model_list : list PyObject)
  (old : Ensemble) :
  ¬ length (features old) < 1 →
  (update_features_states it model_list old).2 = old.
Proof.
  intros Hf. unfold update_features_states.
  rewrite ST_bind_unfold. unfold get at 1. rewrite decide_False by done.
  rewrite ST_bind_unfold. unfold lift at 1.
  destruct (Ensemble_concurrent "new_models" (Some model_list)) as [new|x];
    [|done].
  cbn zeta. rewrite ST_bind_unfold. unfold lift at 1.
  destruct (copy_of (base_model old)) as [updated_base|x]; [|done].
  rewrite ST_bind_unfold. unfold lift at 1.
  destruct (it (base_model old)) as [old_reactions|x]; [|done].
  rewrite ST_bind_unfold. unfold lift at 1.
  destruct (it (base_model new)) as [new_reactions|x]; [|done].
  apply forM__unchanged. intros r _. by rewrite update_loop_body_raises.
Qed.

(** C7.  Atomicity on error: whenever [update_features_states] raises, the
    target ensemble is exactly what it was before the call; none of
    [base_model], [features], [states] has been overwritten. *)
Theorem update_features_states_atomic
  (it : PyObject → result (list Reaction)) (model_list : list PyObject)
  (old e' : Ensemble) (x : exn) :
  update_features_states it model_list old = (Raise x, e') → e' = old.
Proof.
  intros H.
  destruct (decide (length (features old) < 1)) as [Hlt|Hge].
  - revert H. unfold update_features_states.
    rewrite ST_bind_unfold. unfold get at 1. rewrite decide_True by done.
    rewrite ST_bind_unfold. unfold lift at 1.
    destruct (Ensemble_concurrent _ _) as [new|y]; [|congruence].
    discriminate.
  - pose proof (update_features_states_populated it model_list old Hge) as Hu.
    rewrite H in Hu. exact Hu.
Qed.

(** C2 (at the failing inputs).  Merging a model batch into an ensemble that
    already has features assigns nothing back: whether the call returns or
    raises, the ensemble keeps its base model, its features and its states,
    so neither the union of the bases nor the new rows appear. *)
Theorem update_features_states_no_merge
  (it : PyObject → result (list Reaction)) (model_list : list PyObject)
  (old : Ensemble) :
  features old ≠ [] →
  (update_features_states it model_list old).2 = old.
Proof.
  intros Hf. apply update_features_states_populated.
  destruct (features old); [done|simpl; lia].
Qed.

(** ** Merging: the two helpers *)

Lemma find_feature_from_base_cases (feature : FeatureRow) (e : Ensemble) :
  _find_feature_from_base feature e = Ok PyNone
  ∨ ∃ x, _find_feature_from_base feature e = Raise x.
Proof.
  unfold _find_feature_from_base.
  change (row_get feature "type") with (Ok (CStr (f_type feature))).
  rewrite result_bind_Ok.
  destruct (decide (CStr (f_type feature) = CStr "reaction")); [|by eauto].
  change (row_get feature "model_identifier")
    with (Ok (CStr (f_model_identifier feature))).
  rewrite result_bind_Ok.
  destruct (reactions_of (base_model e)) as [rs|x]; [|by eauto].
  rewrite result_bind_Ok.
  destruct (get_by_id_cell rs _) as [r|x]; [|by eauto].
  left. reflexivity.
Qed.

Lemma resolve_old_loop_cons (feature_id : string) (feature : FeatureRow)
  (l : FeaturesFrame) (new_ensemble : Ensemble)
  (found : option (option bool)) (us : StatesFrame) :
  (∃ x, resolve_old_loop ((feature_id, feature) :: l) new_ensemble found us
        = (Raise x, us))
  ∨ resolve_old_loop ((feature_id, feature) :: l) new_ensemble found us
    = resolve_old_loop l new_ensemble (Some PyNone) us.
Proof.
  cbn [resolve_old_loop]. rewrite ST_bind_unfold. unfold lift at 1.
  destruct (find_feature_from_base_cases feature new_ensemble)
    as [-> | [x ->]]; [right; reflexivity|left; by eauto].
Qed.

(** The loop never touches the states; when it returns, [found] is bound to
    [None] unless there was no row at all. *)
Lemma resolve_old_loop_spec (l : FeaturesFrame) (new_ensemble : Ensemble)
  (found : option (option bool)) (us : StatesFrame) :
  ∃ r, resolve_old_loop l new_ensemble found us = (r, us)
     ∧ ∀ v, r = Ok v → (v = found ∧ l = []) ∨ (v = Some PyNone ∧ l ≠ []).
Proof.
  revert found. induction l as [|[feature_id feature] l IH]; intros found.
  - exists (Ok found). split; [done|]. intros v [= <-]. by left.
  - destruct (resolve_old_loop_cons feature_id feature l new_ensemble found us)
      as [[x ->]| ->].
    + exists (Raise x). split; [done|]. intros v [=].
    + destruct (IH (Some PyNone)) as (r & -> & Hr).
      exists r. split; [done|]. intros v Hv. right.
      destruct (Hr v Hv) as [[-> _]|[-> _]]; done.
Qed.

(** C3 (at the failing inputs).  [_find_feature_from_base] never answers
    [True]: it ends without [return], so a Feature of the old ensemble whose
    values equal those of the new base model is not recognised.  Accordingly
    the branch [features_in == 'old'] of [_resolve_from_both_bases] never
    marks a Feature for the members of the new ensemble: it always raises and
    leaves [updated_states] as it was. *)
Theorem resolve_from_both_bases_old_never_marks
  (features_only_in : FeaturesFrame) (new_ensemble old_ensemble : Ensemble)
  (updated_features : FeaturesFrame) (updated_states : StatesFrame) :
  (∀ feature, _find_feature_from_base feature new_ensemble ≠ Ok (Some true))
  ∧ ∃ x, _resolve_from_both_bases features_only_in new_ensemble old_ensemble
           updated_features "old" updated_states
         = (Raise x, updated_states).
Proof.
  split.
  - intros feature.
    destruct (find_feature_from_base_cases feature new_ensemble)
      as [-> | [x ->]]; discriminate.
  - unfold _resolve_from_both_bases. rewrite decide_True by done.
    rewrite ST_bind_unfold.
    destruct (resolve_old_loop_spec features_only_in new_ensemble None
                updated_states) as (r & -> & Hr).
    destruct r as [v|x]; [|by eauto].
    destruct (Hr v eq_refl) as [[-> _]|[-> Hne]]; [by eauto|].
    unfold PyNone. cbn [truthy default]. unfold resolve_not_found.
    destruct features_only_in as [|[l feature] rest]; [done|].
    exists KeyError. reflexivity.
Qed.

(** The values of the Feature and of the new base model agree, and the
    answer is [None] all the same; the states are not touched. *)
Example resolve_matching_feature :
  let feature := feature_of_reaction "R1"
                   {| rxn_id := "R1"; rxn_lower_bound := 0;
                      rxn_upper_bound := 10 |} in
  let new :=
    {| ens_id := "new_models";
       base_model := PyModel {| model_id := "m"; reactions :=
         [{| rxn_id := "R1"; rxn_lower_bound := 0; rxn_upper_bound := 10 |}] |};
       features := []; states := empty_states |} in
  let us := {| columns := ["R1_0"]; rows := [("a", [Some true])] |} in
  _find_feature_from_base feature new = Ok None
  ∧ _resolve_from_both_bases [relabel feature 0] new new [] "old" us
    = (Raise KeyError, us).
Proof. split; reflexivity. Qed.

Lemma update_features_states_atomic_witness :
  update_features_states iter_TypeError [PyModel model_1]
    (new_self "ens" (PyModel model_1))
  = (Raise KeyError, new_self "ens" (PyModel model_1))
  ∧ new_self "ens" (PyModel model_1) = new_self "ens" (PyModel model_1).
Proof.
  split; [vm_compute; reflexivity|].
  apply (update_features_states_atomic iter_TypeError [PyModel model_1]
           (new_self "ens" (PyModel model_1)) _ KeyError).
  vm_compute. reflexivity.
Defined.

Lemma update_features_states_no_merge_witness :
  Ensemble_concurrent "ens" (Some [PyModel model_A; PyModel model_B])
  = Ok ensemble_AB
  ∧ features ensemble_AB ≠ []
  ∧ (update_features_states iter_TypeError [PyModel model_C] ensemble_AB).2
    = ensemble_AB.
Proof.
  split; [vm_compute; reflexivity|]. split; [discriminate|].
  apply (update_features_states_no_merge iter_TypeError [PyModel model_C]
           ensemble_AB).
  discriminate.
Defined.

(** ** The two join methods *)

Lemma set_features_states_single (model : PyObject) (e : Ensemble) :
  set_features_states [model] e
  = (Ok (), {| ens_id := ens_id e; base_model := model;
               features := []; states := empty_states |}).
Proof. reflexivity. Qed.

Lemma Ensemble_concurrent_single (model : Model) (base_id : string) :
  Ensemble_concurrent base_id (Some [PyModel model])
  = Ok {| ens_id := base_id; base_model := PyModel model;
          features := []; states := empty_states |}.
Proof.
  unfold Ensemble_concurrent.
  destruct (create_base_model_fold [model]
              (cobra_Model (base_id +:+ "_base_model"))) as (b & E & _ & _).
  unfold _create_base_model. simpl fmap in E. rewrite E, result_bind_Ok.
  unfold run_init. by rewrite set_features_states_single.
Qed.

(** C4 (at the failing inputs).  For every model [A] the constructor with
    ["concurrent"] builds the ensemble of the list [[A]], and with
    ["iterative"] and a [join_size] of 2 it raises [KeyError] on the same
    list: the remainder slice hands [A] to the merge a second time.  With a
    [join_size] of 1 and the three models [A], [B], [C] the iterative
    construction, where it returns, has lost the reaction and the row of [C]
    that the concurrent construction has. *)
Theorem join_methods_differ (it : PyObject → result (list Reaction))
  (A : Model) (base_id : string) :
  (Ensemble_init it base_id (Some [PyModel A]) "concurrent" 2
   = Ok {| ens_id := base_id; base_model := PyModel A;
           features := []; states := empty_states |}
   ∧ Ensemble_init it base_id (Some [PyModel A]) "iterative" 2
     = Raise KeyError)
  ∧ ∃ e e',
      let l := [PyModel model_A; PyModel model_B; PyModel model_C] in
      Ensemble_init it "ens" (Some l) "concurrent" 1 = Ok e
      ∧ Ensemble_init iter_reactions "ens" (Some l) "iterative" 1 = Ok e'
      ∧ Ensemble_init iter_TypeError "ens" (Some l) "iterative" 1
        = Raise TypeError
      ∧ base_reaction_ids e = ["R1"; "R2"; "R3"]
      ∧ base_reaction_ids e' = ["R1"; "R2"]
      ∧ (rows (states e)).*1 = ["A"; "B"; "C"]
      ∧ (rows (states e')).*1 = ["A"; "B"].
Proof.
  split; [split|].
  - unfold Ensemble_init. rewrite decide_False by (intros H; apply H; set_solver).
    rewrite decide_True by done. apply Ensemble_concurrent_single.
  - unfold Ensemble_init. rewrite decide_False by (intros H; apply H; set_solver).
    rewrite decide_False by done.
    unfold run_init, init_iterative.
    change (slice [PyModel A] 0 2) with [PyModel A].
    rewrite ST_bind_unfold, set_features_states_single.
    rewrite ST_bind_unfold. rewrite decide_False by done.
    unfold mret at 1, ST_ret at 1.
    change (Z.of_nat (length [PyModel A]) `quot` 2)%Z with 0%Z.
    change (Z.of_nat (length [PyModel A]) `mod` 2)%Z with 1%Z.
    change (range 0) with (@nil Z).
    cbn [forM_]. rewrite ST_bind_unfold. unfold mret at 1, ST_ret at 1.
    rewrite decide_True by lia.
    change (slice_from [PyModel A] (-1 * 1)) with [PyModel A].
    unfold update_features_states. rewrite ST_bind_unfold. unfold get at 1.
    cbn [features]. rewrite decide_True by (simpl; lia).
    rewrite ST_bind_unfold. unfold lift at 1. cbn [base_model ens_id].
    by rewrite Ensemble_concurrent_twice.
  - eexists _, _. cbn zeta.
    split; [vm_compute; reflexivity|].
    split; [vm_compute; reflexivity|].
    split; [vm_compute; reflexivity|].
    repeat split; vm_compute; reflexivity.
Qed.

(** ** Elements that are not models *)

Lemma foldM_fmap {A B C} (f : B → A → result B) (g : C → A) (h : B → C → result B)
  (l : list C) (b : B) :
  (∀ b c, f b (g c) = h b c) → foldM f (g <$> l) b = foldM h l b.
Proof.
  intros Hf. revert b. induction l as [|c l IH]; intros b; [done|].
  rewrite fmap_cons, !foldM_cons, Hf. destruct (h b c) as [b'|x]; [|done].
  rewrite !result_bind_Ok. apply IH.
Qed.

Lemma forM__fmap {S A C} (g : C → A) (body : A → ST S unit)
  (body' : C → ST S unit) (l : list C) (s : S) :
  (∀ c s, body (g c) s = body' c s) →
  forM_ (g <$> l) body s = forM_ l body' s.
Proof.
  intros Hb. revert s. induction l as [|c l IH]; intros s; [done|].
  rewrite fmap_cons. cbn [forM_]. rewrite !ST_bind_unfold, Hb.
  destruct (body' c s) as [[[]|x] s']; [|done]. apply IH.
Qed.

(** The module cannot tell an object with the two attributes from a model,
    as long as it only reads them. *)
Lemma all_models (l : list PyObject) :
  PyOther ∉ l → ∃ ml, as_model <$> l = PyModel <$> ml.
Proof.
  induction l as [|o l IH]; intros H; [by exists []|].
  apply not_elem_of_cons in H as [Ho Hl].
  destruct (IH Hl) as (ml & Hml).
  destruct o as [m|m|]; [..|done]; exists (m :: ml);
    by rewrite !fmap_cons, Hml.
Qed.

Lemma create_base_model_fold_as_model (l : list PyObject) (base : Model) :
  foldM create_base_model_step (as_model <$> l) base
  = foldM create_base_model_step l base.
Proof. apply foldM_fmap. by intros b [m|m|]. Qed.

Lemma create_base_model_as_model (l : list PyObject) (base_id : string) :
  _create_base_model (as_model <$> l) base_id = _create_base_model l base_id.
Proof. apply create_base_model_fold_as_model. Qed.

Lemma common_reactions_as_model (l : list PyObject) (S : gset string) :
  foldM common_reactions_step (as_model <$> l) S
  = foldM common_reactions_step l S.
Proof. apply foldM_fmap. by intros b [m|m|]. Qed.

Lemma set_features_states_as_model (l : list PyObject) (e : Ensemble) :
  length l ≠ 1 →
  set_features_states (as_model <$> l) e = set_features_states l e.
Proof.
  intros Hl.
  rewrite !set_features_states_many by (by rewrite ?length_fmap).
  rewrite !ST_bind_unfold. unfold lift at 1 2.
  rewrite common_reactions_as_model.
  destruct (foldM common_reactions_step l ∅) as [reaction_set|x]; [|done].
  apply forM__fmap. by intros [m|m|].
Qed.

Lemma Ensemble_concurrent_as_model (l : list PyObject) (base_id : string) :
  length l ≠ 1 →
  Ensemble_concurrent base_id (Some (as_model <$> l))
  = Ensemble_concurrent base_id (Some l).
Proof.
  intros Hl. destruct l as [|o l]; [done|].
  unfold Ensemble_concurrent. rewrite fmap_cons.
  rewrite <-(fmap_cons as_model), create_base_model_as_model.
  destruct (_create_base_model _ _) as [b|x]; [|done].
  rewrite !result_bind_Ok. unfold run_init.
  by rewrite set_features_states_as_model.
Qed.

(** A single element is taken as the base model as it is. *)
Lemma Ensemble_concurrent_one (o : PyObject) (base_id : string) :
  Ensemble_concurrent base_id (Some [o])
  = match o with
    | PyOther => Raise AttributeError
    | _ => Ok {| ens_id := base_id; base_model := o;
                 features := []; states := empty_states |}
    end.
Proof. by destruct o as [m|m|]. Qed.

Lemma create_base_model_other (l : list PyObject) (base_id : string) :
  PyOther ∈ l → _create_base_model l base_id = Raise AttributeError.
Proof.
  intros (l1 & l2 & -> & Hl1)%list_elem_of_split_l.
  destruct (all_models l1 Hl1) as (ml & Hml).
  unfold _create_base_model. rewrite foldM_app.
  rewrite <-create_base_model_fold_as_model, Hml.
  destruct (create_base_model_fold ml (cobra_Model base_id)) as (b & -> & _).
  reflexivity.
Qed.

(** ** Feature identifiers *)

Lemma append_cons (a : ascii) (s t : string) :
  String a s +:+ t = String a (s +:+ t).
Proof. reflexivity. Qed.

Lemma pretty_N_go_no_underscore (x : N) (s : string) :
  no_underscore s → no_underscore (pretty_N_go x s).
Proof.
  revert s. induction (N.lt_wf_0 x) as [x _ IH]; intros s Hs.
  assert (x = 0 ∨ 0 < x)%N as [->|Hx] by lia.
  - by rewrite pretty_N_go_0.
  - rewrite pretty_N_go_step by done. apply IH.
    { by apply N.div_lt. }
    split; [|done]. unfold pretty_N_char. by repeat case_match.
Qed.

Lemma pretty_nat_no_underscore (n : nat) : no_underscore (pretty n).
Proof.
  unfold pretty, pretty_nat, pretty, pretty_N.
  case_decide; [by repeat split|]. by apply pretty_N_go_no_underscore.
Qed.

Lemma no_underscore_append (s d : string) :
  ¬ no_underscore (s +:+ String "_" d).
Proof.
  induction s as [|a s IH]; [by intros [? _]|].
  rewrite append_cons. intros [_ H]. by apply IH.
Qed.

Lemma append_underscore_inj (s1 s2 d1 d2 : string) :
  no_underscore d1 → no_underscore d2 →
  s1 +:+ String "_" d1 = s2 +:+ String "_" d2 → s1 = s2 ∧ d1 = d2.
Proof.
  intros H1 H2. revert s2.
  induction s1 as [|a s1 IH]; intros [|b s2] E.
  - change (String "_" d1 = String "_" d2) in E. by injection E as ->.
  - change (String "_" d1 = String b (s2 +:+ String "_" d2)) in E.
    injection E as <- ->. by apply no_underscore_append in H1.
  - change (String a (s1 +:+ String "_" d1) = String "_" d2) in E.
    injection E as -> <-. by apply no_underscore_append in H2.
  - change (String a (s1 +:+ String "_" d1) = String b (s2 +:+ String "_" d2))
      in E.
    injection E as -> E. by destruct (IH _ E) as [-> ->].
Qed.

Lemma feature_id_inj (i1 i2 : string) (c1 c2 : nat) :
  feature_id i1 c1 = feature_id i2 c2 → i1 = i2 ∧ c1 = c2.
Proof.
  unfold feature_id.
  change (i1 +:+ String "_" (pretty c1) = i2 +:+ String "_" (pretty c2)
          → i1 = i2 ∧ c1 = c2).
  intros E. apply append_underscore_inj in E
    as [-> E]; auto using pretty_nat_no_underscore.
  split; [done|]. by apply (inj pretty).
Qed.

(** ** Masks, duplicates, running counts *)

Lemma mask_app {A} (m1 m2 : list bool) (l1 l2 : list A) :
  length m1 = length l1 →
  mask (m1 ++ m2) (l1 ++ l2) = mask m1 l1 ++ mask m2 l2.
Proof.
  revert l1. induction m1 as [|b m1 IH]; intros [|x l1] H; simplify_eq/=;
    [done|].
  rewrite IH by done. by destruct b.
Qed.

Lemma mask_fmap {A B} (f : A → B) (m : list bool) (l : list A) :
  mask m (f <$> l) = f <$> mask m l.
Proof.
  revert l. induction m as [|b m IH]; intros [|x l]; simpl; [done..|].
  rewrite IH. by destruct b.
Qed.

Lemma fmap_const_replicate {A B} (f : A → B) (b : B) (l : list A) :
  (∀ x, x ∈ l → f x = b) → f <$> l = replicate (length l) b.
Proof.
  induction l as [|a l IH]; intros Hf; [done|].
  cbn [fmap list_fmap length replicate]. f_equal; [apply Hf; left|].
  apply IH. intros x Hx. apply Hf. by right.
Qed.

Lemma filter_ext_in {A} (P Q : A → Prop) `{!∀ x, Decision (P x)}
  `{!∀ x, Decision (Q x)} (l : list A) :
  (∀ x, x ∈ l → P x ↔ Q x) → filter P l = filter Q l.
Proof.
  induction l as [|a l IH]; intros HPQ; [done|].
  rewrite !filter_cons.
  rewrite IH by (intros x Hx; apply HPQ; by right).
  destruct (decide (P a)) as [HP|HP], (decide (Q a)) as [HQ|HQ]; try done.
  - destruct HQ. by apply (HPQ a); [left|].
  - destruct HP. by apply (HPQ a); [left|].
Qed.

Section duplicates.
Context {K X : Type} `{EqDecision K} (kf : X → K).

Lemma length_duplicated_go (seen l : list K) :
  length (duplicated_go seen l) = length l.
Proof.
  revert seen. induction l as [|k l IH]; intros seen; simpl; [done|].
  by rewrite IH.
Qed.

Lemma duplicated_go_app (seen l1 l2 : list K) :
  duplicated_go seen (l1 ++ l2)
  = duplicated_go seen l1 ++ duplicated_go (reverse l1 ++ seen) l2.
Proof.
  revert seen. induction l1 as [|k l1 IH]; intros seen; simpl; [done|].
  rewrite IH, reverse_cons, <-app_assoc. done.
Qed.

(** Without repetition among the rows, a row is dropped exactly when its
    key has been seen before. *)
Lemma mask_duplicated_go (seen : list K) (xs : list X) :
  NoDup (kf <$> xs) →
  mask (negb <$> duplicated_go seen (kf <$> xs)) xs
  = filter (λ x, kf x ∉ seen) xs.
Proof.
  revert seen. induction xs as [|x xs IH]; intros seen Hnd; [done|].
  rewrite fmap_cons in Hnd. apply NoDup_cons in Hnd as [Hx Hnd].
  cbn [fmap list_fmap duplicated_go mask]. rewrite filter_cons.
  change (list_fmap X K kf xs) with (kf <$> xs).
  change (list_fmap bool bool negb ?l) with (negb <$> l).
  rewrite IH by done.
  rewrite (filter_ext_in (λ y, kf y ∉ kf x :: seen) (λ y, kf y ∉ seen)).
  - destruct (decide (kf x ∉ seen)) as [Hs|Hs].
    + by rewrite bool_decide_false.
    + rewrite bool_decide_true; [done|]. by apply dec_stable.
  - intros y Hy. rewrite not_elem_of_cons. split; [by intros [_ ?]|].
    intros Hys. split; [|done]. intros E. apply Hx. rewrite <-E.
    apply list_elem_of_fmap. by exists y.
Qed.

Lemma count_of_cons (k k' : K) (l : list K) :
  count_of k (k' :: l) = (if decide (k = k') then 1 else 0) + count_of k l.
Proof.
  unfold count_of. rewrite filter_cons. by destruct (decide (k = k')).
Qed.

Lemma count_of_app (k : K) (l1 l2 : list K) :
  count_of k (l1 ++ l2) = count_of k l1 + count_of k l2.
Proof. unfold count_of. by rewrite filter_app, length_app. Qed.

Lemma count_of_not_elem (k : K) (l : list K) : k ∉ l → count_of k l = 0.
Proof.
  intros H. unfold count_of. rewrite filter_none; [done|].
  intros x Hx ->. done.
Qed.

Lemma count_of_elem (k : K) (l : list K) : k ∈ l → 0 < count_of k l.
Proof.
  induction 1 as [k l|k k' l _ IH]; rewrite count_of_cons.
  - rewrite decide_True by done. lia.
  - lia.
Qed.

Lemma count_of_NoDup (k : K) (l : list K) :
  NoDup l → k ∈ l → count_of k l = 1.
Proof.
  induction 1 as [|k' l Hk' _ IH]; intros Hk; [by apply elem_of_nil in Hk|].
  rewrite count_of_cons. destruct (decide (k = k')) as [->|Hne].
  - by rewrite count_of_not_elem.
  - apply elem_of_cons in Hk as [?|Hk]; [done|]. by rewrite IH.
Qed.

Lemma length_cumcount_go (seen l : list K) :
  length (cumcount_go seen l) = length l.
Proof.
  revert seen. induction l as [|k l IH]; intros seen; simpl; [done|].
  by rewrite IH.
Qed.

Lemma cumcount_go_app (seen l1 l2 : list K) :
  cumcount_go seen (l1 ++ l2)
  = cumcount_go seen l1 ++ cumcount_go (reverse l1 ++ seen) l2.
Proof.
  revert seen. induction l1 as [|k l1 IH]; intros seen; simpl; [done|].
  rewrite IH, reverse_cons, <-app_assoc. done.
Qed.

(** A key and its running count never come twice. *)
Lemma cumcount_go_NoDup (seen l : list K) :
  NoDup (zip l (cumcount_go seen l))
  ∧ ∀ k c, (k, c) ∈ zip l (cumcount_go seen l) → count_of k seen ≤ c.
Proof.
  revert seen. induction l as [|k l IH]; intros seen.
  - split; [constructor|]. intros k c H. by apply elem_of_nil in H.
  - destruct (IH (k :: seen)) as [Hnd Hge]. cbn [cumcount_go zip zip_with].
    fold (count_of k seen). split.
    + apply NoDup_cons. split; [|done].
      intros Hin. apply Hge in Hin. rewrite count_of_cons in Hin.
      rewrite decide_True in Hin by done. lia.
    + intros k' c [[= -> ->]|Hin]%elem_of_cons; [done|].
      apply Hge in Hin. rewrite count_of_cons in Hin. lia.
Qed.

(** A cumulative count without repetition is zero throughout. *)
Lemma cumcount_go_NoDup_zero (seen l : list K) :
  NoDup l → (∀ k, k ∈ l → k ∉ seen) →
  cumcount_go seen l = replicate (length l) 0.
Proof.
  revert seen. induction l as [|k l IH]; intros seen Hnd Hs; [done|].
  apply NoDup_cons in Hnd as [Hk Hnd]. cbn [cumcount_go length replicate].
  fold (count_of k seen). rewrite count_of_not_elem by (apply Hs; left).
  f_equal. apply IH; [done|]. intros k' Hk'. apply not_elem_of_cons.
  split; [by intros ->|]. apply Hs. by right.
Qed.
End duplicates.

(** ** The rows of one model *)

Lemma get_by_id_Ok (rs : list Reaction) (i : string) (r : Reaction) :
  get_by_id rs i = Ok r → r ∈ rs ∧ rxn_id r = i.
Proof.
  unfold get_by_id.
  destruct (list_find _ rs) as [[j r']|] eqn:E; [|done].
  intros [= ->]. apply list_find_Some in E as (Hj & Hr & _).
  split; [|done]. by eapply list_elem_of_lookup_2.
Qed.

Lemma get_by_id_elem (rs : list Reaction) (r : Reaction) :
  r ∈ rs → ∃ r', get_by_id rs (rxn_id r) = Ok r'.
Proof.
  intros Hr. unfold get_by_id.
  destruct (list_find_elem_of (λ r', rxn_id r' = rxn_id r) rs r Hr eq_refl)
    as [[j r'] ->].
  by exists r'.
Qed.

Lemma variable_reactions_step_old (rs : list Reaction)
  (acc : list (string * FeatureRow)) (reaction : Reaction) :
  rxn_id reaction ∈ acc.*1 → variable_reactions_step rs acc reaction = Ok acc.
Proof. intros H. unfold variable_reactions_step. by rewrite decide_True. Qed.

Lemma variable_reactions_step_new (rs : list Reaction)
  (acc : list (string * FeatureRow)) (reaction r : Reaction) :
  rxn_id reaction ∉ acc.*1 → get_by_id rs (rxn_id reaction) = Ok r →
  variable_reactions_step rs acc reaction
  = Ok (acc ++ [(rxn_id reaction, feature_of_reaction (rxn_id reaction) r)]).
Proof.
  intros H E. unfold variable_reactions_step. rewrite decide_False by done.
  by rewrite E.
Qed.

Lemma variable_reactions_fold (rl : list string) (rs todo : list Reaction)
  (acc : list (string * FeatureRow)) :
  let P l f := (l ∉ rl) ∧ (∃ r, get_by_id rs l = Ok r
                                ∧ f = feature_of_reaction l r) in
  (∀ r, r ∈ todo → r ∈ rs ∧ rxn_id r ∉ rl) →
  NoDup acc.*1 →
  (∀ l f, (l, f) ∈ acc → P l f) →
  ∃ N, foldM (variable_reactions_step rs) todo acc = Ok N
     ∧ NoDup N.*1
     ∧ (∀ l f, (l, f) ∈ N → P l f)
     ∧ ∀ i, i ∈ N.*1 ↔ i ∈ acc.*1 ∨ i ∈ rxn_id <$> todo.
Proof.
  intros P. revert acc.
  induction todo as [|reaction todo IH]; intros acc Htodo Hnd Hacc.
  - exists acc. split; [done|]. split; [done|]. split; [done|].
    intros i. rewrite fmap_nil, elem_of_nil. tauto.
  - rewrite foldM_cons.
    assert (∀ r, r ∈ todo → r ∈ rs ∧ rxn_id r ∉ rl) as Htodo'.
    { intros r Hr. apply Htodo. by right. }
    destruct (decide (rxn_id reaction ∈ acc.*1)) as [Hin|Hnin].
    + rewrite variable_reactions_step_old, result_bind_Ok by done.
      destruct (IH acc Htodo' Hnd Hacc) as (N & E & HN1 & HN2 & HN3).
      exists N. split; [done|]. split; [done|]. split; [done|].
      intros i. rewrite HN3, fmap_cons, elem_of_cons.
      split; [tauto|]. intros [?|[->|?]]; tauto.
    + destruct (Htodo reaction ltac:(left)) as [Hrs Hrl].
      destruct (get_by_id_elem rs reaction Hrs) as (r' & Er').
      rewrite (variable_reactions_step_new rs acc reaction r'), result_bind_Ok
        by done.
      destruct (IH (acc ++ [(rxn_id reaction,
                             feature_of_reaction (rxn_id reaction) r')]))
        as (N & E & HN1 & HN2 & HN3); [done| | |].
      * rewrite fmap_app. apply NoDup_app. split; [done|].
        split; [|apply NoDup_singleton].
        intros i Hi [= ->]%list_elem_of_singleton. done.
      * intros l f [Hlf|[= -> ->]%list_elem_of_singleton]%elem_of_app;
          [by apply Hacc|].
        split; [done|]. by exists r'.
      * exists N. split; [done|]. split; [done|]. split; [done|].
        intros i. rewrite HN3, fmap_app, elem_of_app, !fmap_cons, !elem_of_cons.
        rewrite fmap_nil, elem_of_nil. simpl. tauto.
Qed.

Lemma model_rows_spec (rl : list string) (m : Model) :
  model_features rl (reactions m) = Ok (model_rows rl m)
  ∧ NoDup (model_rows rl m).*1
  ∧ ∀ l f, (l, f) ∈ model_rows rl m
         ↔ (l ∉ rl) ∧ ∃ r, get_by_id (reactions m) l = Ok r
                          ∧ f = feature_of_reaction l r.
Proof.
  unfold model_rows, model_features.
  destruct (variable_reactions_fold rl (reactions m)
              (filter (λ rxn, rxn_id rxn ∉ rl) (reactions m)) [])
    as (N & -> & HN1 & HN2 & HN3).
  - intros r [? ?]%list_elem_of_filter. done.
  - constructor.
  - intros l f H. by apply elem_of_nil in H.
  - split; [done|]. split; [done|]. intros l f. split; [apply HN2|].
    intros (Hl & r & Er & ->).
    assert (l ∈ N.*1) as Hin.
    { apply HN3. right. apply get_by_id_Ok in Er as [Hr <-].
      apply list_elem_of_fmap. exists r. split; [done|].
      by apply list_elem_of_filter. }
    apply list_elem_of_fmap in Hin as ([l' f'] & -> & Hin).
    destruct (HN2 _ _ Hin) as (_ & r' & Er' & ->). simpl in *.
    rewrite Er in Er'. by injection Er' as <-.
Qed.

Lemma model_rows_label (rl : list string) (m : Model) (l : string)
  (f : FeatureRow) :
  (l, f) ∈ model_rows rl m → f_model_identifier f = l.
Proof.
  intros H. apply (model_rows_spec rl m) in H as (_ & r & _ & ->). done.
Qed.

Lemma model_rows_mids (rl : list string) (m : Model) :
  f_model_identifier <$> (model_rows rl m).*2 = (model_rows rl m).*1.
Proof.
  rewrite <-list_fmap_compose. apply list_fmap_ext.
  intros i [l f] Hi. simpl. eapply model_rows_label.
  by eapply list_elem_of_lookup_2.
Qed.

Lemma model_rows_keys_NoDup (rl : list string) (m : Model) :
  NoDup (keys (model_rows rl m)).
Proof.
  apply (NoDup_fmap_1 (λ k : Z * string * string * Z, k.1.1.2)).
  unfold keys. rewrite <-list_fmap_compose.
  replace ((λ k : Z * string * string * Z, k.1.1.2) ∘ (λ p, key p.2)
             <$> model_rows rl m) with ((model_rows rl m).*1).
  - apply model_rows_spec.
  - rewrite <-model_rows_mids, <-list_fmap_compose. done.
Qed.

(** Two rows of one model at the same component are one row. *)
Lemma model_rows_same_component (rl : list string) (m : Model)
  (k1 k2 : Z * string * string * Z) :
  k1 ∈ keys (model_rows rl m) → k2 ∈ keys (model_rows rl m) →
  k1.1.1.2 = k2.1.1.2 → k1 = k2.
Proof.
  unfold keys. intros ([l1 f1] & -> & H1)%list_elem_of_fmap
    ([l2 f2] & -> & H2)%list_elem_of_fmap. simpl. intros E.
  apply (model_rows_spec rl m) in H1 as (_ & r1 & E1 & ->).
  apply (model_rows_spec rl m) in H2 as (_ & r2 & E2 & ->).
  cbn [feature_of_reaction f_model_identifier] in E. subst l2.
  rewrite E1 in E2. by injection E2 as <-.
Qed.

(** ** Renumbering *)

Lemma key_snd (df : FeaturesFrame) : key <$> df.*2 = keys df.
Proof. unfold keys. by rewrite <-list_fmap_compose. Qed.

Lemma length_keys (df : FeaturesFrame) : length (keys df) = length df.
Proof. apply length_fmap. Qed.

Lemma keys_app (df1 df2 : FeaturesFrame) :
  keys (df1 ++ df2) = keys df1 ++ keys df2.
Proof. apply fmap_app. Qed.

Lemma relabel_key (r : FeatureRow) (c : nat) : key (relabel r c).2 = key r.
Proof. reflexivity. Qed.

Section renumbering.
Implicit Types (rows : list FeatureRow) (cc : list nat).

Lemma zip_with_relabel_keys rows cc :
  length cc = length rows → keys (zip_with relabel rows cc) = key <$> rows.
Proof.
  revert cc. induction rows as [|r rows IH]; intros [|c cc] Hl;
    simplify_eq/=; [done|].
  unfold keys in *. cbn [fmap list_fmap]. f_equal. by apply IH.
Qed.

Lemma zip_with_relabel_mids rows cc :
  length cc = length rows →
  f_model_identifier <$> (zip_with relabel rows cc).*2
  = f_model_identifier <$> rows.
Proof.
  revert cc. induction rows as [|r rows IH]; intros [|c cc] Hl;
    simplify_eq/=; [done|].
  f_equal. by apply IH.
Qed.

Lemma zip_with_relabel_labels rows cc :
  (zip_with relabel rows cc).*1
  = uncurry feature_id <$> zip (f_model_identifier <$> rows) cc.
Proof.
  revert cc. induction rows as [|r rows IH]; intros [|c cc]; simpl;
    [done..|].
  f_equal. apply IH.
Qed.

Lemma zip_with_relabel_again rows cc cc' :
  length cc = length rows →
  zip_with relabel (zip_with relabel rows cc).*2 cc'
  = zip_with relabel rows cc'.
Proof.
  revert cc cc'. induction rows as [|r rows IH]; intros [|c cc] [|c' cc'] Hl;
    simplify_eq/=; [done..|].
  f_equal. by apply IH.
Qed.

(** Renumbered rows form a numbered table. *)
Lemma zip_with_relabel_numbered rows :
  numbered (zip_with relabel rows (cumcount (f_model_identifier <$> rows))).
Proof.
  unfold numbered.
  rewrite zip_with_relabel_mids, zip_with_relabel_again; [done|..];
    unfold cumcount; by rewrite length_cumcount_go, length_fmap.
Qed.
End renumbering.

Global Instance uncurry_feature_id_inj : Inj (=) (=) (uncurry feature_id).
Proof.
  intros [i1 c1] [i2 c2] E. simpl in E.
  by destruct (feature_id_inj _ _ _ _ E) as [-> ->].
Qed.

(** The labels of a numbered table are pairwise different. *)
Lemma numbered_NoDup_labels (df : FeaturesFrame) : numbered df → NoDup df.*1.
Proof.
  intros ->. rewrite zip_with_relabel_labels.
  apply (NoDup_fmap_2 _), cumcount_go_NoDup.
Qed.

(** ** Merging the rows of a model into the table *)

Lemma zip_with_flags_old (old labels : list string) (bs : list bool) :
  length labels = length bs →
  (∀ l, l ∈ labels → l ∈ old) →
  zip_with (λ rowlabel b, if decide (rowlabel ∈ old) then b else true)
           labels bs = bs.
Proof.
  revert bs. induction labels as [|l labels IH]; intros [|b bs] Hl Ho;
    simplify_eq/=; [done|].
  rewrite decide_True by (apply Ho; left). f_equal.
  apply IH; [done|]. intros l' Hl'. apply Ho. by right.
Qed.

Lemma zip_with_flags_new (old labels : list string) (bs : list bool) :
  length labels = length bs →
  (∀ l, l ∈ labels → l ∉ old) →
  zip_with (λ rowlabel b, if decide (rowlabel ∈ old) then b else true)
           labels bs = replicate (length bs) true.
Proof.
  revert bs. induction labels as [|l labels IH]; intros [|b bs] Hl Ho;
    simplify_eq/=; [done|].
  rewrite decide_False by (apply Ho; left). f_equal.
  apply IH; [done|]. intros l' Hl'. apply Ho. by right.
Qed.

Lemma merge_features_spec (F N : FeaturesFrame) :
  numbered F → NoDup (keys F) → NoDup (keys N) →
  ∃ G, merge_features F N
       = (F ++ G, (λ p, bool_decide (key p.2 ∈ keys N)) <$> (F ++ G))
     ∧ keys G = keys (filter (λ p, key p.2 ∉ keys F) N)
     ∧ numbered (F ++ G).
Proof.
  intros HF HndF HndN.
  set (G0 := filter (λ p : string * FeatureRow, key p.2 ∉ keys F) N).
  set (g := λ k : Z * string * string * Z,
              bool_decide (1 < length (filter (k =.) (keys (F ++ N))))).
  set (G := zip_with relabel G0.*2
              (cumcount_go (reverse (f_model_identifier <$> F.*2) ++ [])
                           (f_model_identifier <$> G0.*2))).
  assert (mask (negb <$> duplicated (keys (F ++ N))) (F ++ N) = F ++ G0)
    as Hmask.
  { unfold duplicated. rewrite keys_app, duplicated_go_app, fmap_app.
    rewrite mask_app
      by (by rewrite length_fmap, length_duplicated_go, length_keys).
    unfold keys at 1 3.
    rewrite !(mask_duplicated_go (λ p : string * FeatureRow, key p.2))
      by done.
    f_equal.
    - apply filter_all. intros p _. apply not_elem_of_nil.
    - apply filter_ext_in. intros p _.
      by rewrite app_nil_r, elem_of_reverse. }
  assert (zip_with relabel (F ++ G0).*2
            (cumcount (f_model_identifier <$> (F ++ G0).*2)) = F ++ G)
    as Hnum.
  { rewrite !fmap_app. unfold cumcount. rewrite cumcount_go_app.
    rewrite zip_with_app by (by rewrite length_cumcount_go, !length_fmap).
    f_equal. symmetry. exact HF. }
  assert (keys G = keys G0) as HkG.
  { unfold G. rewrite zip_with_relabel_keys, key_snd; [done|].
    by rewrite length_cumcount_go, !length_fmap. }
  assert (numbered (F ++ G)) as HnumFG.
  { rewrite <-Hnum. apply zip_with_relabel_numbered. }
  exists G. split; [|by split].
  unfold merge_features. cbn zeta.
  rewrite !key_snd, Hmask, Hnum. f_equal.
  unfold duplicated_keep_False. fold g.
  unfold keys at 2. rewrite <-list_fmap_compose, mask_fmap, Hmask.
  rewrite !fmap_app.
  rewrite zip_with_app by (by rewrite !length_fmap).
  f_equal.
  - rewrite zip_with_flags_old; [..|done]; [|by rewrite !length_fmap].
    apply list_fmap_ext. intros i p Hp. simpl. unfold g.
    fold (count_of (key p.2) (keys (F ++ N))).
    rewrite keys_app, count_of_app, count_of_NoDup; [|done|].
    + destruct (decide (key p.2 ∈ keys N)) as [Hin|Hnin].
      * pose proof (count_of_elem _ _ Hin).
        rewrite !bool_decide_true; [done|done|lia].
      * rewrite count_of_not_elem by done.
        rewrite !bool_decide_false; [done|done|lia].
    + apply list_elem_of_fmap. exists p. split; [done|].
      by eapply list_elem_of_lookup_2.
  - assert (length G = length G0) as Hlen.
    { unfold G. rewrite length_zip_with_l_eq; [by rewrite length_fmap|].
      by rewrite length_cumcount_go, !length_fmap. }
    rewrite zip_with_flags_new.
    + rewrite length_fmap, <-Hlen.
      rewrite <-(fmap_replicate (λ _ : unit, true) _ ()).
      clear -HkG. unfold G0 in HkG.
      apply list_eq. intros i.
      rewrite fmap_replicate, !list_lookup_fmap.
      destruct (G !! i) as [q|] eqn:Eq.
      * rewrite lookup_replicate_2
          by (by eapply lookup_lt_Some).
        simpl. f_equal. symmetry. apply bool_decide_true.
        assert (key q.2 ∈ keys G) as Hq.
        { apply list_elem_of_fmap. exists q. split; [done|].
          by eapply list_elem_of_lookup_2. }
        rewrite HkG in Hq.
        apply list_elem_of_fmap in Hq as (p & -> & [_ Hp]%list_elem_of_filter).
        apply list_elem_of_fmap. by exists p.
      * simpl. apply lookup_replicate_None. apply lookup_ge_None in Eq. lia.
    + by rewrite !length_fmap.
    + intros l Hl Hl'.
      apply numbered_NoDup_labels in HnumFG.
      rewrite fmap_app in HnumFG. apply NoDup_app in HnumFG as (_ & Hd & _).
      by apply (Hd l).
Qed.

(** ** Re-reading rows under new column labels *)

Lemma reindex_other (from : list string) (cells : list (option bool))
  (extra : list string) :
  (∀ c, c ∈ extra → c ∉ from) →
  reindex from extra cells = replicate (length extra) None.
Proof.
  intros Hd. unfold reindex.
  induction extra as [|c extra IH]; [done|].
  cbn [fmap list_fmap length replicate]. f_equal.
  - rewrite not_elem_of_list_to_map_1; [done|].
    intros Hc. apply (Hd c); [left|].
    apply list_elem_of_fmap in Hc as ([c' x] & -> & Hc).
    by apply elem_of_zip_l in Hc.
  - apply IH. intros c' Hc'. apply Hd. by right.
Qed.

Lemma reindex_same (from : list string) (cells : list (option bool)) :
  NoDup from → length cells = length from → reindex from from cells = cells.
Proof.
  unfold reindex. revert cells.
  induction from as [|c from IH]; intros [|x cells] Hnd Hl; simplify_eq/=;
    [done|].
  apply NoDup_cons in Hnd as [Hc Hnd].
  rewrite lookup_insert_eq. simpl. f_equal.
  etrans; [|apply (IH cells Hnd Hl)].
  apply list_fmap_ext. intros i c' Hc'.
  rewrite lookup_insert_ne; [done|].
  intros ->. apply Hc. by eapply list_elem_of_lookup_2.
Qed.

Lemma reindex_app (from to1 to2 : list string) (cells : list (option bool)) :
  reindex from (to1 ++ to2) cells
  = reindex from to1 cells ++ reindex from to2 cells.
Proof. unfold reindex. apply fmap_app. Qed.

(** ** One pass of the second loop *)

Lemma bind_lift_Ok {S A B} (a : A) (f : A → ST S B) (s : S) :
  (lift (Ok a) ≫= f) s = f a s.
Proof. reflexivity. Qed.

Lemma bind_get {S B} (f : S → ST S B) (s : S) : (get ≫= f) s = f s s.
Proof. reflexivity. Qed.

Lemma bind_mret {S A B} (a : A) (f : A → ST S B) (s : S) :
  (mret a ≫= f) s = f a s.
Proof. reflexivity. Qed.

Lemma bind_set_features {B} (F : FeaturesFrame) (f : unit → M B)
  (e : Ensemble) :
  (set_features F ≫= f) e = f () (with_tables e F (states e)).
Proof. reflexivity. Qed.

Lemma bind_set_states {B} (S : StatesFrame) (f : unit → M B) (e : Ensemble) :
  (set_states S ≫= f) e = f () (with_tables e (features e) S).
Proof. reflexivity. Qed.

Lemma states_step (rl : list string) (pre : list Model) (m : Model)
  (F G : FeaturesFrame) :
  NoDup (F ++ G).*1 →
  (∀ m' q, m' ∈ pre → q ∈ G → key q.2 ∉ keys (model_rows rl m')) →
  fillna_False
    (concat_states (states_of rl pre F)
       {| columns := (F ++ G).*1;
          rows := [(model_id m,
                    Some <$> ((λ p, bool_decide
                                      (key p.2 ∈ keys (model_rows rl m)))
                              <$> (F ++ G)))] |})
  = states_of rl (pre ++ [m]) (F ++ G).
Proof.
  intros Hnd Hnew.
  assert (NoDup F.*1 ∧ ∀ c, c ∈ G.*1 → c ∉ F.*1) as [HndF Hd].
  { rewrite fmap_app in Hnd. apply NoDup_app in Hnd as (? & Hd & _).
    split; [done|]. intros c Hc Hc'. by apply (Hd c). }
  assert (F.*1 ++ filter (λ c, c ∉ F.*1) (F ++ G).*1 = (F ++ G).*1) as Hcols.
  { rewrite fmap_app, filter_app. f_equal.
    rewrite filter_none by (intros c Hc Hn; by apply Hn).
    by rewrite filter_all. }
  unfold fillna_False, concat_states, states_of.
  cbn [columns rows]. rewrite Hcols. f_equal.
  rewrite !fmap_app. f_equal.
  - rewrite <-!list_fmap_compose. apply list_fmap_ext.
    intros i m' Hm'. unfold member_row, map_cells. cbn [compose fst snd].
    f_equal. rewrite (fmap_app _ F G), reindex_app.
    rewrite reindex_same by (by rewrite ?length_fmap).
    rewrite reindex_other by done.
    rewrite !fmap_app. f_equal.
    + rewrite <-list_fmap_compose. by apply list_fmap_ext.
    + rewrite fmap_replicate, length_fmap. cbn [default].
      symmetry. apply fmap_const_replicate. intros q Hq.
      rewrite bool_decide_false; [done|].
      apply (Hnew m' q); [|done]. by eapply list_elem_of_lookup_2.
  - cbn [fmap list_fmap]. f_equal. unfold member_row, map_cells.
    cbn [fst snd]. f_equal.
    rewrite reindex_same;
      [|by rewrite <-fmap_app|by rewrite !length_app, !length_fmap].
    rewrite <-!fmap_app, <-!list_fmap_compose. by apply list_fmap_ext.
Qed.

Lemma NoDup_fmap_filter {A B} (f : A → B) (P : A → Prop)
  `{!∀ x, Decision (P x)} (l : list A) :
  NoDup (f <$> l) → NoDup (f <$> filter P l).
Proof.
  induction l as [|a l IH]; intros Hnd; [done|].
  rewrite fmap_cons in Hnd. apply NoDup_cons in Hnd as [Ha Hnd].
  rewrite filter_cons. destruct (decide (P a)); [|by apply IH].
  rewrite fmap_cons. apply NoDup_cons. split; [|by apply IH].
  intros (x & E & [_ Hx]%list_elem_of_filter)%list_elem_of_fmap.
  apply Ha. apply list_elem_of_fmap. by exists x.
Qed.

Lemma zip_with_replicate_r {A B C} (f : A → B → C) (l : list A) (b : B) :
  zip_with f l (replicate (length l) b) = (λ a, f a b) <$> l.
Proof. induction l as [|a l IH]; [done|]. simpl. by rewrite IH. Qed.

Lemma join_outer_empty (cols : list string) (i : string)
  (cells : list (option bool)) :
  join_outer empty_states {| columns := cols; rows := [(i, cells)] |}
  = Ok {| columns := cols; rows := [(i, cells)] |}.
Proof.
  unfold join_outer. cbn [columns rows empty_states].
  rewrite decide_False.
  - change (merge_sort String.le _) with [i]. cbn [fmap list_fmap].
    assert ((list_to_map (@nil StatesRow)
               : gmap string (list (option bool))) !! i = None)
      as -> by apply lookup_empty.
    assert ((list_to_map [(i, cells)] : gmap string (list (option bool))) !! i
            = Some cells) as -> by apply lookup_insert_eq.
    done.
  - intros (c & _ & Hc)%Exists_exists. by apply elem_of_nil in Hc.
Qed.

Lemma keys_filter_elem (N : FeaturesFrame) (seen : list (Z * string * string * Z))
  (k : Z * string * string * Z) :
  k ∈ keys (filter (λ p, key p.2 ∉ seen) N) ↔ k ∈ keys N ∧ k ∉ seen.
Proof.
  unfold keys. rewrite !list_elem_of_fmap. split.
  - intros (p & -> & [Hp Hin]%list_elem_of_filter). split; [|done].
    by exists p.
  - intros [(p & -> & Hin) Hk]. exists p. split; [done|].
    by apply list_elem_of_filter.
Qed.

Lemma body_next (rl : list string) (pre : list Model) (m : Model)
  (e : Ensemble) :
  catalog_of rl pre e →
  ∃ e', set_features_states_body rl (PyModel m) e = (Ok (), e')
      ∧ ens_id e' = ens_id e ∧ base_model e' = base_model e
      ∧ catalog_of rl (pre ++ [m]) e'.
Proof.
  intros (Hne & Hnum & Hnd & Hkeys & Hst).
  destruct (model_rows_spec rl m) as (EN & HN1 & HN2).
  pose proof (model_rows_keys_NoDup rl m) as HndN.
  destruct (merge_features_spec (features e) (model_rows rl m) Hnum Hnd HndN)
    as (G & Em & HkG & HnumFG).
  assert (∀ k, k ∈ keys G
               ↔ k ∈ keys (model_rows rl m) ∧ k ∉ keys (features e)) as HG.
  { intros k. rewrite HkG. apply keys_filter_elem. }
  exists (with_tables e (features e ++ G)
            (states_of rl (pre ++ [m]) (features e ++ G))).
  split; [|split; [done|split; [done|]]].
  - unfold set_features_states_body. cbn [reactions_of].
    rewrite bind_lift_Ok, EN, bind_lift_Ok, bind_get.
    rewrite decide_True by (destruct (features e); [done|simpl; lia]).
    rewrite Em. cbn [id_of fst snd].
    rewrite bind_lift_Ok, bind_set_features.
    unfold set_states, with_tables. cbn [features states ens_id base_model].
    rewrite Hst, states_step; [done|by apply numbered_NoDup_labels|].
    intros m' q Hm' Hq Hin.
    assert (key q.2 ∈ keys G) as HqG.
    { apply list_elem_of_fmap. by exists q. }
    apply HG in HqG as [_ HqF]. apply HqF, Hkeys. by exists m'.
  - unfold catalog_of, with_tables. cbn [features states].
    split; [by destruct (features e)|]. split; [done|].
    split; [|split; [|done]].
    + rewrite keys_app. apply NoDup_app. split; [done|].
      split; [intros k Hk HkG'; by apply HG in HkG' as [_ ?]|].
      rewrite HkG. by apply NoDup_fmap_filter.
    + intros k. rewrite keys_app, elem_of_app, Hkeys, HG. split.
      * intros [(m' & Hm' & Hk)|[Hk _]].
        -- exists m'. split; [|done]. apply elem_of_app. by left.
        -- exists m. split; [|done]. apply elem_of_app. right. by left.
      * intros (m' & [Hm'|Hm']%elem_of_app & Hk).
        -- left. by exists m'.
        -- apply list_elem_of_singleton in Hm' as ->.
           destruct (decide (k ∈ keys (features e))) as [Hin|Hnin].
           ++ left. by apply Hkeys.
           ++ right. by split.
Qed.

Lemma body_first_KeyError (rl : list string) (m : Model) (e : Ensemble) :
  features e = [] → model_rows rl m = [] →
  (set_features_states_body rl (PyModel m) e).1 = Raise KeyError.
Proof.
  intros Hf HN. destruct (model_rows_spec rl m) as (EN & _).
  unfold set_features_states_body. cbn [reactions_of].
  rewrite bind_lift_Ok, EN, HN, bind_lift_Ok, bind_get, Hf.
  reflexivity.
Qed.

Lemma body_first (rl : list string) (m : Model) (e : Ensemble) :
  features e = [] → states e = empty_states → model_rows rl m ≠ [] →
  ∃ e', set_features_states_body rl (PyModel m) e = (Ok (), e')
      ∧ ens_id e' = ens_id e ∧ base_model e' = base_model e
      ∧ catalog_of rl [m] e'.
Proof.
  intros Hf Hs HN. destruct (model_rows_spec rl m) as (EN & HN1 & HN2).
  pose proof (model_rows_mids rl m) as Hmids.
  pose proof (model_rows_keys_NoDup rl m) as HndN.
  set (N := model_rows rl m) in *.
  set (F1 := (λ p : string * FeatureRow, relabel p.2 0) <$> N).
  assert (keys F1 = keys N) as Hk.
  { unfold keys, F1. rewrite <-list_fmap_compose. done. }
  exists (with_tables e F1 (states_of rl [m] F1)).
  split; [|split; [done|split; [done|]]].
  - unfold set_features_states_body. cbn [reactions_of].
    rewrite bind_lift_Ok, EN, bind_lift_Ok, bind_get, Hf.
    rewrite decide_False by (simpl; lia).
    rewrite bind_set_features, decide_False by done.
    rewrite bind_mret, bind_set_features. cbn [id_of].
    rewrite bind_lift_Ok. unfold with_tables at 1 2.
    cbn [states features ens_id base_model]. rewrite Hs, join_outer_empty.
    rewrite bind_lift_Ok, bind_set_states.
    unfold set_columns. cbn [columns rows].
    rewrite decide_True by (unfold F1; by rewrite !length_fmap).
    rewrite bind_lift_Ok. unfold set_states, with_tables, states_of.
    cbn [states features ens_id base_model fmap list_fmap].
    do 4 f_equal. unfold member_row. f_equal. fold F1. unfold F1.
    rewrite <-list_fmap_compose. apply list_fmap_ext. intros i p Hp.
    cbn [compose]. rewrite relabel_key, bool_decide_true; [done|].
    apply list_elem_of_fmap. exists p. split; [done|].
    by eapply list_elem_of_lookup_2.
  - unfold catalog_of, with_tables. cbn [features states].
    split; [unfold F1; by destruct N|].
    split; [|split; [|split; [|done]]].
    + unfold numbered.
      assert (f_model_identifier <$> F1.*2 = N.*1) as Hm.
      { unfold F1. rewrite <-!list_fmap_compose.
        rewrite <-Hmids, <-list_fmap_compose. done. }
      rewrite Hm. unfold cumcount.
      rewrite cumcount_go_NoDup_zero;
        [|done|intros k _; apply not_elem_of_nil].
      replace (length N.*1) with (length F1.*2)
        by (unfold F1; by rewrite !length_fmap).
      rewrite zip_with_replicate_r. unfold F1.
      rewrite <-!list_fmap_compose. done.
    + by rewrite Hk.
    + intros k. rewrite Hk. split.
      * intros Hin. exists m. split; [left|done].
      * intros (m' & ->%list_elem_of_singleton & Hin). done.
Qed.

(** ** The second loop as a whole *)

Lemma forM__cons {S A} (a : A) (l : list A) (body : A → ST S unit) (s : S) :
  forM_ (a :: l) body s
  = match body a s with
    | (Ok _, s') => forM_ l body s'
    | (Raise x, s') => (Raise x, s')
    end.
Proof. reflexivity. Qed.

(** A loop keeps what each successful pass keeps. *)
Lemma forM__invariant {S A} (P : S → Prop) (l : list A)
  (body : A → ST S unit) (s s' : S) :
  (∀ a t t', body a t = (Ok (), t') → P t → P t') →
  forM_ l body s = (Ok (), s') → P s → P s'.
Proof.
  intros Hb. revert s. induction l as [|a l IH]; intros s E Hs.
  - by injection E as <-.
  - rewrite forM__cons in E.
    destruct (body a s) as [[[]|x] t] eqn:Ea; [|done].
    eapply IH; [done|]. by eapply Hb.
Qed.

Lemma loop_rest (rl : list string) (rest pre : list Model) (e : Ensemble) :
  catalog_of rl pre e →
  ∃ e', forM_ (PyModel <$> rest) (set_features_states_body rl) e = (Ok (), e')
      ∧ ens_id e' = ens_id e ∧ base_model e' = base_model e
      ∧ catalog_of rl (pre ++ rest) e'.
Proof.
  revert pre e. induction rest as [|m rest IH]; intros pre e Hc.
  - exists e. by rewrite app_nil_r.
  - destruct (body_next rl pre m e Hc) as (e1 & E1 & Hi1 & Hb1 & Hc1).
    destruct (IH (pre ++ [m]) e1 Hc1) as (e' & E' & Hi' & Hb' & Hc').
    exists e'. rewrite fmap_cons, forM__cons, E1.
    split; [done|]. split; [congruence|]. split; [congruence|].
    by rewrite <-app_assoc in Hc'.
Qed.

Lemma common_reactions_step_model (S : gset string) (m : Model) :
  common_reactions_step S (PyModel m)
  = Ok (if decide (0 < size S)
        then S ∩ list_to_set (reaction_ids m)
        else list_to_set (reaction_ids m)).
Proof. reflexivity. Qed.

Lemma common_reactions_foldM (ml : list Model) (S : gset string) :
  foldM common_reactions_step (PyModel <$> ml) S
  = Ok (foldl (λ (reaction_set : gset string) (m : Model),
                 if decide (0 < size reaction_set)
                 then reaction_set ∩ list_to_set (reaction_ids m)
                 else list_to_set (reaction_ids m)) S ml).
Proof.
  revert S. induction ml as [|m ml IH]; intros S; [done|].
  rewrite fmap_cons, foldM_cons, common_reactions_step_model, result_bind_Ok.
  apply IH.
Qed.

Lemma common_reactions_other (l : list PyObject) (S S' : gset string) :
  foldM common_reactions_step l S = Ok S' → PyOther ∉ l.
Proof.
  revert S. induction l as [|o l IH]; intros S E; [apply not_elem_of_nil|].
  rewrite foldM_cons in E. destruct o as [m|m|]; [..|done];
    (apply not_elem_of_cons; split; [done|]);
    [|change (common_reactions_step S (PyLike m))
        with (common_reactions_step S (PyModel m)) in E];
    rewrite common_reactions_step_model, result_bind_Ok in E; by eapply IH.
Qed.

(** A reaction that every model has is in the common set. *)
Lemma common_reactions_all (ml : list Model) (i : string) :
  ml ≠ [] → (∀ m, m ∈ ml → i ∈ reaction_ids m) → i ∈ common_reactions ml.
Proof.
  intros Hne Hall. unfold common_reactions.
  destruct ml as [|m0 ml]; [done|]. clear Hne.
  assert (∀ (l : list Model) (S : gset string),
            (∀ m, m ∈ l → i ∈ reaction_ids m) → i ∈ S →
            i ∈ foldl (λ (reaction_set : gset string) (m : Model),
                         if decide (0 < size reaction_set)
                         then reaction_set ∩ list_to_set (reaction_ids m)
                         else list_to_set (reaction_ids m)) S l) as Hfold.
  { induction l as [|m l IH]; intros S Hl HS; [done|].
    cbn [foldl]. apply IH; [intros m' Hm'; apply Hl; by right|].
    assert (i ∈ (list_to_set (reaction_ids m) : gset string)) as Hm.
    { apply elem_of_list_to_set, Hl. left. }
    destruct (decide (0 < size S)); [by apply elem_of_intersection|done]. }
  cbn [foldl]. apply Hfold; [intros m' Hm'; apply Hall; by right|].
  rewrite decide_False by (rewrite size_empty; lia).
  apply elem_of_list_to_set, Hall. left.
Qed.

(** [set_features_states] on two or more models, from empty tables. *)
Lemma set_features_states_models (m : Model) (rest : list Model)
  (e : Ensemble) :
  rest ≠ [] → features e = [] → states e = empty_states →
  let ml := m :: rest in
  let rl := elements (common_reactions ml) in
  (model_rows rl m = []
   ∧ (set_features_states (PyModel <$> ml) e).1 = Raise KeyError)
  ∨ (model_rows rl m ≠ []
     ∧ ∃ e', set_features_states (PyModel <$> ml) e = (Ok (), e')
           ∧ ens_id e' = ens_id e ∧ base_model e' = base_model e
           ∧ catalog_of rl ml e').
Proof.
  intros Hrest Hf Hs ml rl.
  assert (set_features_states (PyModel <$> ml) e
          = forM_ (PyModel <$> ml) (set_features_states_body rl) e) as ->.
  { rewrite set_features_states_many
      by (unfold ml; destruct rest; [done|simpl; lia]).
    rewrite ST_bind_unfold. unfold lift at 1.
    by rewrite common_reactions_foldM. }
  unfold ml at 1 2. rewrite fmap_cons, forM__cons.
  destruct (decide (model_rows rl m = [])) as [HN|HN].
  - left. split; [done|].
    pose proof (body_first_KeyError rl m e Hf HN) as Hb.
    destruct (set_features_states_body rl (PyModel m) e) as [[[]|x] e1];
      simpl in Hb; [done|]. by injection Hb as ->.
  - right. split; [done|].
    destruct (body_first rl m e Hf Hs HN) as (e1 & -> & Hi1 & Hb1 & Hc1).
    destruct (loop_rest rl rest [m] e1 Hc1) as (e' & -> & Hi' & Hb' & Hc').
    exists e'. split; [done|]. split; [congruence|]. split; [congruence|done].
Qed.

(** ** The concurrent constructor on models *)

Lemma Ensemble_concurrent_models (m : Model) (rest : list Model)
  (base_id : string) (e : Ensemble) :
  rest ≠ [] →
  Ensemble_concurrent base_id (Some (PyModel <$> m :: rest)) = Ok e →
  ens_id e = base_id
  ∧ (∃ b, base_model e = PyModel b
        ∧ model_id b = base_id +:+ "_base_model"
        ∧ ∀ i, i ∈ reaction_ids b
               ↔ ∃ m', m' ∈ m :: rest ∧ i ∈ reaction_ids m')
  ∧ catalog_of (elements (common_reactions (m :: rest))) (m :: rest) e.
Proof.
  intros Hrest. unfold Ensemble_concurrent. rewrite fmap_cons.
  rewrite <-fmap_cons.
  destruct (create_base_model_spec (m :: rest) (base_id +:+ "_base_model"))
    as (b & Eb & Hid & Hb).
  rewrite fmap_cons in Eb |- *. rewrite Eb, result_bind_Ok.
  unfold run_init. rewrite <-fmap_cons.
  destruct (set_features_states_models m rest (new_self base_id (PyModel b))
              Hrest eq_refl eq_refl) as [[_ HK]|(_ & e' & -> & Hi & Hbm & Hc)].
  - destruct (set_features_states _ _) as [[[]|x] e1]; simpl in HK; done.
  - intros [= <-]. split; [done|]. split; [|done].
    exists b. by rewrite Hbm.
Qed.

Lemma Ensemble_concurrent_all_models (l : list PyObject) (base_id : string)
  (e : Ensemble) :
  Ensemble_concurrent base_id (Some l) = Ok e →
  ∃ ml, as_model <$> l = PyModel <$> ml.
Proof.
  intros E. apply all_models. intros Hin.
  unfold Ensemble_concurrent in E.
  destruct l as [|o l]; [by apply elem_of_nil in Hin|].
  by rewrite create_base_model_other in E.
Qed.

(** On two or more elements the constructor does what it does on the models
    with the attributes of the elements. *)
Lemma Ensemble_concurrent_many_models (o o' : PyObject) (l : list PyObject)
  (base_id : string) (e : Ensemble) :
  Ensemble_concurrent base_id (Some (o :: o' :: l)) = Ok e →
  ∃ m m' rest,
    as_model <$> o :: o' :: l = PyModel <$> m :: m' :: rest
    ∧ Ensemble_concurrent base_id (Some (PyModel <$> m :: m' :: rest)) = Ok e.
Proof.
  intros E.
  destruct (Ensemble_concurrent_all_models _ _ _ E) as ([|m [|m' rest]] & Hl);
    [done..|].
  exists m, m', rest. split; [done|].
  by rewrite <-Hl, Ensemble_concurrent_as_model.
Qed.

Lemma set_features_states_many_models (l : list PyObject) (e e' : Ensemble) :
  length l ≠ 1 →
  set_features_states l e = (Ok (), e') →
  ∃ ml, as_model <$> l = PyModel <$> ml
      ∧ set_features_states (PyModel <$> ml) e = (Ok (), e').
Proof.
  intros Hl E.
  assert (PyOther ∉ l) as Hm.
  { rewrite set_features_states_many, ST_bind_unfold in E by done.
    unfold lift at 1 in E.
    destruct (foldM common_reactions_step l ∅) as [S|x] eqn:EF; [|done].
    by eapply common_reactions_other. }
  destruct (all_models l Hm) as (ml & Hml). exists ml. split; [done|].
  by rewrite <-Hml, set_features_states_as_model.
Qed.

(** ** Mutual exclusivity *)

Lemma zip_fmap {A B C} (f : A → B) (g : A → C) (l : list A) :
  zip (f <$> l) (g <$> l) = (λ x, (f x, g x)) <$> l.
Proof.
  induction l as [|a l IH]; [done|].
  rewrite !fmap_cons. cbn [zip_with]. by rewrite IH.
Qed.

Lemma cell_at_member_row (rl : list string) (ml : list Model)
  (F : FeaturesFrame) (m : Model) (l : string) (f : FeatureRow) :
  NoDup F.*1 → (l, f) ∈ F →
  cell_at (states_of rl ml F) (member_row rl F m) l
  = Some (bool_decide (key f ∈ keys (model_rows rl m))).
Proof.
  intros Hnd Hin. unfold cell_at, states_of, member_row. cbn [columns snd].
  rewrite zip_fmap.
  erewrite elem_of_list_to_map_1; [reflexivity|..].
  - by rewrite <-list_fmap_compose.
  - apply list_elem_of_fmap. by exists (l, f).
Qed.

Lemma catalog_of_exclusive (rl : list string) (pre : list Model)
  (e : Ensemble) :
  catalog_of rl pre e → mutually_exclusive e.
Proof.
  intros (_ & Hnum & Hnd & _ & Hst) r l1 f1 l2 f2 Hr H1 H2 Hmid Hc1 Hc2.
  pose proof (numbered_NoDup_labels _ Hnum) as Hlab.
  rewrite Hst in Hr, Hc1, Hc2. cbn [states_of rows] in Hr.
  apply list_elem_of_fmap in Hr as (m & -> & _).
  rewrite (cell_at_member_row rl pre _ m l1 f1) in Hc1 by done.
  rewrite (cell_at_member_row rl pre _ m l2 f2) in Hc2 by done.
  injection Hc1 as Hc1. injection Hc2 as Hc2.
  apply bool_decide_eq_true in Hc1, Hc2.
  assert (key f1 = key f2) as Hk.
  { apply (model_rows_same_component rl m); [done..|].
    unfold key. simpl. done. }
  apply list_elem_of_lookup in H1 as [i1 H1], H2 as [i2 H2].
  assert (i1 = i2) as ->.
  { apply (NoDup_lookup (keys (features e)) i1 i2 (key f1)); [done|..];
      unfold keys; rewrite list_lookup_fmap.
    - by rewrite H1.
    - by rewrite H2, Hk. }
  rewrite H1 in H2. by injection H2 as -> _.
Qed.

Lemma no_features_exclusive (e : Ensemble) :
  features e = [] → mutually_exclusive e.
Proof.
  intros Hf r l1 f1 l2 f2 _ H1. rewrite Hf in H1. by apply elem_of_nil in H1.
Qed.

Lemma Ensemble_concurrent_exclusive (base_id : string)
  (model_list : option (list PyObject)) (e : Ensemble) :
  Ensemble_concurrent base_id model_list = Ok e → mutually_exclusive e.
Proof.
  intros E.
  destruct model_list as [[|o [|o' l]]|].
  - injection E as <-. by apply no_features_exclusive.
  - rewrite Ensemble_concurrent_one in E.
    destruct o; [..|done]; injection E as <-; by apply no_features_exclusive.
  - destruct (Ensemble_concurrent_many_models _ _ _ _ _ E)
      as (m & m' & rest & _ & E').
    apply Ensemble_concurrent_models in E' as (_ & _ & Hc); [|done].
    by eapply catalog_of_exclusive.
  - injection E as <-. by apply no_features_exclusive.
Qed.

Lemma set_features_states_exclusive (l : list PyObject) (e e' : Ensemble) :
  features e = [] → states e = empty_states →
  set_features_states l e = (Ok (), e') → mutually_exclusive e'.
Proof.
  intros Hf Hs E.
  destruct (decide (length l = 1)) as [Hl|Hl].
  - destruct l as [|o [|? ?]]; simpl in Hl; simplify_eq.
    rewrite set_features_states_single in E. injection E as <-.
    by apply no_features_exclusive.
  - destruct (set_features_states_many_models l e e' Hl E)
      as ([|m [|m' rest]] & Hml & E').
    + injection E' as <-. by apply no_features_exclusive.
    + apply (f_equal length) in Hml. by rewrite length_fmap in Hml.
    + destruct (set_features_states_models m (m' :: rest) e)
        as [[_ HK]|(_ & e1 & E1 & _ & _ & Hc)]; [done..| |].
      * rewrite E' in HK. done.
      * rewrite E' in E1. injection E1 as <-. by eapply catalog_of_exclusive.
Qed.

Lemma update_features_states_exclusive
  (it : PyObject → result (list Reaction)) (model_list : list PyObject)
  (old e' : Ensemble) :
  update_features_states it model_list old = (Ok (), e') →
  mutually_exclusive old → mutually_exclusive e'.
Proof.
  intros E Hold.
  destruct (decide (length (features old) < 1)) as [Hlt|Hge].
  - revert E. unfold update_features_states.
    rewrite bind_get, decide_True by done.
    rewrite ST_bind_unfold. unfold lift at 1.
    destruct (Ensemble_concurrent _ _) as [new|y] eqn:En; [|done].
    intros [= <-]. apply Ensemble_concurrent_exclusive in En.
    intros r l1 f1 l2 f2. apply En.
  - pose proof (update_features_states_populated it model_list old Hge) as Hu.
    rewrite E in Hu. simpl in Hu. by subst.
Qed.

(** ** The catalog of the concurrent constructor *)

Lemma Ensemble_concurrent_base (ml : list Model) (base_id : string)
  (e : Ensemble) :
  ml ≠ [] →
  Ensemble_concurrent base_id (Some (PyModel <$> ml)) = Ok e →
  ∀ i, i ∈ base_reaction_ids e ↔ ∃ m, m ∈ ml ∧ i ∈ reaction_ids m.
Proof.
  intros Hne E. destruct ml as [|m [|m' rest]]; [done| |].
  - rewrite fmap_cons, fmap_nil, Ensemble_concurrent_single in E.
    injection E as <-.
    intros i. unfold base_reaction_ids. cbn [base_model]. split.
    + intros Hi. exists m. split; [left|done].
    + by intros (m' & ->%list_elem_of_singleton & Hi).
  - apply Ensemble_concurrent_models in E as (_ & (b & Hb & _ & Hids) & _);
      [|done].
    intros i. unfold base_reaction_ids. rewrite Hb. apply Hids.
Qed.

(** C5.  The base structure contains exactly the union of the reaction
    identifiers of the input models: [_create_base_model] returns for every
    model list, and an identifier is in the base model it returns if and only
    if it occurs in at least one input model; the same holds of the base
    model of every ensemble the constructor, with its default join method,
    builds from a non-empty model list. *)
Theorem base_model_union (ml : list Model) (base_id : string) :
  (∃ b, _create_base_model (PyModel <$> ml) base_id = Ok b
      ∧ model_id b = base_id
      ∧ ∀ i, i ∈ reaction_ids b ↔ ∃ m, m ∈ ml ∧ i ∈ reaction_ids m)
  ∧ ∀ e, ml ≠ [] →
         Ensemble_concurrent base_id (Some (PyModel <$> ml)) = Ok e →
         ∀ i, i ∈ base_reaction_ids e ↔ ∃ m, m ∈ ml ∧ i ∈ reaction_ids m.
Proof.
  split; [apply create_base_model_spec|].
  intros e. apply Ensemble_concurrent_base.
Qed.

Lemma base_model_union_witness :
  [model_A; model_B] ≠ []
  ∧ Ensemble_concurrent "ens" (Some (PyModel <$> [model_A; model_B]))
    = Ok ensemble_AB
  ∧ ∀ i, i ∈ base_reaction_ids ensemble_AB
         ↔ ∃ m, m ∈ [model_A; model_B] ∧ i ∈ reaction_ids m.
Proof.
  split; [discriminate|]. split; [vm_compute; reflexivity|].
  apply (proj2 (base_model_union [model_A; model_B] "ens") ensemble_AB).
  - discriminate.
  - vm_compute. reflexivity.
Defined.

(** The rows of a model, read off its reactions. *)
Lemma model_rows_keys_spec (rl : list string) (m : Model) (lb ub : Z)
  (i ty : string) :
  (lb, i, ty, ub) ∈ keys (model_rows rl m)
  ↔ (i ∉ rl) ∧ ty = "reaction"
    ∧ ∃ r, get_by_id (reactions m) i = Ok r
           ∧ rxn_lower_bound r = lb ∧ rxn_upper_bound r = ub.
Proof.
  unfold keys. rewrite list_elem_of_fmap. split.
  - intros ([l f] & E & Hin).
    apply (model_rows_spec rl m) in Hin as (Hl & r & Er & ->).
    unfold key in E. cbn in E. injection E as -> -> -> ->.
    split; [done|]. split; [done|]. by exists r.
  - intros (Hi & -> & r & Er & <- & <-).
    exists (i, feature_of_reaction i r). split; [done|].
    apply (model_rows_spec rl m). split; [done|]. by exists r.
Qed.

Lemma common_reactions_snoc (ml : list Model) (m : Model) :
  common_reactions (ml ++ [m])
  = if decide (0 < size (common_reactions ml))
    then common_reactions ml ∩ list_to_set (reaction_ids m)
    else list_to_set (reaction_ids m).
Proof. unfold common_reactions. by rewrite foldl_app. Qed.

Lemma common_reactions_running (ml : list Model) (i : string) :
  intersection_stays_nonempty ml → ml ≠ [] →
  i ∈ common_reactions ml ↔ in_every_model ml i.
Proof.
  revert i. induction ml as [|m pre IH] using rev_ind; [done|].
  intros i Hrun _. rewrite common_reactions_snoc.
  destruct (decide (pre = [])) as [->|Hpre].
  { change (common_reactions []) with (∅ : gset string).
    rewrite decide_False by (rewrite size_empty; lia).
    rewrite elem_of_list_to_set. split.
    - by intros Hi m' ->%list_elem_of_singleton.
    - intros Hi. apply Hi. left. }
  assert (intersection_stays_nonempty pre) as Hrun'.
  { intros n Hn. destruct (Hrun n) as [i0 Hi0].
    - rewrite length_app. simpl. lia.
    - exists i0. by rewrite take_app_le in Hi0 by lia. }
  destruct (Hrun (length pre)) as [i0 Hi0].
  { rewrite length_app. simpl. destruct pre; [done|simpl; lia]. }
  rewrite take_app_length in Hi0.
  rewrite decide_True.
  2:{ assert (size (common_reactions pre) ≠ 0); [|lia].
      intros Hs%size_empty_inv.
      apply (not_elem_of_empty (C:=gset string) i0), Hs.
      by apply IH. }
  rewrite elem_of_intersection, elem_of_list_to_set, IH by done. split.
  - intros [Hp Hm] m' [?| ->%list_elem_of_singleton]%elem_of_app;
      [by apply Hp|done].
  - intros Hi. split.
    + intros m' ?. apply Hi, elem_of_app. by left.
    + apply Hi, elem_of_app. right. left.
Qed.

Lemma has_variant_true (m : Model) (lb ub : Z) (i ty : string) :
  has_variant m (lb, i, ty, ub) = true
  ↔ ∃ r, get_by_id (reactions m) i = Ok r
         ∧ rxn_lower_bound r = lb ∧ rxn_upper_bound r = ub.
Proof.
  unfold has_variant. cbn [fst snd].
  destruct (get_by_id (reactions m) i) as [r|x].
  - rewrite bool_decide_eq_true. split; [by exists r|].
    by intros (r' & [= <-] & ?).
  - split; [done|]. by intros (r' & ? & _).
Qed.

Lemma shared_stays_nonempty (ml : list Model) (i0 : string) :
  in_every_model ml i0 → intersection_stays_nonempty ml.
Proof.
  intros H0 n _. exists i0. intros m Hm. apply H0.
  apply elem_of_take in Hm as (j & Hj & _). by eapply list_elem_of_lookup_2.
Qed.

(** C1 (as amended).  For two or more models with which the construction
    succeeds, and such that the running intersection of the first loop of
    [set_features_states] is never empty when a further model is read (as
    when the models share a reaction): the base model has the reactions of
    all the models; the catalog has exactly one Feature per distinct
    combination of identifier, lower and upper bound among the reactions
    that are not in every model, and none at a reaction that every model
    has, whatever its bounds; and the row of a member is true exactly at the
    Features whose reaction the member has with these bounds. *)
Theorem Ensemble_concurrent_catalog (ml : list Model) (base_id : string)
  (e : Ensemble) :
  2 ≤ length ml → intersection_stays_nonempty ml →
  Ensemble_concurrent base_id (Some (PyModel <$> ml)) = Ok e →
  catalog_spec ml e.
Proof.
  intros Hlen Hrun E.
  assert (∀ i, i ∈ elements (common_reactions ml) ↔ in_every_model ml i)
    as Hcommon.
  { intros i. rewrite elem_of_elements. apply common_reactions_running;
      [done|]. intros ->. simpl in Hlen. lia. }
  destruct ml as [|m [|m' rest]]; [simpl in Hlen; lia..|].
  apply Ensemble_concurrent_models in E
    as (_ & (b & Hb & _ & Hids) & (_ & _ & Hnd & Hkeys & Hst)); [|done].
  set (ml := m :: m' :: rest) in *.
  set (rl := elements (common_reactions ml)) in *.
  assert (∀ lb i ty ub,
            (lb, i, ty, ub) ∈ keys (features e)
            ↔ ¬ in_every_model ml i ∧ ty = "reaction"
              ∧ ∃ m0 r, m0 ∈ ml ∧ get_by_id (reactions m0) i = Ok r
                        ∧ rxn_lower_bound r = lb ∧ rxn_upper_bound r = ub)
    as Hcat.
  { intros lb i ty ub. rewrite Hkeys, <-Hcommon. split.
    - intros (m0 & Hm0 & (? & ? & r & ? & ? & ?)%model_rows_keys_spec).
      split; [done|]. split; [done|]. by exists m0, r.
    - intros (? & ? & m0 & r & ? & ? & ? & ?). exists m0. split; [done|].
      apply model_rows_keys_spec. split; [done|]. split; [done|]. by exists r. }
  split; [by unfold base_reaction_ids; rewrite Hb|].
  split; [done|]. split; [done|]. split; [by rewrite Hst|].
  rewrite Hst. cbn [states_of rows]. apply list_fmap_ext. intros j m0 _.
  unfold member_row. f_equal. apply list_fmap_ext. intros j' [l f] Hj'.
  f_equal. cbn [snd].
  assert (key f ∈ keys (features e)) as Hk.
  { apply list_elem_of_fmap. exists (l, f). split; [done|].
    by eapply list_elem_of_lookup_2. }
  destruct (key f) as [[[lb i] ty] ub] eqn:Ek.
  apply Hcat in Hk as (Hni & Hty & _).
  destruct (has_variant m0 (lb, i, ty, ub)) eqn:Hv.
  - apply bool_decide_eq_true, model_rows_keys_spec.
    split; [by rewrite Hcommon|]. split; [done|].
    by apply has_variant_true in Hv.
  - apply bool_decide_eq_false.
    intros (_ & _ & Hr)%model_rows_keys_spec.
    apply (has_variant_true m0 lb ub i ty) in Hr. congruence.
Qed.

Lemma Ensemble_concurrent_catalog_witness :
  2 ≤ length [model_A; model_B; model_G]
  ∧ intersection_stays_nonempty [model_A; model_B; model_G]
  ∧ Ensemble_concurrent "ens" (Some (PyModel <$> [model_A; model_B; model_G]))
    = Ok ensemble_ABG
  ∧ catalog_spec [model_A; model_B; model_G] ensemble_ABG.
Proof.
  assert (2 ≤ length [model_A; model_B; model_G]) as H1 by (simpl; lia).
  assert (intersection_stays_nonempty [model_A; model_B; model_G]) as H2.
  { intros n Hn. exists "R1". intros m Hm.
    destruct n as [|[|[|n]]]; simpl in Hn, Hm; try lia.
    - apply list_elem_of_singleton in Hm as ->. left.
    - apply elem_of_cons in Hm as [->|Hm]; [left|].
      apply list_elem_of_singleton in Hm as ->. left. }
  assert (Ensemble_concurrent "ens"
            (Some (PyModel <$> [model_A; model_B; model_G]))
          = Ok ensemble_ABG) as H3 by (vm_compute; reflexivity).
  split; [exact H1|]. split; [exact H2|]. split; [exact H3|].
  apply (Ensemble_concurrent_catalog [model_A; model_B; model_G] "ens"
           ensemble_ABG H1 H2 H3).
Defined.

(** C1 as stated does not hold.  For the three single-reaction models with
    [R1] bounds (0,10), (0,10), (0,20) neither join method returns an
    ensemble: the constructor raises [KeyError].  And where the construction
    succeeds, as for [model_A], [model_B], [model_F] whose [R1] has these
    same three bounds, no Feature is at [R1]. *)
Lemma scenario_no_feature_at_R1 :
  let l := [PyModel model_1; PyModel model_2; PyModel model_3] in
  Ensemble_init iter_TypeError "ens" (Some l) "concurrent" 1 = Raise KeyError
  ∧ Ensemble_init iter_TypeError "ens" (Some l) "iterative" 1 = Raise KeyError
  ∧ Ensemble_concurrent "ens"
      (Some [PyModel model_A; PyModel model_B; PyModel model_F])
    = Ok ensemble_ABF
  ∧ ∀ l f, (l, f) ∈ features ensemble_ABF → f_model_identifier f ≠ "R1".
Proof.
  cbn zeta. split; [vm_compute; reflexivity|].
  split; [vm_compute; reflexivity|]. split; [vm_compute; reflexivity|].
  intros l f [= -> ->]%list_elem_of_singleton. discriminate.
Qed.

(** ** Mutual exclusivity after construction and after a merge *)

(** C9 (as amended).  After every construction that returns an ensemble,
    whatever the join method and the join size, and after every merge into
    an ensemble that has the property, whether the merge returns or raises,
    at most one Feature of a component is true for a member.  The property
    is a consequence of how the tables are built; nothing checks it. *)
Theorem Ensemble_init_exclusive (it : PyObject → result (list Reaction))
  (base_id : string) (model_list : option (list PyObject))
  (join_method : string) (join_size : Z) :
  (∀ e, Ensemble_init it base_id model_list join_method join_size = Ok e →
        mutually_exclusive e)
  ∧ (∀ new_models old,
       mutually_exclusive old →
       mutually_exclusive (update_features_states it new_models old).2).
Proof.
  assert (∀ new_models old,
            mutually_exclusive old →
            mutually_exclusive (update_features_states it new_models old).2)
    as Hmerge.
  { intros new_models old Hold.
    destruct (update_features_states it new_models old) as [[[]|x] e'] eqn:E.
    - by eapply update_features_states_exclusive.
    - cbn [snd].
      destruct (decide (length (features old) < 1)) as [Hlt|Hge].
      + revert E. unfold update_features_states.
        rewrite bind_get, decide_True by done.
        rewrite ST_bind_unfold. unfold lift at 1.
        destruct (Ensemble_concurrent _ _) as [new|y]; [done|].
        by intros [= _ <-].
      + pose proof (update_features_states_populated it new_models old Hge)
          as Hu.
        rewrite E in Hu. simpl in Hu. by subst. }
  split; [|exact Hmerge].
  intros e. unfold Ensemble_init.
  destruct (decide (join_method ∉ ["concurrent"; "iterative"])); [done|].
  destruct model_list as [[|o l]|];
    [intros [= <-]; by apply no_features_exclusive| |
     intros [= <-]; by apply no_features_exclusive].
  destruct (decide (join_method = "concurrent")) as [_|_];
    [apply Ensemble_concurrent_exclusive|].
  unfold run_init, init_iterative.
  set (e0 := new_self base_id _). rewrite ST_bind_unfold.
  destruct (set_features_states _ e0) as [[[]|x] e1] eqn:E1; [|done].
  apply set_features_states_exclusive in E1; [|done..].
  rewrite ST_bind_unfold.
  destruct (decide (join_size = 0)%Z) as [_|_]; [done|].
  unfold mret at 1, ST_ret at 1. rewrite ST_bind_unfold.
  destruct (forM_ _ _ e1) as [[[]|x] e2] eqn:E2; [|done].
  assert (mutually_exclusive e2) as He2.
  { eapply (forM__invariant mutually_exclusive); [|exact E2|exact E1].
    intros i t t'. apply update_features_states_exclusive. }
  destruct (decide (0 < _)%Z) as [_|_].
  - destruct (update_features_states _ _ e2) as [[[]|x] e3] eqn:E3; [|done].
    intros [= <-]. by eapply update_features_states_exclusive.
  - by intros [= <-].
Qed.

Lemma Ensemble_init_exclusive_witness :
  Ensemble_init iter_TypeError "ens"
    (Some [PyModel model_A; PyModel model_B; PyModel model_G]) "concurrent" 1
  = Ok ensemble_ABG
  ∧ mutually_exclusive ensemble_ABG
  ∧ mutually_exclusive
      (update_features_states iter_TypeError [PyModel model_C]
         ensemble_ABG).2.
Proof.
  assert (Ensemble_init iter_TypeError "ens"
            (Some [PyModel model_A; PyModel model_B; PyModel model_G])
            "concurrent" 1
          = Ok ensemble_ABG) as E by (vm_compute; reflexivity).
  destruct (Ensemble_init_exclusive iter_TypeError "ens"
              (Some [PyModel model_A; PyModel model_B; PyModel model_G])
              "concurrent" 1) as [Hinit Hmerge].
  split; [exact E|]. split; [exact (Hinit _ E)|].
  apply Hmerge. exact (Hinit _ E).
Defined.

(** C9 as stated does not hold: nothing detects a member that is true for
    two variants of a component.  [set_features_states] run on an ensemble
    whose member [A] is true for two variants of [R2] returns, and the member
    is still true for both.  A merge into that ensemble raises the
    [TypeError] that a merge into a consistent ensemble raises, and
    [_apply_state] for that member ends in the [NameError] it always ends
    in. *)
Lemma two_variants_not_detected :
  ¬ mutually_exclusive ensemble_two_variants
  ∧ (∃ e', set_features_states [PyModel model_A; PyModel model_B]
             ensemble_two_variants = (Ok (), e')
         ∧ ¬ mutually_exclusive e')
  ∧ update_features_states iter_TypeError [PyModel model_C]
      ensemble_two_variants
    = (Raise TypeError, ensemble_two_variants)
  ∧ update_features_states iter_TypeError [PyModel model_C] ensemble_AB
    = (Raise TypeError, ensemble_AB)
  ∧ _apply_state ensemble_two_variants "A" = Raise NameError
  ∧ _apply_state ensemble_AB "A" = Raise NameError.
Proof.
  assert (∀ e : Ensemble,
            features e = features ensemble_two_variants →
            columns (states e) = ["R2_0"; "R2_1"] →
            ("A", [Some true; Some true]) ∈ rows (states e) →
            ¬ mutually_exclusive e) as Hbad.
  { intros e Hf Hc Hr Hex.
    specialize (Hex ("A", [Some true; Some true]) "R2_0"
                  (relabel (feature_of_reaction "R2" (rxn "R2" 0 5)) 0).2
                  "R2_1"
                  (relabel (feature_of_reaction "R2" (rxn "R2" 0 7)) 1).2 Hr).
    rewrite Hf in Hex. unfold cell_at in Hex. rewrite Hc in Hex.
    discriminate Hex; [left|right; left|reflexivity..]. }
  split; [apply Hbad; [done..|left]|].
  split.
  { eexists. split; [vm_compute; reflexivity|]. apply Hbad; [done..|left]. }
  repeat split; vm_compute; reflexivity.
Qed.

(** ** The base model: order and uniqueness *)

Lemma create_base_model_step_reactions (base m : Model) :
  create_base_model_step base (PyModel m)
  = Ok {| model_id := model_id base;
          reactions := reactions base
            ++ filter (λ r, rxn_id r ∉ reaction_ids base) (reactions m) |}.
Proof.
  unfold create_base_model_step, reactions_of. rewrite result_bind_Ok.
  unfold repair, add_reactions. do 2 f_equal.
  by rewrite list_filter_filter_l.
Qed.

Lemma get_by_id_cons (r : Reaction) (l : list Reaction) (i : string) :
  get_by_id (r :: l) i
  = if decide (rxn_id r = i) then Ok r else get_by_id l i.
Proof.
  unfold get_by_id. cbn [list_find]. destruct (decide (rxn_id r = i)); [done|].
  by destruct (list_find _ l) as [[? ?]|].
Qed.

Lemma get_by_id_app_l (l1 l2 : list Reaction) (i : string) (r : Reaction) :
  get_by_id l1 i = Ok r → get_by_id (l1 ++ l2) i = Ok r.
Proof.
  induction l1 as [|r1 l1 IH]; [done|].
  rewrite <-app_comm_cons, !get_by_id_cons. by case_decide.
Qed.

Lemma get_by_id_app_r (l1 l2 : list Reaction) (i : string) :
  i ∉ rxn_id <$> l1 → get_by_id (l1 ++ l2) i = get_by_id l2 i.
Proof.
  induction l1 as [|r1 l1 IH]; [done|].
  rewrite fmap_cons, not_elem_of_cons. intros [Hne Hni].
  rewrite <-app_comm_cons, get_by_id_cons, decide_False by done. by apply IH.
Qed.

Lemma get_by_id_filter (P : Reaction → Prop) `{!∀ r, Decision (P r)}
  (l : list Reaction) (i : string) :
  (∀ r, rxn_id r = i → P r) →
  get_by_id (filter P l) i = get_by_id l i.
Proof.
  intros HP. induction l as [|r l IH]; [done|].
  rewrite filter_cons, get_by_id_cons.
  destruct (decide (P r)) as [Hr|Hr].
  - by rewrite get_by_id_cons, IH.
  - rewrite IH, decide_False; [done|]. intros Hi. by apply Hr, HP.
Qed.

(** A reaction identifier keeps the reaction it got first: later models
    neither replace it nor change its bounds. *)
Lemma create_base_model_fold_keeps (ml : list Model) (base b : Model)
  (i : string) (r : Reaction) :
  get_by_id (reactions base) i = Ok r →
  foldM create_base_model_step (PyModel <$> ml) base = Ok b →
  get_by_id (reactions b) i = Ok r.
Proof.
  revert base. induction ml as [|m ml IH]; intros base Hg.
  - by intros [= <-].
  - rewrite fmap_cons, foldM_cons, create_base_model_step_reactions,
      result_bind_Ok.
    apply IH. cbn [reactions]. by apply get_by_id_app_l.
Qed.

Lemma create_base_model_fold_skips (ml : list Model) (base : Model)
  (i : string) :
  i ∉ reaction_ids base →
  (∀ m, m ∈ ml → i ∉ reaction_ids m) →
  ∃ b, foldM create_base_model_step (PyModel <$> ml) base = Ok b
     ∧ i ∉ reaction_ids b.
Proof.
  intros Hb Hml.
  destruct (create_base_model_fold ml base) as (b & E & _ & Hids).
  exists b. split; [done|].
  rewrite Hids. intros [?|(m & Hm & Hi)]; [done|]. by apply (Hml m).
Qed.

(** X1.  The first model that has a reaction decides it: under an
    identifier that no earlier model of the list has, the base model holds
    the reaction of this model, with its bounds, whatever the later models
    hold under that identifier. *)
Theorem create_base_model_first_wins (pre post : list Model) (m : Model)
  (base_id : string) (i : string) (r : Reaction) :
  (∀ m', m' ∈ pre → i ∉ reaction_ids m') →
  get_by_id (reactions m) i = Ok r →
  ∃ b, _create_base_model (PyModel <$> pre ++ m :: post) base_id = Ok b
     ∧ get_by_id (reactions b) i = Ok r.
Proof.
  intros Hpre Hm. unfold _create_base_model.
  rewrite fmap_app, fmap_cons, foldM_app.
  destruct (create_base_model_fold_skips pre (cobra_Model base_id) i)
    as (b1 & -> & Hb1); [by intros ?%elem_of_nil|done|].
  rewrite result_bind_Ok, foldM_cons, create_base_model_step_reactions,
    result_bind_Ok.
  destruct (create_base_model_fold post
              {| model_id := model_id b1;
                 reactions := reactions b1
                   ++ filter (λ r, rxn_id r ∉ reaction_ids b1) (reactions m) |})
    as (b & E & _). exists b. split; [done|].
  eapply create_base_model_fold_keeps; [|exact E]. cbn [reactions].
  rewrite get_by_id_app_r by done.
  rewrite get_by_id_filter; [done|]. by intros r' ->.
Qed.

Lemma create_base_model_first_wins_witness :
  (∀ m', m' ∈ [model_B] → "R2" ∉ reaction_ids m')
  ∧ get_by_id (reactions model_A) "R2" = Ok (rxn "R2" 0 5)
  ∧ ∃ b, _create_base_model (PyModel <$> [model_B] ++ model_A :: [model_F])
           "base" = Ok b
       ∧ get_by_id (reactions b) "R2" = Ok (rxn "R2" 0 5).
Proof.
  assert (∀ m', m' ∈ [model_B] → "R2" ∉ reaction_ids m') as H.
  { intros m' ->%list_elem_of_singleton. vm_compute.
    intros [?|?%elem_of_nil]%elem_of_cons; done. }
  split; [exact H|]. split; [reflexivity|].
  apply (create_base_model_first_wins [model_B] [model_F] model_A "base" "R2"
           (rxn "R2" 0 5) H eq_refl).
Defined.

Lemma create_base_model_fold_prefix (ml : list Model) (base b : Model) :
  foldM create_base_model_step (PyModel <$> ml) base = Ok b →
  reactions base `prefix_of` reactions b.
Proof.
  revert base. induction ml as [|m ml IH]; intros base.
  - by intros [= <-].
  - rewrite fmap_cons, foldM_cons, create_base_model_step_reactions,
      result_bind_Ok.
    intros E%IH. cbn [reactions] in E.
    etrans; [|exact E]. by apply prefix_app_r.
Qed.

(** X2.  Appending models to the list only appends reactions: the
    reactions of the base model of [ml] are, in order, the first reactions
    of the base model of [ml ++ ml']. *)
Theorem create_base_model_prefix (ml ml' : list Model) (base_id : string) :
  ∃ b b', _create_base_model (PyModel <$> ml) base_id = Ok b
        ∧ _create_base_model (PyModel <$> ml ++ ml') base_id = Ok b'
        ∧ reactions b `prefix_of` reactions b'.
Proof.
  unfold _create_base_model. rewrite fmap_app, foldM_app.
  destruct (create_base_model_fold ml (cobra_Model base_id)) as (b & -> & _).
  rewrite result_bind_Ok.
  destruct (create_base_model_fold ml' b) as (b' & E & _).
  exists b, b'. split; [done|]. split; [done|].
  by eapply create_base_model_fold_prefix.
Qed.

Lemma create_base_model_fold_NoDup (ml : list Model) (base b : Model) :
  NoDup (reaction_ids base) →
  (∀ m, m ∈ ml → NoDup (reaction_ids m)) →
  foldM create_base_model_step (PyModel <$> ml) base = Ok b →
  NoDup (reaction_ids b).
Proof.
  revert base. induction ml as [|m ml IH]; intros base Hb Hml.
  - by intros [= <-].
  - rewrite fmap_cons, foldM_cons, create_base_model_step_reactions,
      result_bind_Ok.
    apply IH; [|intros m' Hm'; apply Hml; by right].
    unfold reaction_ids at 1. cbn [reactions]. rewrite fmap_app.
    apply NoDup_app. split; [done|]. split.
    + intros i Hi (r & -> & Hr)%list_elem_of_fmap.
      by apply list_elem_of_filter in Hr as [Hr _].
    + apply NoDup_fmap_filter. apply Hml. left.
Qed.

(** X3.  When no input model repeats a reaction identifier, the base model
    holds every identifier once. *)
Theorem create_base_model_NoDup (ml : list Model) (base_id : string) :
  (∀ m, m ∈ ml → NoDup (reaction_ids m)) →
  ∃ b, _create_base_model (PyModel <$> ml) base_id = Ok b
     ∧ NoDup (reaction_ids b).
Proof.
  intros Hml.
  destruct (create_base_model_spec ml base_id) as (b & E & _).
  exists b. split; [done|].
  eapply create_base_model_fold_NoDup; [|exact Hml|exact E]. constructor.
Qed.

(** X4.  [_create_base_model] raises [AttributeError] exactly when the list
    holds an element without the attribute [reactions]; on every other list
    it returns, and the model it returns carries the identifier asked
    for. *)
Theorem create_base_model_outcome (l : list PyObject) (base_id : string) :
  (PyOther ∈ l ∧ _create_base_model l base_id = Raise AttributeError)
  ∨ ((PyOther ∉ l)
     ∧ ∃ b, _create_base_model l base_id = Ok b ∧ model_id b = base_id).
Proof.
  destruct (decide (PyOther ∈ l)) as [Hin|Hni].
  - left. split; [done|]. by apply create_base_model_other.
  - right. split; [done|]. destruct (all_models l Hni) as [ml Hml].
    rewrite <-create_base_model_as_model, Hml.
    destruct (create_base_model_spec ml base_id) as (b & E & Hid & _).
    by exists b.
Qed.

Lemma create_base_model_NoDup_witness :
  (∀ m, m ∈ [model_A; model_F] → NoDup (reaction_ids m))
  ∧ ∃ b, _create_base_model (PyModel <$> [model_A; model_F]) "base" = Ok b
       ∧ NoDup (reaction_ids b).
Proof.
  assert (∀ m, m ∈ [model_A; model_F] → NoDup (reaction_ids m)) as H.
  { intros m [->|[->|[]%elem_of_nil]%elem_of_cons]%elem_of_cons;
      apply (bool_decide_unpack _); vm_compute; exact I. }
  split; [exact H|].
  apply (create_base_model_NoDup [model_A; model_F] "base" H).
Defined.

(** ** The common reaction set *)

Lemma common_reactions_fold_inter (ml : list Model) (S : gset string)
  (i0 : string) :
  i0 ∈ S → (∀ m, m ∈ ml → i0 ∈ reaction_ids m) →
  ∀ i, i ∈ foldl (λ (reaction_set : gset string) (m : Model),
                    if decide (0 < size reaction_set)
                    then reaction_set ∩ list_to_set (reaction_ids m)
                    else list_to_set (reaction_ids m)) S ml
       ↔ i ∈ S ∧ ∀ m, m ∈ ml → i ∈ reaction_ids m.
Proof.
  revert S. induction ml as [|m ml IH]; intros S H0 Hml i.
  - simpl. split; [intros ?; split; [done|by intros ? ?%elem_of_nil]|by intros []].
  - cbn [foldl]. rewrite decide_True.
    2:{ assert (size S ≠ 0); [|lia]. intros Hs%size_empty_inv.
        apply (not_elem_of_empty (C:=gset string) i0). by apply Hs. }
    rewrite IH.
    + rewrite elem_of_intersection, elem_of_list_to_set. split.
      * intros [[? ?] Hr]. split; [done|].
        intros m' [->|?]%elem_of_cons; [done|by apply Hr].
      * intros [? Hr]. split; [split; [done|apply Hr; left]|].
        intros m' ?. apply Hr. by right.
    + rewrite elem_of_intersection, elem_of_list_to_set. split; [done|].
      apply Hml. left.
    + intros m' ?. apply Hml. by right.
Qed.

(** X5.  When the models share at least one reaction, the first loop of
    [set_features_states] returns the intersection of their reaction
    identifiers. *)
Theorem common_reactions_step_intersection (ml : list Model) (i0 : string) :
  ml ≠ [] → (∀ m, m ∈ ml → i0 ∈ reaction_ids m) →
  ∃ S, foldM common_reactions_step (PyModel <$> ml) ∅ = Ok S
     ∧ ∀ i, i ∈ S ↔ ∀ m, m ∈ ml → i ∈ reaction_ids m.
Proof.
  intros Hne H0. rewrite common_reactions_foldM. eexists. split; [done|].
  intros i. destruct ml as [|m ml]; [done|]. cbn [foldl].
  rewrite decide_False by (rewrite size_empty; lia).
  rewrite (common_reactions_fold_inter ml _ i0).
  - rewrite elem_of_list_to_set. split.
    + intros [? Hr] m' [->|?]%elem_of_cons; [done|by apply Hr].
    + intros Hr. split; [apply Hr; left|]. intros m' ?. apply Hr. by right.
  - apply elem_of_list_to_set, H0. left.
  - intros m' ?. apply H0. by right.
Qed.

Lemma common_reactions_step_intersection_witness :
  [model_A; model_B; model_F] ≠ []
  ∧ (∀ m, m ∈ [model_A; model_B; model_F] → "R1" ∈ reaction_ids m)
  ∧ ∃ S, foldM common_reactions_step
           (PyModel <$> [model_A; model_B; model_F]) ∅ = Ok S
       ∧ ∀ i, i ∈ S ↔ ∀ m, m ∈ [model_A; model_B; model_F]
                          → i ∈ reaction_ids m.
Proof.
  assert ([model_A; model_B; model_F] ≠ []) as H0 by done.
  assert (∀ m, m ∈ [model_A; model_B; model_F] → "R1" ∈ reaction_ids m) as H.
  { intros m [->|[->|[->|[]%elem_of_nil]%elem_of_cons]%elem_of_cons]%elem_of_cons;
      left. }
  split; [exact H0|]. split; [exact H|].
  apply (common_reactions_step_intersection [model_A; model_B; model_F] "R1"
           H0 H).
Defined.

(** X6.  While the running set is empty the first loop starts afresh.
    After models that leave it empty, the set the loop returns is the
    intersection of the remaining models alone; where these share a
    reaction, the loop returns as common to all models a reaction that some
    model lacks. *)
Theorem common_reactions_step_restart (pre post : list Model) (i0 : string) :
  pre ≠ [] → post ≠ [] →
  foldM common_reactions_step (PyModel <$> pre) ∅ = Ok ∅ →
  (∀ m, m ∈ post → i0 ∈ reaction_ids m) →
  ∃ S, foldM common_reactions_step (PyModel <$> pre ++ post) ∅ = Ok S
     ∧ (∀ i, i ∈ S ↔ ∀ m, m ∈ post → i ∈ reaction_ids m)
     ∧ i0 ∈ S
     ∧ ¬ (∀ m, m ∈ pre ++ post → i0 ∈ reaction_ids m).
Proof.
  intros Hpre Hpost E H0.
  rewrite fmap_app, foldM_app, E, result_bind_Ok, common_reactions_foldM.
  eexists. split; [done|].
  assert (∀ i, i ∈ common_reactions post ↔ in_every_model post i) as Hpost'.
  { intros i. apply common_reactions_running; [|done].
    by apply (shared_stays_nonempty post i0). }
  split; [exact Hpost'|]. split; [by apply Hpost'|].
  intros Hall. rewrite common_reactions_foldM in E. injection E as E.
  apply (not_elem_of_empty (C:=gset string) i0).
  rewrite <-E. apply common_reactions_all; [done|].
  intros m Hm. apply Hall, elem_of_app. by left.
Qed.

Lemma common_reactions_step_restart_witness :
  [model_A; model_C] ≠ []
  ∧ [model_D] ≠ []
  ∧ foldM common_reactions_step (PyModel <$> [model_A; model_C]) ∅ = Ok ∅
  ∧ (∀ m, m ∈ [model_D] → "R3" ∈ reaction_ids m)
  ∧ ∃ S, foldM common_reactions_step
           (PyModel <$> [model_A; model_C] ++ [model_D]) ∅ = Ok S
       ∧ (∀ i, i ∈ S ↔ ∀ m, m ∈ [model_D] → i ∈ reaction_ids m)
       ∧ "R3" ∈ S
       ∧ ¬ (∀ m, m ∈ [model_A; model_C] ++ [model_D]
                 → "R3" ∈ reaction_ids m).
Proof.
  assert ([model_A; model_C] ≠ []) as H1 by done.
  assert ([model_D] ≠ []) as H2 by done.
  assert (foldM common_reactions_step (PyModel <$> [model_A; model_C]) ∅
          = Ok ∅) as H3 by (vm_compute; reflexivity).
  assert (∀ m, m ∈ [model_D] → "R3" ∈ reaction_ids m) as H4.
  { intros m ->%list_elem_of_singleton. left. }
  split; [exact H1|]. split; [exact H2|]. split; [exact H3|].
  split; [exact H4|].
  apply (common_reactions_step_restart [model_A; model_C] [model_D] "R3"
           H1 H2 H3 H4).
Defined.

(** ** When the concurrent constructor returns *)

Lemma model_rows_nil (rl : list string) (m : Model) :
  model_rows rl m = [] ↔ ∀ r, r ∈ reactions m → rxn_id r ∈ rl.
Proof.
  destruct (model_rows_spec rl m) as (E & _ & Hrows). split.
  - intros HN r Hr. destruct (decide (rxn_id r ∈ rl)) as [|Hni]; [done|].
    destruct (get_by_id_elem _ _ Hr) as [r' Hr'].
    assert ((rxn_id r, feature_of_reaction (rxn_id r) r') ∈ model_rows rl m)
      as Hin by (apply Hrows; eauto).
    rewrite HN in Hin. by apply elem_of_nil in Hin.
  - intros Hall. unfold model_rows. by rewrite model_features_none.
Qed.

Lemma model_rows_cons_inv (rl : list string) (m : Model) :
  model_rows rl m ≠ [] → ∃ r, r ∈ reactions m ∧ rxn_id r ∉ rl.
Proof.
  destruct (model_rows_spec rl m) as (_ & _ & Hrows).
  destruct (model_rows rl m) as [|[l f] N]; [done|]. intros _.
  destruct (proj1 (Hrows l f)) as (Hl & r & Hr & _); [left|].
  apply get_by_id_Ok in Hr as [Hr <-]. by exists r.
Qed.

(** X7.  On two or more models the concurrent constructor raises
    [KeyError] exactly when every reaction of the first model of the list is
    in the common reaction set; otherwise it returns an ensemble whose
    catalog is not empty and whose states have one row per model. *)
Theorem Ensemble_concurrent_outcome (m : Model) (rest : list Model)
  (base_id : string) :
  rest ≠ [] →
  let ml := m :: rest in
  ((∀ r, r ∈ reactions m → rxn_id r ∈ common_reactions ml)
   ∧ Ensemble_concurrent base_id (Some (PyModel <$> ml)) = Raise KeyError)
  ∨ ((∃ r, r ∈ reactions m ∧ rxn_id r ∉ common_reactions ml)
     ∧ ∃ e, Ensemble_concurrent base_id (Some (PyModel <$> ml)) = Ok e
          ∧ features e ≠ []
          ∧ length (rows (states e)) = length ml).
Proof.
  intros Hrest ml.
  destruct (create_base_model_spec ml (base_id +:+ "_base_model"))
    as (b & Eb & _).
  assert (Ensemble_concurrent base_id (Some (PyModel <$> ml))
          = run_init (new_self base_id (PyModel b))
                     (set_features_states (PyModel <$> ml))) as ->.
  { unfold ml in *. rewrite fmap_cons in Eb |- *.
    unfold Ensemble_concurrent. by rewrite Eb, result_bind_Ok. }
  unfold run_init.
  destruct (set_features_states_models m rest (new_self base_id (PyModel b))
              Hrest eq_refl eq_refl)
    as [[HN HK]|(HN & e' & E & _ & _ & Hc)]; fold ml in HN |- *.
  - left. split.
    + intros r Hr. apply elem_of_elements. by apply (model_rows_nil _ m).
    + fold ml in HK.
      destruct (set_features_states _ _) as [[[]|x] e1]; simpl in HK;
        [done|by injection HK as ->].
  - right. split.
    + destruct (model_rows_cons_inv _ _ HN) as (r & Hr & Hni).
      exists r. split; [done|]. by rewrite <-elem_of_elements.
    + fold ml in E. rewrite E. exists e'. split; [done|].
      destruct Hc as (Hne & _ & _ & _ & Hst). split; [done|].
      rewrite Hst. cbn [states_of rows]. by rewrite length_fmap.
Qed.

Lemma Ensemble_concurrent_outcome_witness :
  [model_A] ≠ []
  ∧ (((∀ r, r ∈ reactions model_B
            → rxn_id r ∈ common_reactions (model_B :: [model_A]))
      ∧ Ensemble_concurrent "ens" (Some (PyModel <$> model_B :: [model_A]))
        = Raise KeyError)
     ∨ ((∃ r, r ∈ reactions model_B
              ∧ rxn_id r ∉ common_reactions (model_B :: [model_A]))
        ∧ ∃ e, Ensemble_concurrent "ens"
                 (Some (PyModel <$> model_B :: [model_A])) = Ok e
             ∧ features e ≠ []
             ∧ length (rows (states e)) = length (model_B :: [model_A]))).
Proof.
  assert ([model_A] ≠ []) as H by done.
  split; [exact H|].
  apply (Ensemble_concurrent_outcome model_B [model_A] "ens" H).
Defined.

(** ** Merging rows keeps what is there *)

(** X8.  Merging the rows of a model into a numbered table keeps the table
    as it is, labels and counts included, and appends; rows that are all
    known already leave the table unchanged. *)
Theorem merge_features_extends (F N : FeaturesFrame) :
  numbered F → NoDup (keys F) → NoDup (keys N) →
  F `prefix_of` (merge_features F N).1
  ∧ ((∀ k, k ∈ keys N → k ∈ keys F) → (merge_features F N).1 = F).
Proof.
  intros Hnum HF HN.
  destruct (merge_features_spec F N Hnum HF HN) as (G & -> & HkG & _).
  cbn [fst]. split; [by apply prefix_app_r|].
  intros Hsub. assert (G = []) as ->; [|by rewrite app_nil_r].
  apply (fmap_nil_inv (λ p : string * FeatureRow, key p.2)).
  change (keys G = []). rewrite HkG.
  apply (f_equal keys (y:=[])).
  apply (filter_none (λ p : string * FeatureRow, key p.2 ∉ keys F)).
  intros p Hp Hni. apply Hni, Hsub. apply list_elem_of_fmap. by exists p.
Qed.

Lemma merge_features_extends_witness :
  numbered (features ensemble_AB)
  ∧ NoDup (keys (features ensemble_AB))
  ∧ NoDup (keys (model_rows ["R1"] model_G))
  ∧ features ensemble_AB
      `prefix_of` (merge_features (features ensemble_AB)
                     (model_rows ["R1"] model_G)).1
  ∧ ((∀ k, k ∈ keys (model_rows ["R1"] model_G)
           → k ∈ keys (features ensemble_AB))
     → (merge_features (features ensemble_AB) (model_rows ["R1"] model_G)).1
       = features ensemble_AB).
Proof.
  assert (numbered (features ensemble_AB)) as H1 by reflexivity.
  assert (NoDup (keys (features ensemble_AB))) as H2
    by (apply (bool_decide_unpack _); vm_compute; exact I).
  assert (NoDup (keys (model_rows ["R1"] model_G))) as H3
    by (apply (bool_decide_unpack _); vm_compute; exact I).
  split; [exact H1|]. split; [exact H2|]. split; [exact H3|].
  apply (merge_features_extends (features ensemble_AB)
           (model_rows ["R1"] model_G) H1 H2 H3).
Defined.

(** ** The order of the catalog *)

Lemma keys_filter (N : list (string * FeatureRow)) (seen : list (Z * string * string * Z)) :
  keys (filter (λ p, key p.2 ∉ seen) N) = filter (λ k, k ∉ seen) (keys N).
Proof.
  induction N as [|p N IH]; [done|].
  unfold keys in *. rewrite fmap_cons, filter_cons. rewrite filter_cons.
  destruct (decide (key p.2 ∉ seen)); [rewrite fmap_cons|]; by rewrite IH.
Qed.

Lemma body_next_features (rl : list string) (m : Model) (e e' : Ensemble) :
  features e ≠ [] →
  set_features_states_body rl (PyModel m) e = (Ok (), e') →
  features e' = (merge_features (features e) (model_rows rl m)).1.
Proof.
  intros Hne. destruct (model_rows_spec rl m) as (EN & _).
  unfold set_features_states_body. cbn [reactions_of].
  rewrite bind_lift_Ok, EN, bind_lift_Ok, bind_get.
  rewrite decide_True by (destruct (features e); [done|simpl; lia]).
  cbn [id_of]. rewrite bind_lift_Ok, bind_set_features.
  unfold set_states, with_tables. cbn [features states ens_id base_model].
  by intros [= <-].
Qed.

Lemma body_first_features (rl : list string) (m : Model) (e e' : Ensemble) :
  features e = [] → states e = empty_states →
  set_features_states_body rl (PyModel m) e = (Ok (), e') →
  features e' = (λ p : string * FeatureRow, relabel p.2 0) <$> model_rows rl m.
Proof.
  intros Hf Hs. destruct (model_rows_spec rl m) as (EN & _).
  destruct (decide (model_rows rl m = [])) as [HN|HN].
  { intros E. pose proof (body_first_KeyError rl m e Hf HN) as HK.
    by rewrite E in HK. }
  unfold set_features_states_body. cbn [reactions_of].
  rewrite bind_lift_Ok, EN, bind_lift_Ok, bind_get, Hf.
  rewrite decide_False by (simpl; lia).
  rewrite bind_set_features, decide_False by done.
  rewrite bind_mret, bind_set_features. cbn [id_of].
  rewrite bind_lift_Ok. unfold with_tables at 1 2.
  cbn [states features ens_id base_model]. rewrite Hs, join_outer_empty.
  rewrite bind_lift_Ok, bind_set_states.
  unfold set_columns. cbn [columns rows].
  rewrite decide_True by (by rewrite !length_fmap).
  rewrite bind_lift_Ok. unfold set_states, with_tables.
  cbn [states features ens_id base_model].
  by intros [= <-].
Qed.

Lemma body_next_keys (rl : list string) (pre : list Model) (m : Model)
  (e e' : Ensemble) :
  catalog_of rl pre e →
  set_features_states_body rl (PyModel m) e = (Ok (), e') →
  keys (features e')
  = keys (features e)
    ++ filter (λ k, k ∉ keys (features e)) (keys (model_rows rl m)).
Proof.
  intros (Hne & Hnum & Hnd & _) E.
  rewrite (body_next_features rl m e e' Hne E).
  destruct (merge_features_spec (features e) (model_rows rl m) Hnum Hnd
              (model_rows_keys_NoDup rl m)) as (G & -> & HkG & _).
  cbn [fst]. by rewrite keys_app, HkG, keys_filter.
Qed.

Lemma loop_rest_keys (rl : list string) (rest pre : list Model)
  (e e' : Ensemble) :
  catalog_of rl pre e →
  forM_ (PyModel <$> rest) (set_features_states_body rl) e = (Ok (), e') →
  keys (features e')
  = foldl (λ acc m,
             acc ++ filter (λ k, k ∉ acc) (keys (model_rows rl m)))
          (keys (features e)) rest.
Proof.
  revert pre e. induction rest as [|m rest IH]; intros pre e Hc.
  - by intros [= <-].
  - rewrite fmap_cons, forM__cons.
    destruct (body_next rl pre m e Hc) as (e1 & E1 & _ & _ & Hc1).
    rewrite E1. intros E'. cbn [foldl].
    rewrite <-(body_next_keys rl pre m e e1 Hc E1). by eapply IH.
Qed.

Lemma set_features_states_keys (m : Model) (rest : list Model)
  (e e' : Ensemble) :
  rest ≠ [] → features e = [] → states e = empty_states →
  let ml := m :: rest in
  let rl := elements (common_reactions ml) in
  set_features_states (PyModel <$> ml) e = (Ok (), e') →
  keys (features e') = first_seen_keys rl ml.
Proof.
  intros Hrest Hf Hs ml rl.
  assert (set_features_states (PyModel <$> ml) e
          = forM_ (PyModel <$> ml) (set_features_states_body rl) e) as ->.
  { rewrite set_features_states_many
      by (unfold ml; destruct rest; [done|simpl; lia]).
    rewrite ST_bind_unfold. unfold lift at 1.
    by rewrite common_reactions_foldM. }
  unfold ml at 1. rewrite fmap_cons, forM__cons.
  destruct (set_features_states_body rl (PyModel m) e) as [[[]|x] e1] eqn:E1;
    [|done].
  pose proof (body_first_features rl m e e1 Hf Hs E1) as Hf1.
  destruct (decide (model_rows rl m = [])) as [HN|HN].
  { pose proof (body_first_KeyError rl m e Hf HN) as HK. by rewrite E1 in HK. }
  destruct (body_first rl m e Hf Hs HN) as (e1' & E1' & _ & _ & Hc1).
  rewrite E1 in E1'. injection E1' as <-.
  intros E'. rewrite (loop_rest_keys rl rest [m] e1 e' Hc1 E').
  unfold first_seen_keys, ml. cbn [foldl]. f_equal.
  rewrite Hf1, app_nil_l.
  rewrite filter_all by (intros k _; apply not_elem_of_nil).
  unfold keys. rewrite <-list_fmap_compose. done.
Qed.

(** X9.  The catalog lists the Features in the order in which the models
    bring them: model after model, each with its rows that no earlier model
    had. *)
Theorem Ensemble_concurrent_first_seen (ml : list Model) (base_id : string)
  (e : Ensemble) :
  2 ≤ length ml →
  Ensemble_concurrent base_id (Some (PyModel <$> ml)) = Ok e →
  keys (features e) = first_seen_keys (elements (common_reactions ml)) ml.
Proof.
  intros Hlen. destruct ml as [|m [|m' rest]]; [simpl in Hlen; lia..|].
  clear Hlen. unfold Ensemble_concurrent. rewrite fmap_cons.
  rewrite <-fmap_cons.
  destruct (create_base_model_spec (m :: m' :: rest)
              (base_id +:+ "_base_model")) as (b & Eb & _).
  rewrite fmap_cons in Eb |- *. rewrite Eb, result_bind_Ok.
  unfold run_init. rewrite <-fmap_cons.
  destruct (set_features_states _ _) as [[[]|x] e1] eqn:E1; [|done].
  intros [= <-].
  by apply (set_features_states_keys m (m' :: rest) _ e1) in E1.
Qed.

Lemma Ensemble_concurrent_first_seen_witness :
  2 ≤ length [model_A; model_B; model_G]
  ∧ Ensemble_concurrent "ens" (Some (PyModel <$> [model_A; model_B; model_G]))
    = Ok ensemble_ABG
  ∧ keys (features ensemble_ABG)
    = first_seen_keys (elements (common_reactions [model_A; model_B; model_G]))
        [model_A; model_B; model_G].
Proof.
  assert (2 ≤ length [model_A; model_B; model_G]) as H by (simpl; lia).
  split; [exact H|]. split; [vm_compute; reflexivity|].
  apply (Ensemble_concurrent_first_seen [model_A; model_B; model_G] "ens"
           ensemble_ABG H).
  vm_compute. reflexivity.
Defined.

(** ** Reading a member back from its row *)

Lemma active_keys_cells (N : list (Z * string * string * Z))
  (F : list (string * FeatureRow)) :
  keys (mask ((λ c, bool_decide (c = Some true))
                <$> ((λ p : string * FeatureRow,
                        Some (bool_decide (key p.2 ∈ N))) <$> F)) F)
  = filter (λ k, k ∈ N) (keys F).
Proof.
  induction F as [|p F IH]; [done|].
  unfold keys in *. rewrite !fmap_cons, filter_cons. cbn [mask].
  destruct (decide (key p.2 ∈ N)) as [Hp|Hp].
  - rewrite (bool_decide_true (key p.2 ∈ N)) by done.
    rewrite bool_decide_true by done. by rewrite fmap_cons, IH.
  - rewrite (bool_decide_false (key p.2 ∈ N)) by done.
    rewrite bool_decide_false by done. by rewrite IH.
Qed.

Lemma active_keys_member_row (rl : list string) (e : Ensemble) (m : Model) :
  active_keys e (member_row rl (features e) m)
  = filter (λ k, k ∈ keys (model_rows rl m)) (keys (features e)).
Proof. apply active_keys_cells. Qed.

Lemma catalog_of_round_trip (rl : list string) (pre : list Model)
  (e : Ensemble) (j : nat) (m : Model) :
  catalog_of rl pre e → pre !! j = Some m →
  ∃ r, rows (states e) !! j = Some r
     ∧ r.1 = model_id m
     ∧ active_keys e r ≡ₚ keys (model_rows rl m).
Proof.
  intros (Hne & Hnum & Hnd & Hkeys & Hst) Hj.
  exists (member_row rl (features e) m). split; [|split; [done|]].
  - rewrite Hst. cbn [states_of rows]. by rewrite list_lookup_fmap, Hj.
  - rewrite active_keys_member_row. apply NoDup_Permutation.
    + by apply NoDup_filter.
    + apply model_rows_keys_NoDup.
    + intros k. rewrite list_elem_of_filter. split; [by intros []|].
      intros Hk. split; [done|]. apply Hkeys. exists m. split; [|done].
      by eapply list_elem_of_lookup_2.
Qed.

(** X10.  A member can be read back from its row: the row of the [j]-th
    model carries the identifier of that model, and the Features it marks
    true are, up to order, the rows of that model, its reactions outside the
    common set with their bounds. *)
Theorem Ensemble_concurrent_round_trip (ml : list Model) (base_id : string)
  (e : Ensemble) (j : nat) (m : Model) :
  2 ≤ length ml →
  Ensemble_concurrent base_id (Some (PyModel <$> ml)) = Ok e →
  ml !! j = Some m →
  ∃ r, rows (states e) !! j = Some r
     ∧ r.1 = model_id m
     ∧ active_keys e r
       ≡ₚ keys (model_rows (elements (common_reactions ml)) m).
Proof.
  intros Hlen E. destruct ml as [|m0 [|m' rest]]; [simpl in Hlen; lia..|].
  apply Ensemble_concurrent_models in E as (_ & _ & Hc); [|done].
  by apply catalog_of_round_trip.
Qed.

Lemma Ensemble_concurrent_round_trip_witness :
  2 ≤ length [model_A; model_B; model_G]
  ∧ Ensemble_concurrent "ens" (Some (PyModel <$> [model_A; model_B; model_G]))
    = Ok ensemble_ABG
  ∧ [model_A; model_B; model_G] !! 2 = Some model_G
  ∧ ∃ r, rows (states ensemble_ABG) !! 2 = Some r
       ∧ r.1 = model_id model_G
       ∧ active_keys ensemble_ABG r
         ≡ₚ keys (model_rows
                    (elements (common_reactions [model_A; model_B; model_G]))
                    model_G).
Proof.
  assert (2 ≤ length [model_A; model_B; model_G]) as H by (simpl; lia).
  split; [exact H|]. split; [vm_compute; reflexivity|].
  split; [reflexivity|].
  apply (Ensemble_concurrent_round_trip [model_A; model_B; model_G] "ens"
           ensemble_ABG 2 model_G H); [vm_compute; reflexivity|reflexivity].
Defined.

(** ** What every constructed ensemble satisfies *)

Lemma Ensemble_concurrent_built (base_id : string)
  (model_list : option (list PyObject)) (e : Ensemble) :
  Ensemble_concurrent base_id model_list = Ok e → built e.
Proof.
  intros E.
  destruct model_list as [[|o [|o' l]]|].
  - injection E as <-. by left.
  - rewrite Ensemble_concurrent_one in E.
    destruct o; [..|done]; injection E as <-; by left.
  - destruct (Ensemble_concurrent_many_models _ _ _ _ _ E)
      as (m & m' & rest & _ & E').
    apply Ensemble_concurrent_models in E' as (_ & _ & Hc); [|done].
    right. eauto.
  - injection E as <-. by left.
Qed.

Lemma set_features_states_built (l : list PyObject) (e e' : Ensemble) :
  features e = [] → states e = empty_states →
  set_features_states l e = (Ok (), e') → built e'.
Proof.
  intros Hf Hs E.
  destruct (decide (length l = 1)) as [Hl|Hl].
  - destruct l as [|o [|? ?]]; simpl in Hl; simplify_eq.
    rewrite set_features_states_single in E. injection E as <-. by left.
  - destruct (set_features_states_many_models l e e' Hl E)
      as ([|m [|m' rest]] & Hml & E').
    + injection E' as <-. by left.
    + apply (f_equal length) in Hml. by rewrite length_fmap in Hml.
    + destruct (set_features_states_models m (m' :: rest) e)
        as [[_ HK]|(_ & e1 & E1 & _ & _ & Hc)]; [done..| |].
      * rewrite E' in HK. done.
      * rewrite E' in E1. injection E1 as <-. right. eauto.
Qed.

Lemma update_features_states_built
  (it : PyObject → result (list Reaction)) (model_list : list PyObject)
  (old e' : Ensemble) :
  update_features_states it model_list old = (Ok (), e') →
  built old → built e'.
Proof.
  intros E Hold.
  destruct (decide (length (features old) < 1)) as [Hlt|Hge].
  - revert E. unfold update_features_states.
    rewrite bind_get, decide_True by done.
    rewrite ST_bind_unfold. unfold lift at 1.
    destruct (Ensemble_concurrent _ _) as [new|y] eqn:En; [|done].
    intros [= <-]. apply Ensemble_concurrent_built in En.
    destruct En as [[? ?]|(rl & pre & Hc)]; [by left|right].
    exists rl, pre. exact Hc.
  - pose proof (update_features_states_populated it model_list old Hge) as Hu.
    rewrite E in Hu. simpl in Hu. by subst.
Qed.

Lemma Ensemble_init_built (it : PyObject → result (list Reaction))
  (base_id : string) (model_list : option (list PyObject))
  (join_method : string) (join_size : Z) (e : Ensemble) :
  Ensemble_init it base_id model_list join_method join_size = Ok e →
  built e.
Proof.
  unfold Ensemble_init.
  destruct (decide (join_method ∉ ["concurrent"; "iterative"])); [done|].
  destruct model_list as [[|o l]|];
    [intros [= <-]; by left| |intros [= <-]; by left].
  destruct (decide (join_method = "concurrent")) as [_|_];
    [apply Ensemble_concurrent_built|].
  unfold run_init, init_iterative.
  set (e0 := new_self base_id _). rewrite ST_bind_unfold.
  destruct (set_features_states _ e0) as [[[]|x] e1] eqn:E1; [|done].
  apply set_features_states_built in E1; [|done..].
  rewrite ST_bind_unfold.
  destruct (decide (join_size = 0)%Z) as [_|_]; [done|].
  unfold mret at 1, ST_ret at 1. rewrite ST_bind_unfold.
  destruct (forM_ _ _ e1) as [[[]|x] e2] eqn:E2; [|done].
  assert (built e2) as He2.
  { eapply (forM__invariant built); [|exact E2|exact E1].
    intros i t t'. apply update_features_states_built. }
  destruct (decide (0 < _)%Z) as [_|_].
  - destruct (update_features_states _ _ e2) as [[[]|x] e3] eqn:E3; [|done].
    intros [= <-]. by eapply update_features_states_built.
  - by intros [= <-].
Qed.

(** The rows of a numbered table. *)
Lemma numbered_lookup (df : FeaturesFrame) (j : nat) (l : string)
  (f : FeatureRow) :
  numbered df → df !! j = Some (l, f) →
  ∃ c, cumcount (f_model_identifier <$> df.*2) !! j = Some c
     ∧ f_feature_count f = Some c
     ∧ l = feature_id (f_model_identifier f) c.
Proof.
  intros Hnum Hj. rewrite Hnum in Hj.
  apply lookup_zip_with_Some in Hj as (r & c & Hrel & Hr & Hc).
  exists c. split; [done|]. unfold relabel in Hrel. by simplify_eq.
Qed.

Section cumcount_lookup.
Context {K : Type} `{EqDecision K}.

Lemma cumcount_go_lookup (seen l : list K) (j c : nat) :
  cumcount_go seen l !! j = Some c →
  ∃ k, l !! j = Some k ∧ c = count_of k (take j l) + count_of k seen.
Proof.
  revert seen j. induction l as [|k l IH]; intros seen j; [done|].
  destruct j as [|j]; cbn [cumcount_go lookup list_lookup].
  - intros [= <-]. exists k. split; [done|]. done.
  - intros (k' & Hk' & ->)%IH. exists k'. split; [done|].
    cbn [take]. rewrite !count_of_cons. lia.
Qed.
End cumcount_lookup.

(** X11.  In every ensemble the constructor returns, whatever the join
    method, the columns of the states are the labels of the catalog, no label
    occurs twice, and every Feature is of type ["reaction"] and is labelled
    by its component and its count, joined by an underscore. *)
Theorem Ensemble_init_labels (it : PyObject → result (list Reaction))
  (base_id : string) (model_list : option (list PyObject))
  (join_method : string) (join_size : Z) (e : Ensemble) :
  Ensemble_init it base_id model_list join_method join_size = Ok e →
  columns (states e) = (features e).*1
  ∧ NoDup (features e).*1
  ∧ ∀ l f, (l, f) ∈ features e →
      f_type f = "reaction"
      ∧ ∃ c, f_feature_count f = Some c
           ∧ l = feature_id (f_model_identifier f) c.
Proof.
  intros Hbuilt%Ensemble_init_built. revert Hbuilt.
  intros [[Hf Hs]|(rl & pre & Hne & Hnum & Hnd & Hkeys & Hst)].
  - rewrite Hf, Hs. split; [done|]. split; [constructor|].
    by intros l f ?%elem_of_nil.
  - split; [by rewrite Hst|]. split; [by apply numbered_NoDup_labels|].
    intros l f Hin. split.
    + assert (key f ∈ keys (features e)) as Hk.
      { apply list_elem_of_fmap. by exists (l, f). }
      apply Hkeys in Hk as (m & _ & Hk). unfold key in Hk.
      by apply model_rows_keys_spec in Hk as (_ & ? & _).
    + apply list_elem_of_lookup in Hin as [j Hj].
      destruct (numbered_lookup _ _ _ _ Hnum Hj) as (c & _ & ? & ?). eauto.
Qed.

Lemma Ensemble_init_labels_witness :
  Ensemble_init iter_TypeError "ens"
    (Some [PyModel model_A; PyModel model_B; PyModel model_G]) "concurrent" 1
  = Ok ensemble_ABG
  ∧ columns (states ensemble_ABG) = (features ensemble_ABG).*1
  ∧ NoDup (features ensemble_ABG).*1
  ∧ ∀ l f, (l, f) ∈ features ensemble_ABG →
      f_type f = "reaction"
      ∧ ∃ c, f_feature_count f = Some c
           ∧ l = feature_id (f_model_identifier f) c.
Proof.
  split; [vm_compute; reflexivity|].
  apply (Ensemble_init_labels iter_TypeError "ens"
           (Some [PyModel model_A; PyModel model_B; PyModel model_G])
           "concurrent" 1 ensemble_ABG).
  vm_compute. reflexivity.
Defined.

(** X12.  In every ensemble the constructor returns, each row of the
    states has one cell per column, and no cell is NaN. *)
Theorem Ensemble_init_states_shape (it : PyObject → result (list Reaction))
  (base_id : string) (model_list : option (list PyObject))
  (join_method : string) (join_size : Z) (e : Ensemble) (r : StatesRow) :
  Ensemble_init it base_id model_list join_method join_size = Ok e →
  r ∈ rows (states e) →
  length r.2 = length (columns (states e)) ∧ Forall (λ c, c ≠ None) r.2.
Proof.
  intros Hbuilt%Ensemble_init_built. revert Hbuilt.
  intros [[Hf Hs]|(rl & pre & Hne & Hnum & Hnd & Hkeys & Hst)].
  - rewrite Hs. by intros ?%elem_of_nil.
  - rewrite Hst. cbn [states_of rows columns].
    intros (m & -> & _)%list_elem_of_fmap. unfold member_row. cbn [snd].
    split; [by rewrite !length_fmap|].
    apply Forall_fmap, Forall_forall. by intros p _.
Qed.

Lemma Ensemble_init_states_shape_witness :
  Ensemble_init iter_TypeError "ens"
    (Some [PyModel model_A; PyModel model_B; PyModel model_F]) "concurrent" 1
  = Ok ensemble_ABF
  ∧ ("B", [Some false]) ∈ rows (states ensemble_ABF)
  ∧ length ("B", [Some false]).2 = length (columns (states ensemble_ABF))
  ∧ Forall (λ c, c ≠ None) ("B", [Some false]).2.
Proof.
  assert (("B", [Some false]) ∈ rows (states ensemble_ABF)) as H
    by (right; left).
  split; [vm_compute; reflexivity|]. split; [exact H|].
  apply (Ensemble_init_states_shape iter_TypeError "ens"
           (Some [PyModel model_A; PyModel model_B; PyModel model_F])
           "concurrent" 1 ensemble_ABF ("B", [Some false]));
    [vm_compute; reflexivity|exact H].
Defined.

(** X13.  In every ensemble the constructor returns, the count of a
    Feature is the number of Features of the same component that stand before
    it in the catalog. *)
Theorem Ensemble_init_feature_count (it : PyObject → result (list Reaction))
  (base_id : string) (model_list : option (list PyObject))
  (join_method : string) (join_size : Z) (e : Ensemble)
  (j : nat) (l : string) (f : FeatureRow) :
  Ensemble_init it base_id model_list join_method join_size = Ok e →
  features e !! j = Some (l, f) →
  f_feature_count f
  = Some (count_of (f_model_identifier f)
            (f_model_identifier <$> (take j (features e)).*2)).
Proof.
  intros Hbuilt%Ensemble_init_built. revert Hbuilt.
  intros [[Hf Hs]|(rl & pre & Hne & Hnum & Hnd & Hkeys & Hst)] Hj.
  - by rewrite Hf in Hj.
  - destruct (numbered_lookup _ _ _ _ Hnum Hj) as (c & Hc & -> & _).
    unfold cumcount in Hc.
    apply cumcount_go_lookup in Hc as (k & Hk & ->).
    rewrite !list_lookup_fmap in Hk.
    unfold FeaturesFrame in *. rewrite Hj in Hk. cbn in Hk. injection Hk as <-.
    change (count_of (f_model_identifier f) []) with 0.
    by rewrite Nat.add_0_r, !fmap_take.
Qed.

Lemma Ensemble_init_feature_count_witness :
  Ensemble_init iter_TypeError "ens"
    (Some [PyModel model_A; PyModel model_B; PyModel model_G]) "concurrent" 1
  = Ok ensemble_ABG
  ∧ features ensemble_ABG !! 1
    = Some (relabel (feature_of_reaction "R2" (rxn "R2" 0 7)) 1)
  ∧ f_feature_count (relabel (feature_of_reaction "R2" (rxn "R2" 0 7)) 1).2
    = Some (count_of
              (f_model_identifier
                 (relabel (feature_of_reaction "R2" (rxn "R2" 0 7)) 1).2)
              (f_model_identifier <$> (take 1 (features ensemble_ABG)).*2)).
Proof.
  split; [vm_compute; reflexivity|]. split; [reflexivity|].
  apply (Ensemble_init_feature_count iter_TypeError "ens"
           (Some [PyModel model_A; PyModel model_B; PyModel model_G])
           "concurrent" 1 ensemble_ABG 1
           (relabel (feature_of_reaction "R2" (rxn "R2" 0 7)) 1).1
           (relabel (feature_of_reaction "R2" (rxn "R2" 0 7)) 1).2);
    [vm_compute; reflexivity|reflexivity].
Defined.

(** X14.  In every ensemble the constructor returns, every Feature is
    true for at least one member. *)
Theorem Ensemble_init_feature_has_member
  (it : PyObject → result (list Reaction))
  (base_id : string) (model_list : option (list PyObject))
  (join_method : string) (join_size : Z) (e : Ensemble)
  (l : string) (f : FeatureRow) :
  Ensemble_init it base_id model_list join_method join_size = Ok e →
  (l, f) ∈ features e →
  ∃ r, r ∈ rows (states e) ∧ cell_at (states e) r l = Some true.
Proof.
  intros Hbuilt%Ensemble_init_built. revert Hbuilt.
  intros [[Hf Hs]|(rl & pre & Hne & Hnum & Hnd & Hkeys & Hst)] Hin.
  - rewrite Hf in Hin. by apply elem_of_nil in Hin.
  - assert (key f ∈ keys (features e)) as Hk.
    { apply list_elem_of_fmap. by exists (l, f). }
    apply Hkeys in Hk as (m & Hm & Hk).
    exists (member_row rl (features e) m). rewrite Hst. split.
    + cbn [states_of rows]. apply list_elem_of_fmap. by exists m.
    + rewrite (cell_at_member_row rl pre _ m l f);
        [|by apply numbered_NoDup_labels|done].
      by rewrite bool_decide_true.
Qed.

Lemma Ensemble_init_feature_has_member_witness :
  Ensemble_init iter_TypeError "ens"
    (Some [PyModel model_A; PyModel model_B; PyModel model_G]) "concurrent" 1
  = Ok ensemble_ABG
  ∧ relabel (feature_of_reaction "R2" (rxn "R2" 0 7)) 1
    ∈ features ensemble_ABG
  ∧ ∃ r, r ∈ rows (states ensemble_ABG)
       ∧ cell_at (states ensemble_ABG) r
           (relabel (feature_of_reaction "R2" (rxn "R2" 0 7)) 1).1
         = Some true.
Proof.
  assert (relabel (feature_of_reaction "R2" (rxn "R2" 0 7)) 1
          ∈ features ensemble_ABG) as H by (right; left).
  split; [vm_compute; reflexivity|]. split; [exact H|].
  apply (Ensemble_init_feature_has_member iter_TypeError "ens"
           (Some [PyModel model_A; PyModel model_B; PyModel model_G])
           "concurrent" 1 ensemble_ABG
           (relabel (feature_of_reaction "R2" (rxn "R2" 0 7)) 1).1
           (relabel (feature_of_reaction "R2" (rxn "R2" 0 7)) 1).2);
    [vm_compute; reflexivity|exact H].
Defined.

(** ** Slices *)

Lemma take_min_length {A} (l : list A) (n : nat) :
  take (n `min` length l) l = take n l.
Proof.
  destruct (decide (n ≤ length l)) as [Hn|Hn].
  - by rewrite Nat.min_l.
  - rewrite Nat.min_r, take_ge, take_ge; [done|lia..].
Qed.

Lemma slice_0_nonneg {A} (l : list A) (n : Z) :
  (0 ≤ n)%Z → slice l 0 n = take (Z.to_nat n) l.
Proof.
  intros Hn. unfold slice, slice_index.
  repeat case_decide; try lia.
  change (Z.to_nat 0) with 0. rewrite Nat.min_0_l, Nat.sub_0_r, drop_0.
  apply take_min_length.
Qed.

Lemma slice_0_neg {A} (l : list A) (n : Z) :
  (n < 0)%Z → slice l 0 n = take (Z.to_nat (Z.of_nat (length l) + n)) l.
Proof.
  intros Hn. unfold slice, slice_index.
  repeat case_decide; try lia.
  change (Z.to_nat 0) with 0. by rewrite Nat.min_0_l, Nat.sub_0_r, drop_0.
Qed.

Lemma range_nonpos (n : Z) : (n ≤ 0)%Z → range n = [].
Proof. intros Hn. unfold range. replace (Z.to_nat n) with 0 by lia. done. Qed.

(** ** The iterative constructor *)

Lemma Ensemble_init_iterative_eq (it : PyObject → result (list Reaction))
  (base_id : string) (o : PyObject) (l : list PyObject) (join_size : Z) :
  Ensemble_init it base_id (Some (o :: l)) "iterative" join_size
  = run_init (new_self base_id (PyModel (cobra_Model (base_id +:+ "_base_model"))))
             (init_iterative it (o :: l) join_size).
Proof.
  unfold Ensemble_init.
  rewrite decide_False by (intros H; apply H; set_solver).
  by rewrite decide_False.
Qed.

Lemma update_features_states_empty (it : PyObject → result (list Reaction))
  (model_list : list PyObject) (old : Ensemble) :
  features old = [] →
  update_features_states it model_list old
  = match Ensemble_concurrent (ens_id old)
            (Some (base_model old :: model_list)) with
    | Ok new => (Ok (), {| ens_id := ens_id old; base_model := base_model new;
                           features := features new; states := states new |})
    | Raise x => (Raise x, old)
    end.
Proof.
  intros Hf. unfold update_features_states.
  rewrite bind_get, decide_True by (rewrite Hf; simpl; lia).
  rewrite ST_bind_unfold. unfold lift at 1.
  by destruct (Ensemble_concurrent _ _) as [new|x].
Qed.

Lemma Ensemble_concurrent_id (base_id : string)
  (model_list : option (list PyObject)) (e : Ensemble) :
  Ensemble_concurrent base_id model_list = Ok e → ens_id e = base_id.
Proof.
  intros E.
  destruct model_list as [[|o [|o' l]]|].
  - by injection E as <-.
  - rewrite Ensemble_concurrent_one in E.
    destruct o; [..|done]; by injection E as <-.
  - destruct (Ensemble_concurrent_many_models _ _ _ _ _ E)
      as (m & m' & rest & _ & E').
    by apply Ensemble_concurrent_models in E' as (? & _).
  - by injection E as <-.
Qed.

Lemma Ensemble_concurrent_populated (base_id : string) (o o' : PyObject)
  (l : list PyObject) (e : Ensemble) :
  Ensemble_concurrent base_id (Some (o :: o' :: l)) = Ok e → features e ≠ [].
Proof.
  intros E.
  destruct (Ensemble_concurrent_many_models _ _ _ _ _ E)
    as (m & m' & rest & _ & E').
  by apply Ensemble_concurrent_models in E' as (_ & _ & ? & _).
Qed.

Lemma set_features_states_group (l : list PyObject) (e e' : Ensemble) :
  2 ≤ length l → features e = [] → states e = empty_states →
  set_features_states l e = (Ok (), e') →
  ∃ ml, as_model <$> l = PyModel <$> ml
      ∧ ens_id e' = ens_id e ∧ base_model e' = base_model e
      ∧ catalog_of (elements (common_reactions ml)) ml e'.
Proof.
  intros Hlen Hf Hs E.
  destruct (set_features_states_many_models l e e') as (ml & Hml & E');
    [lia|done|].
  exists ml. split; [done|].
  assert (length ml = length l) as Hlen'.
  { apply (f_equal length) in Hml. by rewrite !length_fmap in Hml. }
  destruct ml as [|m [|m' rest]]; [simpl in Hlen'; lia..|].
  destruct (set_features_states_models m (m' :: rest) e)
    as [[_ HK]|(_ & e1 & E1 & Hi & Hb & Hc)]; [done..| |].
  - by rewrite E' in HK.
  - rewrite E' in E1. by injection E1 as <-.
Qed.

(** *** What the merge does in the program *)

(** A merge into a populated ensemble does not get past the iteration over
    the base model. *)
Lemma update_features_states_populated_raises
  (model_list : list PyObject) (old : Ensemble) :
  features old ≠ [] →
  ∃ x, update_features_states iter_TypeError model_list old = (Raise x, old).
Proof.
  intros Hne. unfold update_features_states. rewrite bind_get.
  rewrite decide_False by (destruct (features old); [done|simpl; lia]).
  rewrite ST_bind_unfold. unfold lift at 1.
  destruct (Ensemble_concurrent _ _) as [new|x]; [|by eexists].
  rewrite ST_bind_unfold. unfold lift at 1.
  destruct (copy_of _) as [c|x]; [|by eexists].
  by eexists.
Qed.

Lemma forM__update_raises {A} (a : A) (l : list A)
  (group : A → list PyObject) (e : Ensemble) :
  features e ≠ [] →
  ∃ x, forM_ (a :: l) (λ i, update_features_states iter_TypeError (group i)) e
       = (Raise x, e).
Proof.
  intros Hne. rewrite forM__cons.
  destruct (update_features_states_populated_raises (group a) e Hne)
    as [x ->].
  by exists x.
Qed.

(** On two or more elements, with a join size that is not negative, the
    iterative branch comes to a merge into a populated ensemble, or fails
    before. *)
Lemma init_iterative_many_raises (l : list PyObject) (join_size : Z)
  (e0 : Ensemble) :
  2 ≤ length l → (0 ≤ join_size)%Z →
  features e0 = [] → states e0 = empty_states →
  ∃ x s, init_iterative iter_TypeError l join_size e0 = (Raise x, s).
Proof.
  intros Hlen Hjs Hf Hs. unfold init_iterative.
  rewrite slice_0_nonneg, ST_bind_unfold by done.
  destruct (set_features_states _ e0) as [[[]|x] e1] eqn:E1;
    [|by eexists _, _].
  rewrite ST_bind_unfold.
  destruct (decide (join_size = 0)%Z) as [|Hjs0]; [by eexists _, _|].
  unfold mret at 1, ST_ret at 1. rewrite ST_bind_unfold.
  destruct (decide (join_size = 1)%Z) as [->|Hjs1].
  - destruct l as [|o1 [|o2 rest]]; [simpl in Hlen; lia..|].
    change (take (Z.to_nat 1) (o1 :: o2 :: rest)) with [o1] in E1.
    rewrite set_features_states_single in E1. injection E1 as <-.
    rewrite Z.quot_1_r. unfold range. rewrite Nat2Z.id.
    cbn [length seq fmap list_fmap]. rewrite forM__cons.
    change (slice (o1 :: o2 :: rest) ((Z.of_nat 0 + 1) * 1) (Z.of_nat 0 + 2 * 1))
      with [o2].
    rewrite update_features_states_empty by done. cbn [ens_id base_model].
    destruct (Ensemble_concurrent (ens_id e0) (Some [o1; o2]))
      as [new|x] eqn:En; [|by eexists _, _].
    apply Ensemble_concurrent_populated in En.
    rewrite forM__cons.
    destruct (update_features_states_populated_raises
                (slice (o1 :: o2 :: rest) ((Z.of_nat 1 + 1) * 1)
                   (Z.of_nat 1 + 2 * 1))
                {| ens_id := ens_id e0; base_model := base_model new;
                   features := features new; states := states new |} En)
      as [x ->].
    by eexists _, _.
  - assert (features e1 ≠ []) as Hne.
    { assert (2 ≤ length (take (Z.to_nat join_size) l)) as Hlt
        by (rewrite length_take; lia).
      by destruct (set_features_states_group _ e0 e1 Hlt Hf Hs E1)
        as (ml & _ & _ & _ & ? & _). }
    destruct (range _) as [|i rs] eqn:Hr.
    + cbn [forM_]. unfold mret at 1, ST_ret at 1.
      rewrite decide_True.
      2:{ unfold range in Hr. apply fmap_nil_inv in Hr.
          apply (f_equal length) in Hr. rewrite length_seq in Hr.
          cbn [length] in Hr.
          rewrite Z.quot_div_nonneg in Hr by lia.
          pose proof (Z.div_mod (Z.of_nat (length l)) join_size).
          pose proof (Z.mod_pos_bound (Z.of_nat (length l)) join_size).
          pose proof (Z.div_pos (Z.of_nat (length l)) join_size).
          nia. }
      destruct (update_features_states_populated_raises
                  (slice_from l (-1 * (Z.of_nat (length l) `mod` join_size)))
                  e1 Hne) as [x ->].
      by eexists _, _.
    + destruct (forM__update_raises i rs
                  (λ i, slice l ((i + 1) * join_size) (i + 2 * join_size))
                  e1 Hne) as [x ->].
      by eexists _, _.
Qed.

(** *** A single element *)

Lemma Ensemble_init_iterative_one (it : PyObject → result (list Reaction))
  (base_id : string) (o : PyObject) :
  Ensemble_init it base_id (Some [o]) "iterative" 1
  = Ensemble_concurrent base_id (Some [o]).
Proof.
  rewrite Ensemble_init_iterative_eq. unfold run_init, init_iterative.
  change (slice [o] 0 1) with [o].
  rewrite ST_bind_unfold, set_features_states_single, ST_bind_unfold.
  rewrite decide_False by done. unfold mret at 1, ST_ret at 1.
  change (range (Z.of_nat (length [o]) `quot` 1)) with [0%Z].
  change (Z.of_nat (length [o]) `mod` 1)%Z with 0%Z.
  rewrite ST_bind_unfold, forM__cons.
  change (slice [o] ((0 + 1) * 1) (0 + 2 * 1)) with (@nil PyObject).
  rewrite update_features_states_empty by done.
  unfold new_self. cbn [ens_id base_model].
  rewrite Ensemble_concurrent_one.
  destruct o as [m|m|]; [..|done];
    cbn [base_model features states forM_]; by rewrite decide_False by lia.
Qed.

Lemma Ensemble_concurrent_repeated (base_id : string) (o : PyObject) :
  Ensemble_concurrent base_id (Some [o; o])
  = Raise (match o with PyOther => AttributeError | _ => KeyError end).
Proof.
  destruct o as [m|m|].
  - apply Ensemble_concurrent_twice.
  - rewrite <-Ensemble_concurrent_as_model by (simpl; lia).
    apply Ensemble_concurrent_twice.
  - unfold Ensemble_concurrent.
    by rewrite (create_base_model_other [PyOther; PyOther]) by left.
Qed.

(** With a join size of two or more, the remainder slice hands the single
    element to a merge, which builds an ensemble of the element and
    itself. *)
Lemma Ensemble_init_iterative_one_large
  (it : PyObject → result (list Reaction)) (base_id : string) (o : PyObject)
  (join_size : Z) :
  (2 ≤ join_size)%Z →
  Ensemble_init it base_id (Some [o]) "iterative" join_size
  = Raise (match o with PyOther => AttributeError | _ => KeyError end).
Proof.
  intros Hjs.
  rewrite Ensemble_init_iterative_eq. unfold run_init, init_iterative.
  rewrite slice_0_nonneg by lia. rewrite take_ge by (simpl; lia).
  rewrite ST_bind_unfold, set_features_states_single, ST_bind_unfold.
  rewrite decide_False by lia. unfold mret at 1, ST_ret at 1.
  cbn [length]. change (Z.of_nat 1) with 1%Z.
  rewrite Z.quot_small, Z.mod_small by lia.
  change (range 0) with (@nil Z). cbn [forM_].
  rewrite ST_bind_unfold. unfold mret at 1, ST_ret at 1.
  rewrite decide_True by lia.
  change (slice_from [o] (-1 * 1)) with [o].
  rewrite update_features_states_empty by done.
  unfold new_self. cbn [ens_id base_model].
  by rewrite Ensemble_concurrent_repeated.
Qed.

(** *** When the iterative constructor returns *)

Lemma Ensemble_init_iterative_real (base_id : string) (l : list PyObject)
  (join_size : Z) (e : Ensemble) :
  (0 ≤ join_size)%Z →
  Ensemble_init iter_TypeError base_id (Some l) "iterative" join_size = Ok e →
  l = []
  ∨ ∃ o, l = [o] ∧ o ≠ PyOther ∧ join_size = 1%Z
       ∧ e = {| ens_id := base_id; base_model := o;
                features := []; states := empty_states |}.
Proof.
  intros Hjs E. destruct l as [|o [|o' l]]; [by left| |].
  - right. exists o.
    destruct (decide (join_size = 0)%Z) as [->|H0].
    { rewrite Ensemble_init_iterative_eq in E.
      unfold run_init, init_iterative in E.
      change (slice [o] 0 0) with (@nil PyObject) in E.
      rewrite ST_bind_unfold in E. cbn in E. done. }
    destruct (decide (join_size = 1)%Z) as [->|H1].
    + rewrite Ensemble_init_iterative_one, Ensemble_concurrent_one in E.
      destruct o; [..|done]; by injection E as <-.
    + by rewrite Ensemble_init_iterative_one_large in E by lia.
  - rewrite Ensemble_init_iterative_eq in E. unfold run_init in E.
    destruct (init_iterative_many_raises (o :: o' :: l) join_size
                (new_self base_id
                   (PyModel (cobra_Model (base_id +:+ "_base_model")))))
      as (x & s & Hx); [simpl; lia|done..|].
    by rewrite Hx in E.
Qed.

(** X15.  When the iterative constructor returns.  With a join size that is
    not negative and a model list that is not empty, the constructor with
    ["iterative"] returns an ensemble exactly when the list has one element,
    this element has the attribute [reactions], and the join size is 1; the
    ensemble then has this element as its base model and empty tables.  On
    every list of two or more elements it raises: the iteration
    [for rxn in old_ensemble.base_model] of the first merge into a populated
    ensemble is a [TypeError], unless an earlier step has raised. *)
Theorem Ensemble_init_iterative_returns (base_id : string)
  (l : list PyObject) (join_size : Z) (e : Ensemble) :
  (0 ≤ join_size)%Z → l ≠ [] →
  Ensemble_init iter_TypeError base_id (Some l) "iterative" join_size = Ok e
  ↔ ∃ o, l = [o] ∧ o ≠ PyOther ∧ join_size = 1%Z
       ∧ e = {| ens_id := base_id; base_model := o;
                features := []; states := empty_states |}.
Proof.
  intros Hjs Hl. split.
  - intros E.
    by destruct (Ensemble_init_iterative_real _ _ _ _ Hjs E) as [?|?].
  - intros (o & -> & Ho & -> & ->).
    rewrite Ensemble_init_iterative_one, Ensemble_concurrent_one.
    by destruct o.
Qed.

Lemma Ensemble_init_iterative_returns_witness :
  (0 ≤ 1)%Z
  ∧ [PyModel model_A] ≠ []
  ∧ (Ensemble_init iter_TypeError "ens" (Some [PyModel model_A]) "iterative" 1
     = Ok (new_self "ens" (PyModel model_A))
     ↔ ∃ o, [PyModel model_A] = [o] ∧ o ≠ PyOther ∧ 1%Z = 1%Z
          ∧ new_self "ens" (PyModel model_A)
            = {| ens_id := "ens"; base_model := o;
                 features := []; states := empty_states |}).
Proof.
  assert (0 ≤ 1)%Z as H1 by lia.
  assert ([PyModel model_A] ≠ []) as H2 by done.
  split; [exact H1|]. split; [exact H2|].
  apply (Ensemble_init_iterative_returns "ens" [PyModel model_A] 1
           (new_self "ens" (PyModel model_A)) H1 H2).
Defined.

(** X16.  A negative join size.  On a model list that is not empty the
    constructor with ["iterative"] and a negative [join_size] ends as
    [set_features_states] does on the slice [model_list[0:join_size]], the
    list without its last [-join_size] elements: [range(steps)] is empty,
    the remainder is not positive, and no merge is made.  The elements
    after the slice are never looked at. *)
Theorem Ensemble_init_negative_join_size
  (it : PyObject → result (list Reaction)) (base_id : string)
  (o : PyObject) (l : list PyObject) (join_size : Z) :
  (join_size < 0)%Z →
  Ensemble_init it base_id (Some (o :: l)) "iterative" join_size
  = run_init
      (new_self base_id (PyModel (cobra_Model (base_id +:+ "_base_model"))))
      (set_features_states
         (take (Z.to_nat (Z.of_nat (length (o :: l)) + join_size)) (o :: l))).
Proof.
  intros Hjs.
  rewrite Ensemble_init_iterative_eq. unfold run_init, init_iterative.
  rewrite slice_0_neg, ST_bind_unfold by done.
  destruct (set_features_states _ _) as [[[]|x] e1]; [|done].
  rewrite ST_bind_unfold, decide_False by lia.
  unfold mret at 1, ST_ret at 1. rewrite ST_bind_unfold.
  rewrite range_nonpos.
  2:{ rewrite <-(Z.opp_involutive join_size), Z.quot_opp_r by lia.
      pose proof (Z.quot_pos (Z.of_nat (length (o :: l))) (- join_size)).
      lia. }
  cbn [forM_]. unfold mret at 1, ST_ret at 1.
  rewrite decide_False; [done|].
  pose proof (Z.mod_neg_bound (Z.of_nat (length (o :: l))) join_size). lia.
Qed.

Lemma Ensemble_init_negative_join_size_witness :
  (-1 < 0)%Z
  ∧ Ensemble_init iter_TypeError "ens" (Some (PyOther :: [PyModel model_A]))
      "iterative" (-1)
    = run_init
        (new_self "ens" (PyModel (cobra_Model ("ens" +:+ "_base_model"))))
        (set_features_states
           (take (Z.to_nat (Z.of_nat (length (PyOther :: [PyModel model_A]))
                             + -1))
                 (PyOther :: [PyModel model_A]))).
Proof.
  assert (-1 < 0)%Z as H by lia.
  split; [exact H|].
  apply (Ensemble_init_negative_join_size iter_TypeError "ens" PyOther
           [PyModel model_A] (-1) H).
Defined.

(** X17.  On a list of one element the iterative constructor with a join
    size of 1 ends as the concurrent constructor does: with the same
    ensemble or the same exception, for a model and for any other element
    alike. *)
Theorem Ensemble_init_single (it : PyObject → result (list Reaction))
  (base_id : string) (o : PyObject) (join_size : Z) :
  Ensemble_init it base_id (Some [o]) "iterative" 1
  = Ensemble_init it base_id (Some [o]) "concurrent" join_size.
Proof.
  rewrite Ensemble_init_iterative_one. unfold Ensemble_init.
  rewrite decide_False by (intros H; apply H; set_solver).
  by rewrite decide_True.
Qed.

(** X18.  With a join size of 0 the iterative constructor raises
    [ZeroDivisionError] on every model list that is not empty:
    [set_features_states] returns on the empty slice, and
    [len(model_list) % join_size] follows. *)
Theorem Ensemble_init_join_size_0 (it : PyObject → result (list Reaction))
  (base_id : string) (o : PyObject) (l : list PyObject) :
  Ensemble_init it base_id (Some (o :: l)) "iterative" 0
  = Raise ZeroDivisionError.
Proof.
  rewrite Ensemble_init_iterative_eq. unfold run_init, init_iterative.
  rewrite slice_0_nonneg by done.
  change (take (Z.to_nat 0) (o :: l)) with (@nil PyObject).
  rewrite ST_bind_unfold, set_features_states_many by done.
  rewrite ST_bind_unfold. unfold lift at 1. cbn [foldM forM_].
  unfold mret at 1, ST_ret at 1. rewrite ST_bind_unfold.
  by rewrite decide_True.
Qed.

(** ** Merging into a populated ensemble *)

(** X19.  A merge into an ensemble that has Features always raises and
    leaves the ensemble as it was.  It raises what the construction of
    [Ensemble('new_models', model_list)] raises; where that construction
    returns, it raises [TypeError] at [for rxn in old_ensemble.base_model]
    when the base model is a model, and [AttributeError] at
    [old_ensemble.base_model.copy()] when the base model is an object
    without [copy]. *)
Theorem update_features_states_populated_outcome
  (model_list : list PyObject) (old : Ensemble) :
  features old ≠ [] →
  update_features_states iter_TypeError model_list old
  = (Raise (match Ensemble_concurrent "new_models" (Some model_list) with
            | Raise x => x
            | Ok _ => match base_model old with
                      | PyModel _ => TypeError
                      | _ => AttributeError
                      end
            end), old).
Proof.
  intros Hne. unfold update_features_states. rewrite bind_get.
  rewrite decide_False by (destruct (features old); [done|simpl; lia]).
  rewrite ST_bind_unfold. unfold lift at 1.
  destruct (Ensemble_concurrent _ _) as [new|x]; [|done].
  rewrite ST_bind_unfold. unfold lift at 1.
  by destruct (base_model old) as [b|b|].
Qed.

Lemma update_features_states_populated_outcome_witness :
  features ensemble_AB ≠ []
  ∧ update_features_states iter_TypeError [PyModel model_B] ensemble_AB
    = (Raise (match Ensemble_concurrent "new_models"
                      (Some [PyModel model_B]) with
              | Raise x => x
              | Ok _ => match base_model ensemble_AB with
                        | PyModel _ => TypeError
                        | _ => AttributeError
                        end
              end), ensemble_AB).
Proof.
  assert (features ensemble_AB ≠ []) as H by done.
  split; [exact H|].
  apply (update_features_states_populated_outcome [PyModel model_B]
           ensemble_AB H).
Defined.

(** ** Elements without attributes, in [set_features_states] *)

Lemma common_reactions_foldM_other (l : list PyObject) (S : gset string) :
  PyOther ∈ l → foldM common_reactions_step l S = Raise AttributeError.
Proof.
  revert S. induction l as [|o l IH]; intros S; [by intros ?%elem_of_nil|].
  intros Hin. rewrite foldM_cons. destruct o as [m|m|]; [..|done];
    [|change (common_reactions_step S (PyLike m))
        with (common_reactions_step S (PyModel m))];
    rewrite common_reactions_step_model, result_bind_Ok; apply IH;
    by apply elem_of_cons in Hin as [?|?].
Qed.

(** X20.  [set_features_states] on a list that holds an element without
    the attribute [reactions]: when the list has exactly one element the
    call returns, and this element is the base model, over empty tables;
    for every other length the call raises [AttributeError] and leaves the
    ensemble as it was. *)
Theorem set_features_states_other (l : list PyObject) (e : Ensemble) :
  PyOther ∈ l →
  set_features_states l e
  = if decide (length l = 1)
    then (Ok (), {| ens_id := ens_id e; base_model := PyOther;
                    features := []; states := empty_states |})
    else (Raise AttributeError, e).
Proof.
  intros Hin. destruct (decide (length l = 1)) as [Hl|Hl].
  - destruct l as [|o [|? ?]]; simpl in Hl; simplify_eq.
    apply list_elem_of_singleton in Hin as <-.
    apply set_features_states_single.
  - rewrite set_features_states_many, ST_bind_unfold by done.
    unfold lift at 1. by rewrite common_reactions_foldM_other.
Qed.

Lemma set_features_states_other_witness :
  PyOther ∈ [PyModel model_A; PyOther]
  ∧ set_features_states [PyModel model_A; PyOther] ensemble_AB
    = if decide (length [PyModel model_A; PyOther] = 1)
      then (Ok (), {| ens_id := ens_id ensemble_AB; base_model := PyOther;
                      features := []; states := empty_states |})
      else (Raise AttributeError, ensemble_AB).
Proof.
  assert (PyOther ∈ [PyModel model_A; PyOther]) as H by (right; left).
  split; [exact H|].
  apply (set_features_states_other [PyModel model_A; PyOther] ensemble_AB H).
Defined.

(** ** Elements that are not models, in the constructor *)

(** C8 (as amended).  The constructor has no check of its own; an element
    of the model list fails where an attribute it lacks is read.  For a
    model list that holds an element without the attribute [reactions]:
    with ["concurrent"] the constructor raises [AttributeError], when
    [_create_base_model] reads the reactions of the element; and with any
    join method and a join size that is not negative it raises an exception
    and returns no ensemble. *)
Theorem Ensemble_init_other_raises (base_id : string)
  (model_list : list PyObject) (join_method : string) (join_size : Z) :
  PyOther ∈ model_list →
  (∀ it, Ensemble_init it base_id (Some model_list) "concurrent" join_size
         = Raise AttributeError)
  ∧ ((0 ≤ join_size)%Z →
     ∃ x, Ensemble_init iter_TypeError base_id (Some model_list)
            join_method join_size = Raise x).
Proof.
  intros Hin.
  assert (∀ it, Ensemble_init it base_id (Some model_list) "concurrent"
                  join_size = Raise AttributeError) as Hc.
  { intros it. unfold Ensemble_init.
    rewrite decide_False by (intros Hn; apply Hn; set_solver).
    rewrite decide_True by done.
    destruct model_list as [|o l]; [by apply elem_of_nil in Hin|].
    unfold Ensemble_concurrent. by rewrite create_base_model_other. }
  split; [exact Hc|]. intros Hjs.
  destruct (decide (join_method ∈ ["concurrent"; "iterative"])) as [Hm|Hm].
  - apply elem_of_cons in Hm as [->|Hm]; [by eexists|].
    apply list_elem_of_singleton in Hm as ->.
    destruct (Ensemble_init iter_TypeError base_id (Some model_list)
                "iterative" join_size) as [e|x] eqn:E; [|by eexists].
    destruct (Ensemble_init_iterative_real _ _ _ _ Hjs E)
      as [->|(o & -> & Ho & _)].
    + by apply elem_of_nil in Hin.
    + by apply list_elem_of_singleton in Hin.
  - exists ValueError. unfold Ensemble_init. by rewrite decide_True.
Qed.

Lemma Ensemble_init_other_raises_witness :
  PyOther ∈ [PyModel model_A; PyOther]
  ∧ (∀ it, Ensemble_init it "ens" (Some [PyModel model_A; PyOther])
             "concurrent" 1 = Raise AttributeError)
  ∧ ((0 ≤ 1)%Z →
     ∃ x, Ensemble_init iter_TypeError "ens"
            (Some [PyModel model_A; PyOther]) "iterative" 1 = Raise x).
Proof.
  assert (PyOther ∈ [PyModel model_A; PyOther]) as H by (right; left).
  split; [exact H|].
  apply (Ensemble_init_other_raises "ens" [PyModel model_A; PyOther]
           "iterative" 1 H).
Defined.

(** C8 as stated does not hold: elements that are no models are accepted.
    An object that is no model and has the attributes [id] and [reactions]
    is taken as the base model of an ensemble, and two such objects are
    built into the ensemble that the models with these attributes give.
    With ["iterative"] and a join size of -1 the constructor returns an
    ensemble whose base model is an object without any of the attributes:
    the slice [model_list[0:-1]] holds this object alone and the rest of
    the list is never read. *)
Lemma non_models_accepted :
  Ensemble_init iter_TypeError "ens" (Some [PyLike model_A]) "concurrent" 1
  = Ok {| ens_id := "ens"; base_model := PyLike model_A;
          features := []; states := empty_states |}
  ∧ Ensemble_init iter_TypeError "ens"
      (Some [PyLike model_A; PyLike model_B]) "concurrent" 1
    = Ok ensemble_AB
  ∧ Ensemble_init iter_TypeError "ens" (Some [PyOther; PyModel model_A])
      "iterative" (-1)
    = Ok {| ens_id := "ens"; base_model := PyOther;
            features := []; states := empty_states |}.
Proof. repeat split; vm_compute; reflexivity. Qed.

(** ** The identifier of a constructed ensemble *)

Lemma set_features_states_id (l : list PyObject) (e e' : Ensemble) :
  features e = [] → states e = empty_states →
  set_features_states l e = (Ok (), e') → ens_id e' = ens_id e.
Proof.
  intros Hf Hs E. destruct l as [|o [|o' l]].
  - by injection E as <-.
  - rewrite set_features_states_single in E. by injection E as <-.
  - by destruct (set_features_states_group (o :: o' :: l) e e')
      as (ml & _ & Hid & _); [simpl; lia|done..|].
Qed.

Lemma update_features_states_id (it : PyObject → result (list Reaction))
  (model_list : list PyObject) (old e' : Ensemble) :
  update_features_states it model_list old = (Ok (), e') →
  ens_id e' = ens_id old.
Proof.
  destruct (decide (features old = [])) as [Hf|Hf].
  - rewrite update_features_states_empty by done.
    destruct (Ensemble_concurrent _ _); [|done]. by intros [= <-].
  - intros E.
    pose proof (update_features_states_populated it model_list old) as Hu.
    rewrite E in Hu. simpl in Hu. rewrite Hu; [done|].
    destruct (features old); [done|simpl; lia].
Qed.

(** X21.  Every ensemble the constructor returns has the identifier it was
    given as [base_id]: the ensembles named ['new_models'] that a merge
    builds never give their name to it. *)
Theorem Ensemble_init_id (it : PyObject → result (list Reaction))
  (base_id : string) (model_list : option (list PyObject))
  (join_method : string) (join_size : Z) (e : Ensemble) :
  Ensemble_init it base_id model_list join_method join_size = Ok e →
  ens_id e = base_id.
Proof.
  unfold Ensemble_init.
  destruct (decide (join_method ∉ ["concurrent"; "iterative"])); [done|].
  destruct model_list as [[|o l]|];
    [by intros [= <-]| |by intros [= <-]].
  destruct (decide (join_method = "concurrent")) as [_|_];
    [apply Ensemble_concurrent_id|].
  unfold run_init, init_iterative.
  set (e0 := new_self base_id _). rewrite ST_bind_unfold.
  destruct (set_features_states _ e0) as [[[]|x] e1] eqn:E1; [|done].
  apply set_features_states_id in E1; [|done..].
  rewrite ST_bind_unfold.
  destruct (decide (join_size = 0)%Z) as [_|_]; [done|].
  unfold mret at 1, ST_ret at 1. rewrite ST_bind_unfold.
  destruct (forM_ _ _ e1) as [[[]|x] e2] eqn:E2; [|done].
  assert (ens_id e2 = base_id) as He2.
  { eapply (forM__invariant (λ e, ens_id e = base_id)); [|exact E2|exact E1].
    intros i t t' Ht Hid. rewrite <-Hid.
    exact (update_features_states_id _ _ _ _ Ht). }
  destruct (decide (0 < _)%Z) as [_|_].
  - destruct (update_features_states _ _ e2) as [[[]|x] e3] eqn:E3; [|done].
    intros [= <-]. rewrite <-He2. by eapply update_features_states_id.
  - by intros [= <-].
Qed.

Lemma Ensemble_init_id_witness :
  Ensemble_init iter_TypeError "ens"
    (Some [PyModel model_A; PyModel model_B; PyModel model_G]) "concurrent" 1
  = Ok ensemble_ABG
  ∧ ens_id ensemble_ABG = "ens".
Proof.
  split; [vm_compute; reflexivity|].
  apply (Ensemble_init_id iter_TypeError "ens"
           (Some [PyModel model_A; PyModel model_B; PyModel model_G])
           "concurrent" 1 ensemble_ABG).
  vm_compute. reflexivity.
Defined.

(** ** [_find_feature_from_base]: the ways it ends *)

(** X23.  The ways [_find_feature_from_base] ends: [AssertionError] for a
    feature whose type is not ["reaction"], [AttributeError] when the base
    model has no attribute [reactions], [KeyError] when the base model lacks
    the reaction, and [None] otherwise, whatever the bounds. *)
Theorem find_feature_from_base_outcome (feature : FeatureRow)
  (ensemble : Ensemble) :
  _find_feature_from_base feature ensemble
  = if decide (f_type feature = "reaction") then
      match base_model ensemble with
      | PyModel b | PyLike b =>
          if decide (f_model_identifier feature ∈ reaction_ids b)
          then Ok None else Raise KeyError
      | PyOther => Raise AttributeError
      end
    else Raise AssertionError.
Proof.
  unfold _find_feature_from_base.
  change (row_get feature "type") with (Ok (CStr (f_type feature))).
  rewrite result_bind_Ok.
  destruct (decide (f_type feature = "reaction")) as [Ht|Ht].
  2:{ rewrite decide_False; [done|]. by intros [= ?]. }
  rewrite decide_True by (by rewrite Ht).
  change (row_get feature "model_identifier")
    with (Ok (CStr (f_model_identifier feature))).
  rewrite result_bind_Ok.
  destruct (base_model ensemble) as [b|b|]; [..|done];
    cbn [reactions_of]; rewrite result_bind_Ok; cbn [get_by_id_cell];
    (destruct (decide (f_model_identifier feature ∈ reaction_ids b))
       as [Hin|Hni];
     [apply list_elem_of_fmap in Hin as (r & Hr & Hin);
      destruct (get_by_id_elem _ _ Hin) as [r' Er']; rewrite <-Hr in Er';
      by rewrite Er'
     |unfold get_by_id;
      destruct (list_find _ (reactions b)) as [[j r]|] eqn:E; [|done];
      apply list_find_Some in E as (Hj & Hr & _); destruct Hni;
      apply list_elem_of_fmap; exists r; split; [done|];
      by eapply list_elem_of_lookup_2]).
Qed.

(** ** [_apply_state] *)

Lemma apply_state_body_raises (self : Ensemble)
  (model_states : list (string * option bool)) (u : unit)
  (entry : string * option bool) :
  ∃ x, apply_state_body self model_states u entry = Raise x.
Proof.
  unfold apply_state_body.
  destruct (decide _); [by eexists|].
  destruct (truthy_cell entry.2); [|by eexists].
  destruct (features_loc _ _ "lower_bound") as [v|x];
    [exists NameError|exists x]; reflexivity.
Qed.

Lemma foldM_apply_state_body (self : Ensemble)
  (model_states l : list (string * option bool)) :
  foldM (apply_state_body self model_states) l () = Ok () ↔ l = [].
Proof.
  destruct l as [|entry l]; [done|].
  rewrite foldM_cons.
  destruct (apply_state_body_raises self model_states () entry) as [x ->].
  done.
Qed.

(** X24.  [_apply_state] returns only for a member that has exactly one
    row, and only when that row has no entries; in every other case it
    raises. *)
Theorem apply_state_returns_iff (self : Ensemble) (model_id : string) :
  _apply_state self model_id = Ok ()
  ↔ ∃ row, filter (λ r : StatesRow, r.1 = model_id) (rows (states self))
           = [row]
         ∧ (columns (states self) = [] ∨ row.2 = []).
Proof.
  unfold _apply_state.
  destruct (filter _ (rows (states self))) as [|row [|row' found]].
  - split; [done|]. by intros (row & ? & _).
  - rewrite foldM_apply_state_body. split.
    + intros Hz. exists row. split; [done|].
      destruct (columns (states self)); [by left|].
      destruct row.2; [by right|done].
    + intros (? & [= <-] & [->| ->]); [done|].
      by destruct (columns (states self)).
  - split; [done|]. by intros (row0 & ? & _).
Qed.

Lemma length_filter_fst {B} (i : string) (l : list (string * B)) :
  length (filter (λ r : string * B, r.1 = i) l) = count_of i l.*1.
Proof.
  unfold count_of. induction l as [|r l IH]; [done|].
  rewrite fmap_cons, filter_cons. rewrite filter_cons.
  destruct (decide (r.1 = i)) as [Hr|Hr].
  - rewrite decide_True by done. simpl. by rewrite IH.
  - rewrite decide_False by done. done.
Qed.

Lemma features_loc_lower_bound (df : FeaturesFrame) (label : string) :
  label ∈ df.*1 → ∃ v, features_loc df label "lower_bound" = Ok v.
Proof.
  intros (p & -> & Hp)%list_elem_of_fmap. unfold features_loc.
  assert (p ∈ filter (λ q : string * FeatureRow, q.1 = p.1) df) as Hin
    by (by apply list_elem_of_filter).
  destruct (filter _ df) as [|q found]; [by apply elem_of_nil in Hin|].
  clear. generalize (q :: found). intros l.
  induction l as [|r l [v IH]]; [by eexists|].
  exists (CNum (f_lower_bound r.2) :: v). cbn [mapM].
  change (row_get r.2 "lower_bound") with (Ok (CNum (f_lower_bound r.2))).
  rewrite result_bind_Ok, IH. done.
Qed.

Lemma apply_state_body_NameError (self : Ensemble)
  (model_states : list (string * option bool))
  (entry : string * option bool) :
  count_of entry.1 model_states.*1 ≤ 1 →
  entry.1 ∈ (features self).*1 →
  apply_state_body self model_states () entry = Raise NameError.
Proof.
  intros Hc Hin. unfold apply_state_body.
  rewrite decide_False by lia.
  destruct (truthy_cell entry.2); [|done].
  by destruct (features_loc_lower_bound _ _ Hin) as [v ->].
Qed.

Lemma foldM_apply_state_NameError (self : Ensemble)
  (model_states l : list (string * option bool)) :
  l ≠ [] →
  (∀ entry, entry ∈ l →
     count_of entry.1 model_states.*1 ≤ 1 ∧ entry.1 ∈ (features self).*1) →
  foldM (apply_state_body self model_states) l () = Raise NameError.
Proof.
  destruct l as [|entry l]; [done|]. intros _ Hl.
  destruct (Hl entry) as [Hc Hin]; [left|].
  by rewrite foldM_cons, apply_state_body_NameError.
Qed.

(** X25.  On an ensemble the constructor has returned, [_apply_state]
    always raises: [KeyError] for an identifier that is no member,
    [NameError] for a member, since [rxn] is not bound, and [ValueError] for
    an identifier that several members share. *)
Theorem apply_state_after_init (it : PyObject → result (list Reaction))
  (base_id : string) (model_list : option (list PyObject))
  (join_method : string) (join_size : Z) (e : Ensemble)
  (model_id : string) :
  Ensemble_init it base_id model_list join_method join_size = Ok e →
  _apply_state e model_id
  = Raise (match count_of model_id (rows (states e)).*1 with
           | 0 => KeyError
           | 1 => NameError
           | _ => ValueError
           end).
Proof.
  intros Hbuilt%Ensemble_init_built. revert Hbuilt.
  intros Hb.
  assert (length (filter (λ r : StatesRow, r.1 = model_id) (rows (states e)))
          = count_of model_id (rows (states e)).*1) as <-
    by apply length_filter_fst.
  unfold _apply_state.
  destruct Hb as [[Hf Hs]|(rl & pre & Hne & Hnum & Hnd & Hkeys & Hst)].
  { by rewrite Hs. }
  destruct (filter _ (rows (states e))) as [|row [|row' found]] eqn:Efilter;
    [done| |done].
  cbn [length].
  assert (row ∈ rows (states e)) as Hrow.
  { eapply (list_elem_of_filter (λ r : StatesRow, r.1 = model_id)).
    rewrite Efilter. left. }
  rewrite Hst in Hrow |- *. cbn [states_of rows columns] in Hrow |- *.
  apply list_elem_of_fmap in Hrow as (m & -> & _).
  unfold member_row. cbn [snd]. rewrite zip_fmap.
  apply foldM_apply_state_NameError.
  - by destruct (features e).
  - intros entry (p & -> & Hp)%list_elem_of_fmap. cbn [fst].
    rewrite <-list_fmap_compose.
    assert (p.1 ∈ (features e).*1) as Hin.
    { apply list_elem_of_fmap. by exists p. }
    split; [|done].
    change (count_of p.1 (features e).*1 ≤ 1).
    rewrite count_of_NoDup; [done| |done].
    by apply numbered_NoDup_labels.
Qed.

Lemma apply_state_after_init_witness :
  Ensemble_init iter_TypeError "ens"
    (Some [PyModel model_A; PyModel model_B; PyModel model_F]) "concurrent" 1
  = Ok ensemble_ABF
  ∧ _apply_state ensemble_ABF "B"
    = Raise (match count_of "B" (rows (states ensemble_ABF)).*1 with
             | 0 => KeyError
             | 1 => NameError
             | _ => ValueError
             end).
Proof.
  split; [vm_compute; reflexivity|].
  apply (apply_state_after_init iter_TypeError "ens"
           (Some [PyModel model_A; PyModel model_B; PyModel model_F])
           "concurrent" 1 ensemble_ABF "B").
  vm_compute. reflexivity.
Defined.

(** ** [_resolve_from_both_bases]: what it leaves behind *)

Lemma resolve_not_found_raises (features_only_in : FeaturesFrame)
  (other : Ensemble) (updated_features : FeaturesFrame) (us : StatesFrame) :
  ∃ x, resolve_not_found features_only_in other updated_features us
       = (Raise x, us).
Proof.
  unfold resolve_not_found.
  destruct features_only_in as [|[l feature] rest]; [by eexists|].
  exists KeyError. reflexivity.
Qed.

(** X26.  [_resolve_from_both_bases] never changes [updated_states],
    whatever [features_in] is; and it returns only where it does nothing:
    for a [features_in] other than ["old"] and ["new"], and under ["both"]
    only on a table without rows. *)
Theorem resolve_from_both_bases_effect (features_only_in : FeaturesFrame)
  (new_ensemble old_ensemble : Ensemble) (updated_features : FeaturesFrame)
  (features_in : string) (updated_states : StatesFrame) :
  let r := _resolve_from_both_bases features_only_in new_ensemble
             old_ensemble updated_features features_in updated_states in
  r.2 = updated_states
  ∧ (r.1 = Ok ()
     ↔ features_in ≠ "old" ∧ features_in ≠ "new"
       ∧ (features_in = "both" → features_only_in = [])).
Proof.
  cbn zeta. unfold _resolve_from_both_bases.
  destruct (decide (features_in = "old")) as [->|Hold].
  { rewrite ST_bind_unfold.
    destruct (resolve_old_loop_spec features_only_in new_ensemble None
                updated_states) as (r & -> & Hr).
    destruct r as [v|x]; [|split; [done|split; [done|by intros []]]].
    destruct (Hr v eq_refl) as [[-> _]|[-> Hne]];
      [split; [done|split; [done|by intros []]]|].
    unfold PyNone. cbn [truthy default].
    destruct (resolve_not_found_raises features_only_in new_ensemble
                updated_features updated_states) as [x ->].
    split; [done|split; [done|by intros []]]. }
  destruct (decide (features_in = "new")) as [->|Hnew].
  { split; [done|split; [done|by intros (_ & ? & _)]]. }
  destruct (decide (features_in = "both")) as [->|Hboth].
  { destruct features_only_in as [|p rest].
    - split; [done|]. by split.
    - split; [done|]. split; [done|]. intros (_ & _ & H). by specialize (H eq_refl). }
  split; [done|]. by split.
Qed.
